(** * The oEmbed provider core: validation, response construction, formatting

    A shallow embedding of the request pipeline of the serverless oEmbed
    provider (validator, URL authorizer, response builder, HTML generator,
    output formatter and the orchestrating handler), together with the
    properties its specification states about it.  The later sections embed
    the code around that pipeline (the URL parser, the string, object and
    security helpers, the widget and gallery markup, the backend
    integration and the configuration module) with properties read off
    that code.

    Conventions of the embedding.
    - A JavaScript string is a [string]: each character stands for the
      UTF-16 code unit of the same number, so the strings of the model are
      those whose code units are below 256.
    - A JavaScript number is an integer of [Z]; fractions, NaN and the
      infinities are outside the model.  [parseInt] returns [None] for NaN.
      The model is exact on the integers JavaScript holds exactly, those up
      to 2^53 - 1 in magnitude: beyond them [parseInt] rounds and numbers
      are printed with fewer digits or with an exponent.  The limits of the
      code (1 to 2048, 100 to 2048) lie far inside; a property about numbers
      the code does not bound itself states the bound.
    - An exception is the [Throw] outcome of a [Completion]; [await] of a
      promise is its completion.
    - Built-ins the source only calls ([new URL], [decodeURIComponent], the
      clock and the random source) are fields of a [Host].
    - Logging and tracing calls return nothing the pipeline reads and are
      left out; the tracing wrappers run their operation and hand back its
      completion. *)

From stdpp Require Import gmap strings list pretty.
From Stdlib Require Import ZArith Lia Ascii String.
From Stdlib Require HexadecimalString.

Open Scope Z_scope.

(** ** JavaScript values *)

Inductive JsValue : Type :=
| JUndefined
| JNull
| JBool (b : bool)
| JNum (n : Z)
| JStr (s : string).

(** ToBoolean. *)
Definition truthy (v : JsValue) : bool :=
  match v with
  | JUndefined | JNull => false
  | JBool b => b
  | JNum n => negb (n =? 0)
  | JStr s => negb (String.eqb s "")
  end.

(** [v === undefined] and [v === null]. *)
Definition is_undefined (v : JsValue) : bool :=
  match v with JUndefined => true | _ => false end.

Definition is_null (v : JsValue) : bool :=
  match v with JNull => true | _ => false end.

(** The operator [a || b]. *)
Definition js_or (a b : JsValue) : JsValue := if truthy a then a else b.

(** ToString on primitives.  A number is printed with all its digits, as
    JavaScript prints the integers it holds exactly. *)
Definition ToString (v : JsValue) : string :=
  match v with
  | JUndefined => "undefined"
  | JNull => "null"
  | JBool true => "true"
  | JBool false => "false"
  | JNum n => pretty n
  | JStr s => s
  end.

(** A value of type [number | null | undefined], as the dimension
    parameters are documented. *)
Inductive Dimension : Type :=
| DUndefined
| DNull
| DNum (n : Z).

Definition dim_js (d : Dimension) : JsValue :=
  match d with
  | DUndefined => JUndefined
  | DNull => JNull
  | DNum n => JNum n
  end.

Coercion dim_js : Dimension >-> JsValue.

(** A query parameter or environment variable: a string, or undefined. *)
Definition opt_js (o : option string) : JsValue :=
  match o with
  | Some s => JStr s
  | None => JUndefined
  end.

(** [o || d] for an optional string and a string default. *)
Definition str_or (o : option string) (d : string) : string :=
  match o with
  | Some s => if String.eqb s "" then d else s
  | None => d
  end.

(** ** Completions: normal return or a thrown error *)

Inductive Completion (A : Type) : Type :=
| Normal (a : A)
| Throw (message : string).

Arguments Normal {A} a.
Arguments Throw {A} message.

#[global] Instance Completion_ret : MRet Completion := fun A a => Normal a.
#[global] Instance Completion_bind : MBind Completion := fun A B f c =>
  match c with
  | Normal a => f a
  | Throw e => Throw e
  end.

#[global] Instance Completion_fmap : FMap Completion := fun A B f c =>
  match c with
  | Normal a => Normal (f a)
  | Throw e => Throw e
  end.

(** [try { c } catch (error) { h error }]. *)
Definition try_catch {A} (c : Completion A) (h : string -> Completion A)
  : Completion A :=
  match c with
  | Normal a => Normal a
  | Throw e => h e
  end.

(** ** Objects with insertion-ordered keys *)

(** An object whose values are primitives, as the list of its properties in
    insertion order, which is the order of [Object.entries] and of
    [JSON.stringify] for keys that are no array indices. *)

Definition JsObject : Type := list (string * JsValue).

(** [obj[key]]; a missing key reads as undefined. *)
Fixpoint obj_get (key : string) (o : JsObject) : JsValue :=
  match o with
  | [] => JUndefined
  | (k, v) :: rest => if String.eqb k key then v else obj_get key rest
  end.

(** [obj[key] = v]: an existing key keeps its place, a new key goes last. *)
Fixpoint obj_set (key : string) (v : JsValue) (o : JsObject) : JsObject :=
  match o with
  | [] => [(key, v)]
  | (k, w) :: rest =>
      if String.eqb k key then (k, v) :: rest else (k, w) :: obj_set key v rest
  end.

(** [key in obj]. *)
Fixpoint obj_has (key : string) (o : JsObject) : bool :=
  match o with
  | [] => false
  | (k, _) :: rest => String.eqb k key || obj_has key rest
  end.

(** ** String built-ins *)

(** [s.endsWith(suffix)]. *)
Definition endsWith (s suffix : string) : bool :=
  let n := String.length s in
  let k := String.length suffix in
  if (k <=? n)%nat then String.eqb (String.substring (n - k) k s) suffix
  else false.

(** [s.replace(/c/g, r)] for a one-character pattern. *)
Fixpoint replaceAll (c : ascii) (r : string) (s : string) : string :=
  match s with
  | EmptyString => EmptyString
  | String a rest =>
      if Ascii.eqb a c then r +:+ replaceAll c r rest
      else String a (replaceAll c r rest)
  end.

(** [parts.join(sep)]. *)
Fixpoint join (sep : string) (parts : list string) : string :=
  match parts with
  | [] => ""
  | [p] => p
  | p :: rest => p +:+ sep +:+ join sep rest
  end.

(** StrWhiteSpaceChar among the code units below 256: TAB, LF, VT, FF, CR,
    SP and NBSP. *)
Definition isWhiteSpace (c : ascii) : bool :=
  let n := nat_of_ascii c in
  ((9 <=? n) && (n <=? 13) || (n =? 32) || (n =? 160))%nat.

Fixpoint trimStart (s : string) : string :=
  match s with
  | EmptyString => EmptyString
  | String c rest => if isWhiteSpace c then trimStart rest else s
  end.

Definition digitValue (c : ascii) : option Z :=
  let n := nat_of_ascii c in
  if ((48 <=? n) && (n <=? 57))%nat then Some (Z.of_nat n - 48) else None.

(** The value of the longest prefix of decimal digits, [None] when the
    prefix is empty.  [acc] is [None] until a digit has been read. *)
Fixpoint leadingDigits (acc : option Z) (s : string) : option Z :=
  match s with
  | EmptyString => acc
  | String c rest =>
      match digitValue c with
      | Some d => leadingDigits (Some (10 * default 0 acc + d)) rest
      | None => acc
      end
  end.

(** [parseInt(s, 10)]: leading white space is skipped, a sign is read, then
    the longest run of digits; anything after it is ignored.  [None] is NaN.
    The value is the exact integer, which is what JavaScript returns up to
    2^53 - 1 in magnitude. *)
Definition parseInt (s : string) : option Z :=
  match trimStart s with
  | String "-" rest => Z.opp <$> leadingDigits None rest
  | String "+" rest => leadingDigits None rest
  | t => leadingDigits None t
  end.

(** ** utils/constants *)

Module HTTP_STATUS.
Definition OK : Z := 200.
Definition BAD_REQUEST : Z := 400.
Definition UNAUTHORIZED : Z := 401.
Definition NOT_FOUND : Z := 404.
Definition NOT_IMPLEMENTED : Z := 501.
Definition INTERNAL_SERVER_ERROR : Z := 500.
End HTTP_STATUS.

Module OEMBED.
Definition VERSION : string := "1.0".
Definition FORMATS : list string := ["json"; "xml"].
Definition DEFAULT_FORMAT : string := "json".
Definition DEFAULT_CACHE_AGE : Z := 3600.
Definition MAX_WIDTH_LIMIT : Z := 2048.
Definition MAX_HEIGHT_LIMIT : Z := 2048.
Definition MIN_DIMENSION : Z := 1.
End OEMBED.

(** [DEFAULT_CACHE_AGES]: the per-type table of the constants module.  The
    backend integration reads it; the response builder does not. *)
Definition DEFAULT_CACHE_AGES (type : string) : option Z :=
  if String.eqb type "photo" then Some 7200
  else if String.eqb type "video" then Some 3600
  else if String.eqb type "rich" then Some 1800
  else if String.eqb type "link" then Some 3600
  else None.

Module DEFAULT_DIMENSIONS.
Module video.
Definition width : Z := 640.
Definition height : Z := 360.
End video.
Module rich.
Definition width : Z := 500.
Definition height : Z := 300.
End rich.
Module photo.
Definition width : Z := 800.
Definition height : Z := 600.
End photo.
End DEFAULT_DIMENSIONS.

(** [ERROR_CODES]: each code is the string of its own name. *)
Inductive ErrorCode : Type :=
| MISSING_URL
| INVALID_URL
| MALFORMED_URL
| UNAUTHORIZED_DOMAIN
| INVALID_FORMAT
| INVALID_MAXWIDTH
| INVALID_MAXHEIGHT
| CONTENT_NOT_FOUND
| BACKEND_ERROR
| MISSING_PROVIDER_DOMAIN
| MISSING_REQUIRED_FIELD
| INTERNAL_ERROR.

Definition code_name (c : ErrorCode) : string :=
  match c with
  | MISSING_URL => "MISSING_URL"
  | INVALID_URL => "INVALID_URL"
  | MALFORMED_URL => "MALFORMED_URL"
  | UNAUTHORIZED_DOMAIN => "UNAUTHORIZED_DOMAIN"
  | INVALID_FORMAT => "INVALID_FORMAT"
  | INVALID_MAXWIDTH => "INVALID_MAXWIDTH"
  | INVALID_MAXHEIGHT => "INVALID_MAXHEIGHT"
  | CONTENT_NOT_FOUND => "CONTENT_NOT_FOUND"
  | BACKEND_ERROR => "BACKEND_ERROR"
  | MISSING_PROVIDER_DOMAIN => "MISSING_PROVIDER_DOMAIN"
  | MISSING_REQUIRED_FIELD => "MISSING_REQUIRED_FIELD"
  | INTERNAL_ERROR => "INTERNAL_ERROR"
  end.

Definition ERROR_MESSAGES (c : ErrorCode) : string :=
  match c with
  | MISSING_URL => "URL parameter is required"
  | INVALID_URL => "Invalid URL format"
  | MALFORMED_URL => "Invalid URL"
  | UNAUTHORIZED_DOMAIN => "Provider Domain Not Found"
  | INVALID_FORMAT => "Format not implemented"
  | INVALID_MAXWIDTH => "Maxwidth must be a number between 1 and 2048"
  | INVALID_MAXHEIGHT => "Maxheight must be a number between 1 and 2048"
  | CONTENT_NOT_FOUND => "Content not found"
  | BACKEND_ERROR => "Backend service error"
  | MISSING_PROVIDER_DOMAIN => "Provider domain not configured"
  | MISSING_REQUIRED_FIELD => "Required field missing for content type"
  | INTERNAL_ERROR => "Internal server error"
  end.

Module SECURITY.
Definition ALLOWED_PROTOCOLS : list string := ["http:"; "https:"].
Definition IFRAME_SANDBOX_ATTRIBUTES : string :=
    "allow-scripts allow-same-origin allow-presentation".
Definition IFRAME_ALLOW_ATTRIBUTES : string :=
    "accelerometer; autoplay; clipboard-write; encrypted-media; gyroscope; picture-in-picture".
Definition MAX_URL_LENGTH : nat := 2048.
End SECURITY.

Module CACHE_CONTROL.
Definition DEFAULT_MAX_AGE : Z := 3600.
End CACHE_CONTROL.

Module CORS.
Definition ALLOW_ORIGIN : string := "*".
End CORS.

(** [list.includes(x)] on strings. *)
Definition includes (l : list string) (x : string) : bool :=
  existsb (String.eqb x) l.

(** ** The host: built-ins and process state *)

(** The fields of a parsed [URL] object the source reads; [href] is what
    [toString()] returns. *)
Record URL : Type := {
  protocol : string;
  host : string;
  hostname : string;
  pathname : string;
  search : string;
  hash : string;
  href : string;
}.

(** [process.env], restricted to the variables the core reads. *)
Record Env : Type := {
  PROVIDER_NAME : option string;
  PROVIDER_URL : option string;
  PROVIDER_DOMAIN : option string;
}.

Record Host : Type := {
  (** the WHATWG URL parser; [None] where [new URL(s)] throws *)
  URL_parse : string -> option URL;
  (** [decodeURIComponent], which throws URIError on malformed escapes *)
  decodeURIComponent : string -> Completion string;
  (** [new Date().toISOString()] *)
  Date_toISOString : string;
  (** [Date.now()] *)
  Date_now : Z;
  (** [Math.random().toString(36).substring(2, 11)] *)
  random_base36 : string;
  env : Env;
}.

(** [new URL(s)]. *)
Definition new_URL (h : Host) (s : string) : Completion URL :=
  match URL_parse h s with
  | Some u => Normal u
  | None => Throw "TypeError: Invalid URL"
  end.

(** ** utils/security *)

Inductive UrlValidation : Type :=
| UrlInvalid (error : string)
| UrlValid (sanitizedUrl protocol hostname pathname : string).

(** [validateAndSanitizeUrl(url)] for a string or undefined argument. *)
Definition validateAndSanitizeUrl (h : Host) (url : option string)
  : UrlValidation :=
  match url with
  | None => UrlInvalid "URL must be a non-empty string"
  | Some url =>
  if (String.length url =? 0)%nat then
    UrlInvalid "URL must be a non-empty string"
  else if (SECURITY.MAX_URL_LENGTH <? String.length url)%nat then
    UrlInvalid "URL exceeds maximum length"
  else
    let attempt :=
      urlObj ← new_URL h url;
      if negb (includes SECURITY.ALLOWED_PROTOCOLS (protocol urlObj)) then
        mret (UrlInvalid "Only HTTP and HTTPS protocols are allowed")
      else
        let sanitizedUrl :=
          protocol urlObj +:+ "//" +:+ host urlObj +:+ pathname urlObj
          +:+ search urlObj +:+ hash urlObj in
        mret (UrlValid sanitizedUrl (protocol urlObj) (hostname urlObj)
                (pathname urlObj)) in
    match attempt with
    | Normal r => r
    | Throw _ => UrlInvalid "Invalid URL format"
    end
  end.

Inductive NumericValidation : Type :=
| NumericInvalid (error : string)
| NumericValid (value : Z).

(** [validateNumeric(value, min, max)] on a string value. *)
Definition validateNumeric (value : string) (min max : Z) : NumericValidation :=
  match parseInt value with
  | None => NumericInvalid "Value must be a number"
  | Some num =>
      if (num <? min) || (max <? num) then
        NumericInvalid
          ("Value must be between " +:+ pretty min +:+ " and " +:+ pretty max)
      else NumericValid num
  end.

(** ** core/validator *)

Record ValidationError : Type := {
  field : string;
  message : string;
  code : ErrorCode;
}.

Record ValidationResult : Type := {
  isValid : bool;
  errors : list ValidationError;
  format : string;
}.

Definition VALID_FORMATS : list string := OEMBED.FORMATS.
Definition MIN_DIMENSION : Z := OEMBED.MIN_DIMENSION.
Definition MAX_WIDTH_LIMIT : Z := OEMBED.MAX_WIDTH_LIMIT.
Definition MAX_HEIGHT_LIMIT : Z := OEMBED.MAX_HEIGHT_LIMIT.

Definition createValidationError (field message : string) (code : ErrorCode)
  : ValidationError :=
  {| field := field; message := message; code := code |}.

(** [validateDimension(value, fieldName, errorCode)]: the error object, or
    [None] for null. *)
Definition validateDimension (value fieldName : string) (errorCode : ErrorCode)
  : option ValidationError :=
  let maxLimit :=
    if String.eqb fieldName "maxwidth" then MAX_WIDTH_LIMIT
    else MAX_HEIGHT_LIMIT in
  match validateNumeric value MIN_DIMENSION maxLimit with
  | NumericInvalid _ =>
      Some (createValidationError fieldName (ERROR_MESSAGES errorCode) errorCode)
  | NumericValid _ => None
  end.

(** The query string parameters: a map from names to strings. *)
Abbreviation QueryParams := (gmap string string).

(** [validateOembedParams(queryParams)]; [None] is a null argument.  Each
    [errors.push] appends to the list built so far. *)
Definition validateOembedParams (queryParams : option QueryParams)
  : ValidationResult :=
  let params : QueryParams := default ∅ queryParams in
  let errors0 : list ValidationError := [] in
  let errors1 :=
    if negb (truthy (opt_js (params !! "url"))) then
      errors0 ++ [createValidationError "url" (ERROR_MESSAGES MISSING_URL)
                    MISSING_URL]
    else errors0 in
  let format := str_or (params !! "format") OEMBED.DEFAULT_FORMAT in
  let errors2 :=
    if negb (includes VALID_FORMATS format) then
      errors1 ++ [createValidationError "format" (ERROR_MESSAGES INVALID_FORMAT)
                    INVALID_FORMAT]
    else errors1 in
  let errors3 :=
    match params !! "maxwidth" with
    | Some maxwidth =>
        match validateDimension maxwidth "maxwidth" INVALID_MAXWIDTH with
        | Some maxwidthError => errors2 ++ [maxwidthError]
        | None => errors2
        end
    | None => errors2
    end in
  let errors4 :=
    match params !! "maxheight" with
    | Some maxheight =>
        match validateDimension maxheight "maxheight" INVALID_MAXHEIGHT with
        | Some maxheightError => errors3 ++ [maxheightError]
        | None => errors3
        end
    | None => errors3
    end in
  {| isValid := (List.length errors4 =? 0)%nat; errors := errors4; format := format |}.

Inductive UrlAuthorization : Type :=
| AuthInvalid (error : string) (code : ErrorCode) (details : option string)
| AuthValid (urlObj : URL) (hostname pathname : string).

(** [validateAndAuthorizeUrl(url)].  The last step builds [new URL] of the
    sanitized URL outside any [try], so its failure is thrown. *)
Definition validateAndAuthorizeUrl (h : Host) (url : option string)
  : Completion UrlAuthorization :=
  match validateAndSanitizeUrl h url with
  | UrlInvalid error =>
      mret (AuthInvalid (ERROR_MESSAGES MALFORMED_URL) MALFORMED_URL (Some error))
  | UrlValid sanitizedUrl _ hostname pathname =>
      let providerDomain := PROVIDER_DOMAIN (env h) in
      if negb (truthy (opt_js providerDomain)) then
        mret (AuthInvalid (ERROR_MESSAGES MISSING_PROVIDER_DOMAIN)
                MISSING_PROVIDER_DOMAIN None)
      else
        let providerDomain := default "" providerDomain in
        if negb (endsWith hostname providerDomain) then
          mret (AuthInvalid (ERROR_MESSAGES UNAUTHORIZED_DOMAIN)
                  UNAUTHORIZED_DOMAIN
                  (Some ("URL hostname " +:+ hostname
                         +:+ " does not match provider domain "
                         +:+ providerDomain)))
        else
          urlObj ← new_URL h sanitizedUrl;
          mret (AuthValid urlObj hostname pathname)
  end.

(** [safeParseInteger(value)]: a number, or [DNull]. *)
Definition safeParseInteger (h : Host) (value : string) : Dimension :=
  let attempt :=
    decoded ← decodeURIComponent h value;
    mret (match parseInt decoded with
          | None => DNull
          | Some parsed => DNum parsed
          end) in
  match attempt with
  | Normal r => r
  | Throw _ =>
      match parseInt value with
      | None => DNull
      | Some parsed => DNum parsed
      end
  end.

Record SanitizedParams : Type := {
  sanitized_url : option string;
  sanitized_format : string;
  sanitized_maxwidth : Dimension;
  sanitized_maxheight : Dimension;
}.

(** [sanitizeParams(queryParams)]; a key never assigned reads undefined. *)
Definition sanitizeParams (h : Host) (queryParams : option QueryParams)
  : SanitizedParams :=
  let params : QueryParams := default ∅ queryParams in
  {| sanitized_url :=
       match params !! "url" with
       | Some url =>
           if truthy (JStr url) then
             match decodeURIComponent h url with
             | Normal decoded => Some decoded
             | Throw _ => Some url
             end
           else None
       | None => None
       end;
     sanitized_format := str_or (params !! "format") OEMBED.DEFAULT_FORMAT;
     sanitized_maxwidth :=
       match params !! "maxwidth" with
       | Some maxwidth => safeParseInteger h maxwidth
       | None => DUndefined
       end;
     sanitized_maxheight :=
       match params !! "maxheight" with
       | Some maxheight => safeParseInteger h maxheight
       | None => DUndefined
       end |}.

(** ** utils/helpers *)

Definition DQ : string := String "034" "".
Definition LF : string := String "010" "".

(** [escapeXml(unsafe)] on a string: five replacements, one after another. *)
Definition escapeXml (unsafe : string) : string :=
  if negb (truthy (JStr unsafe)) then ""
  else
    replaceAll "'" "&apos;"
      (replaceAll "034" "&quot;"
         (replaceAll ">" "&gt;"
            (replaceAll "<" "&lt;"
               (replaceAll "&" "&amp;" unsafe)))).

(** ** Content metadata *)

(** The metadata object of the backend: the properties the core reads.
    [width] and [height] take part in arithmetic and are typed as
    documented; every other property may hold any primitive. *)
Record Metadata : Type := {
  md_type : JsValue;
  md_title : JsValue;
  md_author_name : JsValue;
  md_author : JsValue;
  md_author_url : JsValue;
  md_authorUrl : JsValue;
  md_cache_age : JsValue;
  md_thumbnail_url : JsValue;
  md_thumbnail : JsValue;
  md_thumbnail_width : JsValue;
  md_thumbnail_height : JsValue;
  md_url : JsValue;
  md_html : JsValue;
  md_embedUrl : JsValue;
  md_content : JsValue;
  md_width : Dimension;
  md_height : Dimension;
}.

(** [{ ...metadata, type: t }]. *)
Definition with_type (metadata : Metadata) (t : JsValue) : Metadata :=
  {| md_type := t;
     md_title := md_title metadata;
     md_author_name := md_author_name metadata;
     md_author := md_author metadata;
     md_author_url := md_author_url metadata;
     md_authorUrl := md_authorUrl metadata;
     md_cache_age := md_cache_age metadata;
     md_thumbnail_url := md_thumbnail_url metadata;
     md_thumbnail := md_thumbnail metadata;
     md_thumbnail_width := md_thumbnail_width metadata;
     md_thumbnail_height := md_thumbnail_height metadata;
     md_url := md_url metadata;
     md_html := md_html metadata;
     md_embedUrl := md_embedUrl metadata;
     md_content := md_content metadata;
     md_width := md_width metadata;
     md_height := md_height metadata |}.

(** ** oembed/html-generator *)

Module IFRAME_SECURITY_ATTRS.
Definition frameborder : string := "0".
Definition allow : string := SECURITY.IFRAME_ALLOW_ATTRIBUTES.
Definition sandbox : string := SECURITY.IFRAME_SANDBOX_ATTRIBUTES.
End IFRAME_SECURITY_ATTRS.

Definition VIDEO_NOT_AVAILABLE : string :=
  "<div class=" +:+ DQ +:+ "video-error" +:+ DQ
  +:+ ">Video content not available</div>".

(** [sanitizeUrl(url)]: the canonical form of an http(s) URL, or the empty
    string. *)
Definition sanitizeUrl (h : Host) (url : JsValue) : Completion string :=
  if negb (truthy url) then mret ""
  else
    try_catch
      (urlObj ← new_URL h (ToString url);
       if negb (includes ["http:"; "https:"] (protocol urlObj)) then mret ""
       else mret (href urlObj))
      (fun error => mret "").

(** [sanitizeHtmlContent(content)]. *)
Definition sanitizeHtmlContent (content : JsValue) : string :=
  if negb (truthy content) then ""
  else
    replaceAll "/" "&#x2F;"
      (replaceAll "'" "&#x27;"
         (replaceAll "034" "&quot;"
            (replaceAll ">" "&gt;"
               (replaceAll "<" "&lt;"
                  (replaceAll "&" "&amp;" (ToString content)))))).

(** The iframe markup of [generateVideoHtml]. *)
Definition videoIframe (sanitizedUrl safeWidth safeHeight : string) : string :=
  "<iframe src=" +:+ DQ +:+ sanitizedUrl +:+ DQ
  +:+ " width=" +:+ DQ +:+ safeWidth +:+ DQ
  +:+ " height=" +:+ DQ +:+ safeHeight +:+ DQ
  +:+ " frameborder=" +:+ DQ +:+ IFRAME_SECURITY_ATTRS.frameborder +:+ DQ
  +:+ " allowfullscreen allow=" +:+ DQ +:+ IFRAME_SECURITY_ATTRS.allow +:+ DQ
  +:+ " sandbox=" +:+ DQ +:+ IFRAME_SECURITY_ATTRS.sandbox +:+ DQ
  +:+ "></iframe>".

(** [generateVideoHtml(metadata, width, height)]. *)
Definition generateVideoHtml (h : Host) (metadata : Metadata)
    (width height : Dimension) : Completion string :=
  let embedUrl :=
    js_or (js_or (md_embedUrl metadata) (md_url metadata)) (JStr "") in
  let safeWidth :=
    js_or (js_or width (md_width metadata))
      (JNum DEFAULT_DIMENSIONS.video.width) in
  let safeHeight :=
    js_or (js_or height (md_height metadata))
      (JNum DEFAULT_DIMENSIONS.video.height) in
  if negb (truthy embedUrl) then mret VIDEO_NOT_AVAILABLE
  else
    sanitizedUrl ← sanitizeUrl h embedUrl;
    if negb (truthy (JStr sanitizedUrl)) then mret VIDEO_NOT_AVAILABLE
    else mret (videoIframe sanitizedUrl (ToString safeWidth)
                 (ToString safeHeight)).

(** [generateRichHtml(metadata, width, height)]; pre-built [html] is handed
    back as it is, whatever its type. *)
Definition generateRichHtml (metadata : Metadata) (width height : Dimension)
  : JsValue :=
  let safeWidth :=
    js_or (js_or width (md_width metadata))
      (JNum DEFAULT_DIMENSIONS.rich.width) in
  let safeHeight :=
    js_or (js_or height (md_height metadata))
      (JNum DEFAULT_DIMENSIONS.rich.height) in
  if truthy (md_html metadata) then md_html metadata
  else
    let content := js_or (md_content metadata) (JStr "Rich content") in
    JStr ("<div class=" +:+ DQ +:+ "rich-content" +:+ DQ
          +:+ " style=" +:+ DQ +:+ "width:" +:+ ToString safeWidth
          +:+ "px;height:" +:+ ToString safeHeight
          +:+ "px;border:1px solid #ddd;padding:10px;overflow:auto;" +:+ DQ
          +:+ ">" +:+ sanitizeHtmlContent content +:+ "</div>").

(** ** oembed/response-builder *)

(** [{ ...base, k1: v1, ..., kn: vn }]. *)
Definition spread (base : JsObject) (props : list (string * JsValue))
  : JsObject :=
  fold_left (fun o kv => obj_set kv.1 kv.2 o) props base.

Definition BASE_RESPONSE_TEMPLATE : JsObject :=
  [("version", JStr OEMBED.VERSION);
   ("cache_age", JNum OEMBED.DEFAULT_CACHE_AGE)].

Definition buildBaseResponse (h : Host) (metadata : Metadata) : JsObject :=
  spread BASE_RESPONSE_TEMPLATE
    [("type", js_or (md_type metadata) (JStr "rich"));
     ("provider_name",
       JStr (str_or (PROVIDER_NAME (env h)) "oEmbed Provider"));
     ("provider_url",
       JStr (str_or (PROVIDER_URL (env h)) "https://example.com"))].

(** [addOptionalFields(response, metadata)]: the response after the
    assignments. *)
Definition addOptionalFields (response : JsObject) (metadata : Metadata)
  : JsObject :=
  let response :=
    if truthy (md_title metadata) then
      obj_set "title" (md_title metadata) response
    else response in
  let authorName := js_or (md_author_name metadata) (md_author metadata) in
  let response :=
    if truthy authorName then obj_set "author_name" authorName response
    else response in
  let authorUrl := js_or (md_author_url metadata) (md_authorUrl metadata) in
  let response :=
    if truthy authorUrl then obj_set "author_url" authorUrl response
    else response in
  if negb (is_undefined (md_cache_age metadata)) then
    obj_set "cache_age" (md_cache_age metadata) response
  else response.

(** [addThumbnailFields(response, metadata)]. *)
Definition addThumbnailFields (response : JsObject) (metadata : Metadata)
  : JsObject :=
  let thumbnailUrl :=
    js_or (md_thumbnail_url metadata) (md_thumbnail metadata) in
  if truthy thumbnailUrl then
    let response := obj_set "thumbnail_url" thumbnailUrl response in
    let response :=
      if truthy (md_thumbnail_width metadata) then
        obj_set "thumbnail_width" (md_thumbnail_width metadata) response
      else response in
    if truthy (md_thumbnail_height metadata) then
      obj_set "thumbnail_height" (md_thumbnail_height metadata) response
    else response
  else response.

(** [a || b] on dimensions. *)
Definition dim_or (a b : Dimension) : Dimension := if truthy a then a else b.

(** [calculateConstrainedDimension(originalDimension, constraint)].  Past
    the two guards both arguments are truthy, hence numbers
    ([truthy_dimension]), and [Math.min] is the minimum of the two; the last
    case of the match is never reached. *)
Definition calculateConstrainedDimension (originalDimension constraint : Dimension)
  : Dimension :=
  if negb (truthy originalDimension) then dim_or constraint DNull
  else if negb (truthy constraint) then originalDimension
  else
    match originalDimension, constraint with
    | DNum o, DNum c => DNum (Z.min o c)
    | _, _ => originalDimension
    end.

Definition createPhotoResponse (baseResponse : JsObject) (metadata : Metadata)
    (maxwidth maxheight : Dimension) : Completion JsObject :=
  if negb (truthy (md_url metadata)) then
    Throw "Photo type requires url field"
  else
    let width :=
      dim_or (calculateConstrainedDimension (md_width metadata) maxwidth)
        (DNum DEFAULT_DIMENSIONS.photo.width) in
    let height :=
      dim_or (calculateConstrainedDimension (md_height metadata) maxheight)
        (DNum DEFAULT_DIMENSIONS.photo.height) in
    mret (spread baseResponse
            [("url", md_url metadata);
             ("width", dim_js width);
             ("height", dim_js height)]).

Definition createVideoResponse (h : Host) (baseResponse : JsObject)
    (metadata : Metadata) (maxwidth maxheight : Dimension)
  : Completion JsObject :=
  if negb (truthy (md_embedUrl metadata)) && negb (truthy (md_html metadata))
  then Throw "Video type requires embedUrl or html field"
  else
    let width :=
      dim_or (calculateConstrainedDimension (md_width metadata) maxwidth)
        (DNum DEFAULT_DIMENSIONS.video.width) in
    let height :=
      dim_or (calculateConstrainedDimension (md_height metadata) maxheight)
        (DNum DEFAULT_DIMENSIONS.video.height) in
    html ← (if truthy (md_html metadata) then mret (md_html metadata)
            else JStr <$> generateVideoHtml h metadata width height);
    mret (spread baseResponse
            [("html", html);
             ("width", dim_js width);
             ("height", dim_js height)]).

Definition createLinkResponse (baseResponse : JsObject) (metadata : Metadata)
  : Completion JsObject :=
  mret baseResponse.

Definition createRichResponse (baseResponse : JsObject) (metadata : Metadata)
    (maxwidth maxheight : Dimension) : Completion JsObject :=
  let width :=
    dim_or (calculateConstrainedDimension (md_width metadata) maxwidth)
      (DNum DEFAULT_DIMENSIONS.rich.width) in
  let height :=
    dim_or (calculateConstrainedDimension (md_height metadata) maxheight)
      (DNum DEFAULT_DIMENSIONS.rich.height) in
  mret (spread baseResponse
          [("type", JStr "rich");
           ("html", js_or (md_html metadata)
                      (generateRichHtml metadata width height));
           ("width", dim_js width);
           ("height", dim_js height)]).

(** [switch (contentType)]: each [case] compares with strict equality, so
    only a string can match. *)
Definition js_is (v : JsValue) (s : string) : bool :=
  match v with
  | JStr t => String.eqb t s
  | _ => false
  end.

Definition createTypeSpecificResponse (h : Host) (metadata : Metadata)
    (maxwidth maxheight : Dimension) : Completion JsObject :=
  let baseResponse := buildBaseResponse h metadata in
  let baseResponse := addOptionalFields baseResponse metadata in
  let baseResponse := addThumbnailFields baseResponse metadata in
  let contentType := js_or (md_type metadata) (JStr "rich") in
  if js_is contentType "photo" then
    createPhotoResponse baseResponse metadata maxwidth maxheight
  else if js_is contentType "video" then
    createVideoResponse h baseResponse metadata maxwidth maxheight
  else if js_is contentType "link" then
    createLinkResponse baseResponse metadata
  else if js_is contentType "rich" then
    createRichResponse baseResponse metadata maxwidth maxheight
  else
    createRichResponse baseResponse (with_type metadata (JStr "rich"))
      maxwidth maxheight.

(** ** core/formatter *)

Record HttpResponse : Type := {
  statusCode : Z;
  headers : list (string * string);
  body : string;
}.

Definition JSON_HEADERS : list (string * string) :=
  [("Content-Type", "application/json");
   ("Access-Control-Allow-Origin", CORS.ALLOW_ORIGIN)].

Definition XML_HEADERS : list (string * string) :=
  [("Content-Type", "text/xml");
   ("Access-Control-Allow-Origin", CORS.ALLOW_ORIGIN)].

Definition XML_DECLARATION : string :=
  "<?xml version=" +:+ DQ +:+ "1.0" +:+ DQ
  +:+ " encoding=" +:+ DQ +:+ "utf-8" +:+ DQ
  +:+ " standalone=" +:+ DQ +:+ "yes" +:+ DQ +:+ "?>".

Definition hexDigit (n : nat) : ascii :=
  if (n <? 10)%nat then ascii_of_nat (48 + n) else ascii_of_nat (87 + n).

(** QuoteJSONString, one code unit at a time. *)
Definition jsonEscapeChar (c : ascii) : string :=
  let n := nat_of_ascii c in
  if (n =? 8)%nat then "\b"
  else if (n =? 9)%nat then "\t"
  else if (n =? 10)%nat then "\n"
  else if (n =? 12)%nat then "\f"
  else if (n =? 13)%nat then "\r"
  else if (n =? 34)%nat then "\" +:+ DQ
  else if (n =? 92)%nat then "\\"
  else if (n <? 32)%nat then
    "\u00" +:+ String (hexDigit (n / 16)) (String (hexDigit (n mod 16)) "")
  else String c "".

Fixpoint jsonEscape (s : string) : string :=
  match s with
  | EmptyString => EmptyString
  | String c rest => jsonEscapeChar c +:+ jsonEscape rest
  end.

Definition quoteJSONString (s : string) : string :=
  DQ +:+ jsonEscape s +:+ DQ.

(** The JSON text of a primitive; [None] for undefined, whose property
    [JSON.stringify] leaves out. *)
Definition jsonValue (v : JsValue) : option string :=
  match v with
  | JUndefined => None
  | JNull => Some "null"
  | JBool true => Some "true"
  | JBool false => Some "false"
  | JNum n => Some (pretty n)
  | JStr s => Some (quoteJSONString s)
  end.

(** The members [JSON.stringify(data)] writes, in key order: the key and the
    JSON text of its value. *)
Definition jsonMembers (data : JsObject) : list (string * string) :=
  omap (fun kv => pair kv.1 <$> jsonValue kv.2) data.

Definition JSON_stringify (data : JsObject) : string :=
  "{" +:+ join "," (map (fun m => quoteJSONString m.1 +:+ ":" +:+ m.2)
                      (jsonMembers data)) +:+ "}".

Definition formatJsonResponse (data : JsObject) : HttpResponse :=
  let cacheAge :=
    js_or (obj_get "cache_age" data) (JNum CACHE_CONTROL.DEFAULT_MAX_AGE) in
  {| statusCode := 200;
     headers := JSON_HEADERS
                ++ [("Cache-Control", "max-age=" +:+ ToString cacheAge)];
     body := JSON_stringify data |}.

(** The child elements [generateXmlBody] writes, in key order: the tag and
    the escaped text. *)
Definition xmlElements (data : JsObject) : list (string * string) :=
  map (fun kv => (kv.1, escapeXml (ToString kv.2)))
    (List.filter
       (fun kv => negb (is_undefined kv.2) && negb (is_null kv.2)) data).

Definition generateXmlBody (data : JsObject) : string :=
  XML_DECLARATION +:+ LF +:+ "<oembed>" +:+ LF
  +:+ join LF (map (fun e => "  <" +:+ e.1 +:+ ">" +:+ e.2
                             +:+ "</" +:+ e.1 +:+ ">")
                 (xmlElements data))
  +:+ LF +:+ "</oembed>".

Definition formatXmlResponse (data : JsObject) : HttpResponse :=
  let cacheAge :=
    js_or (obj_get "cache_age" data) (JNum CACHE_CONTROL.DEFAULT_MAX_AGE) in
  let xmlBody := generateXmlBody data in
  {| statusCode := 200;
     headers := XML_HEADERS
                ++ [("Cache-Control", "max-age=" +:+ ToString cacheAge)];
     body := xmlBody |}.

Definition formatResponse (data : JsObject) (format : string) : HttpResponse :=
  if String.eqb format "xml" then formatXmlResponse data
  else formatJsonResponse data.

(** [errorData.error]. *)
Record ErrorData : Type := {
  error_code : string;
  error_message : string;
  error_timestamp : string;
  error_requestId : string;
  error_details : option string;
}.

Definition getErrorCodeFromStatus (statusCode : Z) : string :=
  let statusCodes : gmap Z string :=
    list_to_map
      [(400, "BAD_REQUEST");
       (401, "UNAUTHORIZED");
       (404, "NOT_FOUND");
       (501, "NOT_IMPLEMENTED");
       (500, "INTERNAL_SERVER_ERROR")] in
  str_or (statusCodes !! statusCode) "UNKNOWN_ERROR".

Definition generateRequestId (h : Host) : string :=
  "req_" +:+ pretty (Date_now h) +:+ "_" +:+ random_base36 h.

(** The object under [error], with [details] assigned last when given. *)
Definition errorObject (e : ErrorData) : JsObject :=
  [("code", JStr (error_code e));
   ("message", JStr (error_message e));
   ("timestamp", JStr (error_timestamp e));
   ("requestId", JStr (error_requestId e))]
  ++ match error_details e with
     | Some d => [("details", JStr d)]
     | None => []
     end.

Definition formatJsonErrorResponse (statusCode : Z) (errorData : ErrorData)
  : HttpResponse :=
  {| statusCode := statusCode;
     headers := JSON_HEADERS;
     body := "{" +:+ quoteJSONString "error" +:+ ":"
             +:+ JSON_stringify (errorObject errorData) +:+ "}" |}.

Definition formatXmlErrorResponse (statusCode : Z) (errorData : ErrorData)
  : HttpResponse :=
  let xmlBody :=
    XML_DECLARATION +:+ LF
    +:+ "<oembed>" +:+ LF
    +:+ "  <error>" +:+ LF
    +:+ "    <code>" +:+ escapeXml (error_code errorData) +:+ "</code>" +:+ LF
    +:+ "    <message>" +:+ escapeXml (error_message errorData)
    +:+ "</message>" +:+ LF
    +:+ "    <timestamp>" +:+ escapeXml (error_timestamp errorData)
    +:+ "</timestamp>" +:+ LF
    +:+ "    <requestId>" +:+ escapeXml (error_requestId errorData)
    +:+ "</requestId>" +:+ LF
    +:+ "    "
    +:+ match error_details errorData with
        | Some d => "<details>" +:+ escapeXml d +:+ "</details>"
        | None => ""
        end +:+ LF
    +:+ "  </error>" +:+ LF
    +:+ "</oembed>" in
  {| statusCode := statusCode; headers := XML_HEADERS; body := xmlBody |}.

(** The [errorData] that [formatErrorResponse] builds.  [code] and
    [details] are [None] when the argument is left out or null; an empty
    string is falsy like them. *)
Definition buildErrorData (h : Host) (statusCode : Z) (message : string)
    (code details : option string) : ErrorData :=
  let timestamp := Date_toISOString h in
  let requestId := generateRequestId h in
  {| error_code := str_or code (getErrorCodeFromStatus statusCode);
     error_message := message;
     error_timestamp := timestamp;
     error_requestId := requestId;
     error_details :=
       match details with
       | Some d => if truthy (JStr d) then Some d else None
       | None => None
       end |}.

Definition formatErrorResponse (h : Host) (statusCode : Z) (message : string)
    (format : string) (code details : option string) : HttpResponse :=
  let errorData := buildErrorData h statusCode message code details in
  if String.eqb format "xml" then formatXmlErrorResponse statusCode errorData
  else formatJsonErrorResponse statusCode errorData.

(** ** handlers/oembed *)

Definition ERROR_STATUS_MAP (c : ErrorCode) : option Z :=
  match c with
  | MISSING_URL => Some HTTP_STATUS.BAD_REQUEST
  | INVALID_URL => Some HTTP_STATUS.BAD_REQUEST
  | MALFORMED_URL => Some HTTP_STATUS.BAD_REQUEST
  | INVALID_FORMAT => Some HTTP_STATUS.NOT_IMPLEMENTED
  | INVALID_MAXWIDTH => Some HTTP_STATUS.BAD_REQUEST
  | INVALID_MAXHEIGHT => Some HTTP_STATUS.BAD_REQUEST
  | UNAUTHORIZED_DOMAIN => Some HTTP_STATUS.NOT_FOUND
  | CONTENT_NOT_FOUND => Some HTTP_STATUS.NOT_FOUND
  | MISSING_PROVIDER_DOMAIN => Some HTTP_STATUS.INTERNAL_SERVER_ERROR
  | BACKEND_ERROR | MISSING_REQUIRED_FIELD | INTERNAL_ERROR => None
  end.

(** [o || d] for an optional number and a number default. *)
Definition num_or (o : option Z) (d : Z) : Z :=
  match o with
  | Some n => if n =? 0 then d else n
  | None => d
  end.

Record Event : Type := {
  queryStringParameters : option QueryParams;
}.

(** The backend collaborator [getContentMetadata(url, maxwidth, maxheight)];
    a rejected promise is a [Throw]. *)
Definition Backend : Type :=
  option string -> Dimension -> Dimension -> Completion Metadata.

(** The body of the handler's [try] block. *)
Definition handler_try (h : Host) (getContentMetadata : Backend)
    (queryParams : QueryParams) : Completion HttpResponse :=
  let sanitized := sanitizeParams h (Some queryParams) in
  let validation := validateOembedParams (Some queryParams) in
  if negb (isValid validation) then
    match errors validation with
    | firstError :: _ =>
        let statusCode :=
          num_or (ERROR_STATUS_MAP (code firstError))
            HTTP_STATUS.INTERNAL_SERVER_ERROR in
        mret (formatErrorResponse h statusCode (message firstError)
                (format validation) (Some (code_name (code firstError))) None)
    | [] => Throw "TypeError: Cannot read properties of undefined"
    end
  else
    urlValidation ← validateAndAuthorizeUrl h (sanitized_url sanitized);
    match urlValidation with
    | AuthInvalid error code details =>
        let statusCode :=
          num_or (ERROR_STATUS_MAP code) HTTP_STATUS.INTERNAL_SERVER_ERROR in
        mret (formatErrorResponse h statusCode error
                (sanitized_format sanitized) (Some (code_name code)) details)
    | AuthValid _ _ _ =>
        metadata ← getContentMetadata (sanitized_url sanitized)
                     (sanitized_maxwidth sanitized)
                     (sanitized_maxheight sanitized);
        oembedResponse ← createTypeSpecificResponse h metadata
                           (sanitized_maxwidth sanitized)
                           (sanitized_maxheight sanitized);
        mret (formatResponse oembedResponse (sanitized_format sanitized))
    end.

(** [handler(event)]: whatever the [try] block throws becomes the fallback
    error response. *)
Definition handler (h : Host) (getContentMetadata : Backend) (event : Event)
  : HttpResponse :=
  let queryParams : QueryParams := default ∅ (queryStringParameters event) in
  match handler_try h getContentMetadata queryParams with
  | Normal response => response
  | Throw _ =>
      formatErrorResponse h HTTP_STATUS.INTERNAL_SERVER_ERROR
        "Internal server error"
        (str_or (queryParams !! "format") "json")
        (Some (code_name INTERNAL_ERROR)) None
  end.

(** ** A concrete host and backend for the examples *)

(** [contains c s]: the character [c] occurs in [s]. *)
Fixpoint contains (c : ascii) (s : string) : bool :=
  match s with
  | EmptyString => false
  | String a rest => Ascii.eqb a c || contains c rest
  end.

Definition https_url (hostname pathname : string) : URL :=
  {| protocol := "https:"; host := hostname; hostname := hostname;
     pathname := pathname; search := ""; hash := "";
     href := "https://" +:+ hostname +:+ pathname |}.

(** A URL parser that knows four addresses, each with the record the real
    parser gives for it, and rejects everything else. *)
Definition example_parse (s : string) : option URL :=
  if String.eqb s "https://mybusiness.com/video/123" then
    Some (https_url "mybusiness.com" "/video/123")
  else if String.eqb s "https://mybusiness.com/embed/123" then
    Some (https_url "mybusiness.com" "/embed/123")
  else if String.eqb s "https://other-domain.com/video" then
    Some (https_url "other-domain.com" "/video")
  else if String.eqb s "ftp://mybusiness.com/file" then
    Some {| protocol := "ftp:"; host := "mybusiness.com";
            hostname := "mybusiness.com"; pathname := "/file";
            search := ""; hash := "";
            href := "ftp://mybusiness.com/file" |}
  else None.

(** The environment of the test suite; the decoder is the identity on
    strings without a percent sign and knows no escape. *)
Definition example_host : Host :=
  {| URL_parse := example_parse;
     decodeURIComponent := fun s =>
       if contains "%" s then Throw "URIError: URI malformed" else Normal s;
     Date_toISOString := "2024-01-01T00:00:00.000Z";
     Date_now := 1704067200000;
     random_base36 := "k3x9q2m7a";
     env := {| PROVIDER_NAME := Some "Example Provider";
               PROVIDER_URL := Some "https://mybusiness.com";
               PROVIDER_DOMAIN := Some "mybusiness.com" |} |}.

(** Metadata with every property undefined. *)
Definition empty_metadata : Metadata :=
  {| md_type := JUndefined; md_title := JUndefined;
     md_author_name := JUndefined; md_author := JUndefined;
     md_author_url := JUndefined; md_authorUrl := JUndefined;
     md_cache_age := JUndefined; md_thumbnail_url := JUndefined;
     md_thumbnail := JUndefined; md_thumbnail_width := JUndefined;
     md_thumbnail_height := JUndefined; md_url := JUndefined;
     md_html := JUndefined; md_embedUrl := JUndefined;
     md_content := JUndefined; md_width := DUndefined;
     md_height := DUndefined |}.

(** [{ type: 'photo' }]: a photo without its url. *)
Definition photo_without_url : Metadata :=
  with_type empty_metadata (JStr "photo").

(** [{ type: 'video' }]: a video with neither html nor embedUrl. *)
Definition video_without_embed : Metadata :=
  with_type empty_metadata (JStr "video").

(** The video of the test suite. *)
Definition example_video : Metadata :=
  {| md_type := JStr "video";
     md_title := JStr "Test Video & Special Characters";
     md_author_name := JStr "Test Author"; md_author := JUndefined;
     md_author_url := JStr "https://mybusiness.com/author";
     md_authorUrl := JUndefined;
     md_cache_age := JUndefined;
     md_thumbnail_url := JStr "https://mybusiness.com/thumb/123.jpg";
     md_thumbnail := JUndefined; md_thumbnail_width := JNum 320;
     md_thumbnail_height := JNum 180; md_url := JUndefined;
     md_html := JUndefined;
     md_embedUrl := JStr "https://mybusiness.com/embed/123";
     md_content := JUndefined; md_width := DUndefined;
     md_height := DUndefined |}.

(** A photo with its url and no cache age of its own. *)
Definition example_photo : Metadata :=
  {| md_type := JStr "photo"; md_title := JUndefined;
     md_author_name := JUndefined; md_author := JUndefined;
     md_author_url := JUndefined; md_authorUrl := JUndefined;
     md_cache_age := JUndefined; md_thumbnail_url := JUndefined;
     md_thumbnail := JUndefined; md_thumbnail_width := JNum 320;
     md_thumbnail_height := JNum 180;
     md_url := JStr "https://mybusiness.com/photo/7.jpg";
     md_html := JUndefined; md_embedUrl := JUndefined;
     md_content := JUndefined; md_width := DNum 1024;
     md_height := DNum 768 |}.

Definition request (l : list (string * string)) : Event :=
  {| queryStringParameters := Some (list_to_map l) |}.

(** Requests of the examples. *)
Definition request_with_empty_format : Event :=
  request [("url", "https://mybusiness.com/video/123"); ("format", "")].

Definition request_with_fractional_maxwidth : Event :=
  request [("url", "https://mybusiness.com/video/123"); ("maxwidth", "12.5")].

Definition request_with_unit_suffix : Event :=
  request [("url", "https://mybusiness.com/video/123"); ("maxheight", "100px")].

Definition example_backend : Backend := fun _ _ _ => Normal example_video.

(** ** Definitions used to state the properties *)

(** The escape of one character as the specification lists it: the
    ampersand, the angle brackets and the double quote become their named
    entities and the apostrophe becomes [&apos;]. *)
Definition xmlEscapeChar (c : ascii) : string :=
  if Ascii.eqb c "&" then "&amp;"
  else if Ascii.eqb c "<" then "&lt;"
  else if Ascii.eqb c ">" then "&gt;"
  else if Ascii.eqb c "034" then "&quot;"
  else if Ascii.eqb c "'" then "&apos;"
  else String c "".

Fixpoint xmlEscaped (s : string) : string :=
  match s with
  | EmptyString => EmptyString
  | String c rest => xmlEscapeChar c +:+ xmlEscaped rest
  end.

(** [{ type: 'link', cache_age: null }]. *)
Definition link_with_null_cache_age : Metadata :=
  {| md_type := JStr "link"; md_title := JUndefined;
     md_author_name := JUndefined; md_author := JUndefined;
     md_author_url := JUndefined; md_authorUrl := JUndefined;
     md_cache_age := JNull; md_thumbnail_url := JUndefined;
     md_thumbnail := JUndefined; md_thumbnail_width := JUndefined;
     md_thumbnail_height := JUndefined; md_url := JUndefined;
     md_html := JUndefined; md_embedUrl := JUndefined;
     md_content := JUndefined; md_width := DUndefined;
     md_height := DUndefined |}.

(** How the body of an error response opens, with its code and message, in
    XML and in JSON.  The text is written out for a code and a message that
    hold no character to escape. *)
Definition xmlErrorOpening (code message : string) : string :=
  XML_DECLARATION +:+ LF +:+ "<oembed>" +:+ LF +:+ "  <error>" +:+ LF
  +:+ "    <code>" +:+ code +:+ "</code>" +:+ LF
  +:+ "    <message>" +:+ message +:+ "</message>" +:+ LF.

Definition jsonErrorOpening (code message : string) : string :=
  "{" +:+ DQ +:+ "error" +:+ DQ +:+ ":{"
  +:+ DQ +:+ "code" +:+ DQ +:+ ":" +:+ DQ +:+ code +:+ DQ +:+ ","
  +:+ DQ +:+ "message" +:+ DQ +:+ ":" +:+ DQ +:+ message +:+ DQ +:+ ",".

Definition errorOpening (format code message : string) : string :=
  if String.eqb format "xml" then xmlErrorOpening code message
  else jsonErrorOpening code message.

(** The URL that [validateAndSanitizeUrl] rebuilds from the parts of a
    parsed one. *)
Definition sanitizedUrlOf (u : URL) : string :=
  protocol u +:+ "//" +:+ host u +:+ pathname u +:+ search u +:+ hash u.

(** A property of the URL parser of the platform: an http(s) URL it
    accepted, rebuilt from its parts, is accepted again. *)
Definition reparses (h : Host) : Prop :=
  forall s u, URL_parse h s = Some u ->
    includes SECURITY.ALLOWED_PROTOCOLS (protocol u) = true ->
    is_Some (URL_parse h (sanitizedUrlOf u)).

(** The response before the dispatch on the content type. *)
Definition commonResponse (h : Host) (metadata : Metadata) : JsObject :=
  addThumbnailFields (addOptionalFields (buildBaseResponse h metadata) metadata)
    metadata.

(** The four groups of errors of [validateOembedParams], one per check. *)
Definition urlErrors (params : QueryParams) : list ValidationError :=
  if negb (truthy (opt_js (params !! "url"))) then
    [createValidationError "url" (ERROR_MESSAGES MISSING_URL) MISSING_URL]
  else [].

Definition formatErrors (params : QueryParams) : list ValidationError :=
  if negb (includes VALID_FORMATS
             (str_or (params !! "format") OEMBED.DEFAULT_FORMAT)) then
    [createValidationError "format" (ERROR_MESSAGES INVALID_FORMAT)
       INVALID_FORMAT]
  else [].

Definition dimensionErrors (params : QueryParams) (fieldName : string)
    (errorCode : ErrorCode) : list ValidationError :=
  match params !! fieldName with
  | Some value =>
      match validateDimension value fieldName errorCode with
      | Some e => [e]
      | None => []
      end
  | None => []
  end.

(** What [parseInt] and the bounds make of a dimension: rejected when no
    integer leads the value, or when that integer is below 1 or above 2048. *)
Definition dimensionRejected (value : string) : Prop :=
  match parseInt value with
  | None => True
  | Some n => n < 1 \/ 2048 < n
  end.

(** As the specification words it: the value is an integer, that is an
    optional sign and then decimal digits and nothing else. *)
Fixpoint allDigits (s : string) : bool :=
  match s with
  | EmptyString => true
  | String c rest => bool_decide (is_Some (digitValue c)) && allDigits rest
  end.

Definition isIntegerLiteral (s : string) : bool :=
  match s with
  | String "-" rest | String "+" rest =>
      negb (String.eqb rest "") && allDigits rest
  | _ => negb (String.eqb s "") && allDigits s
  end.

(** ** Further definitions used to state properties *)

(** [Number.MAX_SAFE_INTEGER], 2^53 - 1: up to it in magnitude JavaScript
    holds every integer exactly and prints all its digits. *)
Definition MAX_SAFE_INTEGER : Z := 9007199254740991.

(** [response.headers[name]]. *)
Fixpoint lookup_header (name : string) (l : list (string * string))
  : option string :=
  match l with
  | [] => None
  | (k, v) :: rest => if String.eqb k name then Some v else lookup_header name rest
  end.

Definition header (name : string) (response : HttpResponse) : option string :=
  lookup_header name (headers response).

(** The width or height a type-specific constructor writes: the constrained
    dimension, or the default of the type when that is falsy. *)
Definition finalDimension (original limit : Dimension) (dflt : Z) : Dimension :=
  dim_or (calculateConstrainedDimension original limit) (DNum dflt).

(** The default dimensions of the constructor a content type is routed to. *)
Definition defaultWidthOf (type : JsValue) : Z :=
  if js_is type "photo" then DEFAULT_DIMENSIONS.photo.width
  else if js_is type "video" then DEFAULT_DIMENSIONS.video.width
  else DEFAULT_DIMENSIONS.rich.width.

Definition defaultHeightOf (type : JsValue) : Z :=
  if js_is type "photo" then DEFAULT_DIMENSIONS.photo.height
  else if js_is type "video" then DEFAULT_DIMENSIONS.video.height
  else DEFAULT_DIMENSIONS.rich.height.

(** ** utils/helpers and utils/security: escaping *)

(** [escapeHtml(unsafe)] on a string: six replacements, one after another. *)
Definition escapeHtml (unsafe : string) : string :=
  if negb (truthy (JStr unsafe)) then ""
  else
    replaceAll "/" "&#x2F;"
      (replaceAll "'" "&#x27;"
         (replaceAll "034" "&quot;"
            (replaceAll ">" "&gt;"
               (replaceAll "<" "&lt;"
                  (replaceAll "&" "&amp;" unsafe))))).


(** The escape of one character in HTML text: the five markup characters
    and the slash become entities. *)
Definition htmlEscapeChar (c : ascii) : string :=
  if Ascii.eqb c "&" then "&amp;"
  else if Ascii.eqb c "<" then "&lt;"
  else if Ascii.eqb c ">" then "&gt;"
  else if Ascii.eqb c "034" then "&quot;"
  else if Ascii.eqb c "'" then "&#x27;"
  else if Ascii.eqb c "/" then "&#x2F;"
  else String c "".


(** A string escaped character by character. *)
Fixpoint escapeEach (f : ascii -> string) (s : string) : string :=
  match s with
  | EmptyString => EmptyString
  | String c rest => f c +:+ escapeEach f rest
  end.

(** ** utils/security: the secure iframe *)





(** ** core/parser *)

(** [s.split(sep)] for a one-character separator: the pieces between the
    separators, empty ones included. *)
Fixpoint str_split (sep : ascii) (s : string) : list string :=
  match s with
  | EmptyString => [EmptyString]
  | String c rest =>
      if Ascii.eqb c sep then EmptyString :: str_split sep rest
      else
        match str_split sep rest with
        | piece :: pieces => String c piece :: pieces
        | [] => [String c EmptyString]
        end
  end.

(** [pathname.split("/").filter((segment) => segment.length > 0)]. *)
Definition pathSegmentsOf (pathname : string) : list string :=
  List.filter (fun segment => (0 <? String.length segment)%nat)
    (str_split "/" pathname).

(** [haystack.includes(needle)] on strings. *)
Fixpoint isPrefixOf (p s : string) : bool :=
  match p, s with
  | EmptyString, _ => true
  | String a p', String b s' => Ascii.eqb a b && isPrefixOf p' s'
  | String _ _, EmptyString => false
  end.

Fixpoint str_includes (haystack needle : string) : bool :=
  isPrefixOf needle haystack
  || match haystack with
     | EmptyString => false
     | String _ rest => str_includes rest needle
     end.

(** [toLowerCase] on the code units below 256: the letters A to Z, and the
    Latin-1 capitals from 192 to 222 other than the multiplication sign. *)
Definition toLowerChar (c : ascii) : ascii :=
  let n := nat_of_ascii c in
  if ((65 <=? n) && (n <=? 90)
      || (192 <=? n) && (n <=? 222) && negb (n =? 215))%nat
  then ascii_of_nat (n + 32) else c.

Fixpoint toLowerCase (s : string) : string :=
  match s with
  | EmptyString => EmptyString
  | String c rest => String (toLowerChar c) (toLowerCase rest)
  end.

(** The class [[a-zA-Z0-9_-]]. *)
Definition isIdChar (c : ascii) : bool :=
  let n := nat_of_ascii c in
  ((48 <=? n) && (n <=? 57) || (65 <=? n) && (n <=? 90)
   || (97 <=? n) && (n <=? 122) || (n =? 95) || (n =? 45))%nat.

Fixpoint allChars (p : ascii -> bool) (s : string) : bool :=
  match s with
  | EmptyString => true
  | String c rest => p c && allChars p rest
  end.

(** [/^[a-zA-Z0-9_-]+$/.test(s)]. *)
Definition looksLikeId (s : string) : bool :=
  negb (String.eqb s "") && allChars isIdChar s.

Definition ID_SEGMENTS : list string :=
  ["video"; "content"; "post"; "article"; "media"; "embed"].

(** The loop of [extractContentId]: the segment after the first one, not
    the last, that is among the known names. *)
Fixpoint segmentAfterKeyword (pathSegments : list string) : option string :=
  match pathSegments with
  | segment :: ((nextSegment :: _) as rest) =>
      if includes ID_SEGMENTS segment then Some nextSegment
      else segmentAfterKeyword rest
  | _ => None
  end.

(** [extractContentId(pathname, queryParams)]; [None] is null. *)
Definition extractContentId (pathname : string) (queryParams : QueryParams)
  : option string :=
  if truthy (opt_js (queryParams !! "id")) then queryParams !! "id"
  else if truthy (opt_js (queryParams !! "v")) then queryParams !! "v"
  else if truthy (opt_js (queryParams !! "video")) then queryParams !! "video"
  else if truthy (opt_js (queryParams !! "content")) then
    queryParams !! "content"
  else
    let pathSegments := pathSegmentsOf pathname in
    match segmentAfterKeyword pathSegments with
    | Some nextSegment => Some nextSegment
    | None =>
        match last pathSegments with
        | Some lastSegment =>
            if truthy (JStr lastSegment) && looksLikeId lastSegment
            then Some lastSegment else None
        | None => None
        end
    end.

Definition IMAGE_EXTENSIONS : list string :=
  [".jpg"; ".jpeg"; ".png"; ".gif"; ".webp"].

(** [inferContentType(pathname, queryParams)].  The extension test runs on
    the lower-cased path, where its case-insensitive flag changes
    nothing. *)
Definition inferContentType (pathname : string) (queryParams : QueryParams)
  : string :=
  let path := toLowerCase pathname in
  if str_includes path "/video/" || str_includes path "/watch/"
     || str_includes path "/embed/"
     || truthy (opt_js (queryParams !! "v"))
     || truthy (opt_js (queryParams !! "video"))
  then "video"
  else if str_includes path "/photo/" || str_includes path "/image/"
          || str_includes path "/gallery/"
          || existsb (endsWith path) IMAGE_EXTENSIONS
  then "photo"
  else if str_includes path "/widget/" || str_includes path "/interactive/"
          || str_includes path "/app/" || str_includes path "/content/"
  then "rich"
  else if str_includes path "/article/" || str_includes path "/post/"
          || str_includes path "/blog/" || str_includes path "/news/"
  then "link"
  else "link".

(** ** utils/helpers: strings, objects and the hash *)

(** [truncateString(str, maxLength, suffix)].  [substring(0, end)] takes
    the first [end] code units, none when [end] is negative. *)
Definition truncateString (str : JsValue) (maxLength : Z) (suffix : string)
  : string :=
  match str with
  | JStr s =>
      if negb (truthy str) then ""
      else if Z.of_nat (String.length s) <=? maxLength then s
      else
        String.substring 0
          (Z.to_nat (maxLength - Z.of_nat (String.length suffix))) s
        +:+ suffix
  | _ => ""
  end.



(** ToInt32 on integers: the value modulo 2^32 that lies from -2^31 up to
    2^31 - 1. *)
Definition ToInt32 (z : Z) : Z := (z + 2 ^ 31) mod 2 ^ 32 - 2 ^ 31.

(** One round of the loop of [generateHash]: the shift and the final
    [hash & hash] both go through ToInt32; the subtraction and the addition
    between them are exact. *)
Definition hashStep (hash : Z) (c : ascii) : Z :=
  let char := Z.of_nat (nat_of_ascii c) in
  let hash := ToInt32 (hash * 2 ^ 5) - hash + char in
  ToInt32 hash.

Fixpoint hashLoop (hash : Z) (s : string) : Z :=
  match s with
  | EmptyString => hash
  | String c rest => hashLoop (hashStep hash c) rest
  end.

(** [n.toString(16)] for a number that is not negative. *)
Definition toString16 (n : Z) : string :=
  HexadecimalString.NilZero.string_of_uint (N.to_hex_uint (Z.to_N n)).

(** [generateHash(str)]. *)
Definition generateHash (str : JsValue) : string :=
  match str with
  | JStr s =>
      if negb (truthy str) then "empty"
      else toString16 (Z.abs (hashLoop 0 s))
  | _ => "empty"
  end.

(** The hash without any truncation: the polynomial in 31 whose
    coefficients are the code units. *)
Fixpoint hashPolynomial (acc : Z) (s : string) : Z :=
  match s with
  | EmptyString => acc
  | String c rest => hashPolynomial (31 * acc + Z.of_nat (nat_of_ascii c)) rest
  end.

(** ** oembed/html-generator: widgets and galleries *)

Module DEFAULT_DIMENSIONS_widget.
Definition width : Z := 400.
Definition height : Z := 300.
End DEFAULT_DIMENSIONS_widget.


Definition GALLERY_NOT_AVAILABLE : string :=
  "<div class=" +:+ DQ +:+ "gallery-error" +:+ DQ
  +:+ ">No images available</div>".




(** The properties the callback of [generateGalleryHtml] reads of an
    entry of [metadata.images]. *)
Record Image : Type := {
  img_url : JsValue;
  img_src : JsValue;
  img_alt : JsValue;
  img_title : JsValue;
}.

(** An entry of the array: an object, given by the four properties read of
    it, or a value that is no object. *)
Inductive ImageEntry : Type :=
  | ImageObject (image : Image)
  | ImagePrimitive (v : JsValue).

(** What the backend has put under [metadata.images]: an array, a value
    that is no object ([JUndefined] when there is no such property), or an
    object that is no array.  Metadata is data, as JSON carries it: an
    object has no function among its properties, and no [map] to call. *)
Inductive Images : Type :=
  | ImagesArray (entries : list ImageEntry)
  | ImagesPrimitive (v : JsValue)
  | ImagesObject (o : JsObject).

(** A string, a number or a boolean has none of the four properties. *)
Definition noImageProperties : Image :=
  {| img_url := JUndefined; img_src := JUndefined;
     img_alt := JUndefined; img_title := JUndefined |}.

(** Reading [image.url] and the other properties: of null and of undefined
    no property can be read. *)
Definition imageProperties (entry : ImageEntry) : Completion Image :=
  match entry with
  | ImageObject image => mret image
  | ImagePrimitive JNull => Throw "TypeError: Cannot read properties of null"
  | ImagePrimitive JUndefined =>
      Throw "TypeError: Cannot read properties of undefined"
  | ImagePrimitive _ => mret noImageProperties
  end.

(** [metadata.images || []]. *)
Definition images_or_empty (images : Images) : Images :=
  match images with
  | ImagesPrimitive v => if truthy v then images else ImagesArray []
  | _ => images
  end.

(** [images.length]: the length of an array or of a string, the property
    of that name of an object, undefined of a number or a boolean. *)
Definition images_length (images : Images) : JsValue :=
  match images with
  | ImagesArray entries => JNum (Z.of_nat (List.length entries))
  | ImagesPrimitive (JStr s) => JNum (Z.of_nat (String.length s))
  | ImagesPrimitive _ => JUndefined
  | ImagesObject o => obj_get "length" o
  end.

(** The [img] markup of [generateGalleryHtml]. *)
Definition imgElement (sanitizedUrl alt : string) : string :=
  "<img src=" +:+ DQ +:+ sanitizedUrl +:+ DQ
  +:+ " alt=" +:+ DQ +:+ alt +:+ DQ
  +:+ " style=" +:+ DQ +:+ "max-width:100%;height:auto;margin:2px;" +:+ DQ
  +:+ ">".

(** The callback of [images.map]: the markup of one image, or the empty
    string. *)
Definition galleryImage (h : Host) (image : Image) (index : nat)
  : Completion string :=
  sanitizedUrl ← sanitizeUrl h (js_or (img_url image) (img_src image));
  if negb (truthy (JStr sanitizedUrl)) then mret ""
  else
    let alt :=
      sanitizeHtmlContent
        (js_or (js_or (img_alt image) (img_title image))
           (JStr ("Image " +:+ pretty (Z.of_nat index + 1)))) in
    mret (imgElement sanitizedUrl alt).

(** [images.map(callback)] from position [index] on. *)
Fixpoint mapImages (h : Host) (index : nat) (entries : list ImageEntry)
  : Completion (list string) :=
  match entries with
  | [] => mret []
  | entry :: rest =>
      image ← imageProperties entry;
      element ← galleryImage h image index;
      elements ← mapImages h (S index) rest;
      mret (element :: elements)
  end.

(** The container markup of [generateGalleryHtml]. *)
Definition galleryContainer (safeWidth safeHeight imageElements : string)
  : string :=
  "<div class=" +:+ DQ +:+ "photo-gallery" +:+ DQ
  +:+ " style=" +:+ DQ +:+ "width:" +:+ safeWidth
  +:+ "px;max-height:" +:+ safeHeight
  +:+ "px;overflow:auto;border:1px solid #ddd;padding:5px;" +:+ DQ
  +:+ ">" +:+ imageElements +:+ "</div>".

(** [generateGalleryHtml(metadata, width, height)]; [images] is the
    property of that name of the metadata.  Only an array has a [map]
    method: calling it on a string or on another object is a TypeError. *)
Definition generateGalleryHtml (h : Host) (metadata : Metadata)
    (images : Images) (width height : Dimension)
  : Completion string :=
  let safeWidth := js_or (js_or width (md_width metadata)) (JNum 600) in
  let safeHeight := js_or (js_or height (md_height metadata)) (JNum 400) in
  let images := images_or_empty images in
  if negb (truthy (images_length images)) then mret GALLERY_NOT_AVAILABLE
  else
    match images with
    | ImagesArray entries =>
        elements ← mapImages h 0 entries;
        let imageElements :=
          join "" (List.filter (fun element => truthy (JStr element))
                     elements) in
        if negb (truthy (JStr imageElements)) then mret GALLERY_NOT_AVAILABLE
        else mret (galleryContainer (ToString safeWidth)
                     (ToString safeHeight) imageElements)
    | _ => Throw "TypeError: images.map is not a function"
    end.

(** What [sanitizeUrl] makes of the address of an image. *)
Definition sanitizedImageUrl (h : Host) (image : Image) : string :=
  match sanitizeUrl h (js_or (img_url image) (img_src image)) with
  | Normal sanitizedUrl => sanitizedUrl
  | Throw _ => ""
  end.

(** An entry whose properties can be read, and what is read of it. *)
Definition readable (entry : ImageEntry) : bool :=
  match entry with
  | ImagePrimitive JNull | ImagePrimitive JUndefined => false
  | _ => true
  end.

Definition propertiesOf (entry : ImageEntry) : Image :=
  match entry with
  | ImageObject image => image
  | ImagePrimitive _ => noImageProperties
  end.

(** ** utils/security: sanitizeText *)

(** The class [[\x00-\x08\x0B\x0C\x0E-\x1F\x7F]]. *)
Definition isControlChar (c : ascii) : bool :=
  let n := nat_of_ascii c in
  ((n <=? 8) || (n =? 11) || (n =? 12) || (14 <=? n) && (n <=? 31)
   || (n =? 127))%nat.

(** [s.replace(/[class]/g, "")]. *)
Fixpoint removeChars (class : ascii -> bool) (s : string) : string :=
  match s with
  | EmptyString => EmptyString
  | String c rest =>
      if class c then removeChars class rest
      else String c (removeChars class rest)
  end.

(** [s.replace(/<[^>]*>/g, "")]: a [<] with a [>] somewhere after it opens
    a match that ends at the first such [>]; [inTag] tells that the scan is
    inside a match. *)
Fixpoint removeTags (inTag : bool) (s : string) : string :=
  match s with
  | EmptyString => EmptyString
  | String c rest =>
      if inTag then removeTags (negb (Ascii.eqb c ">")) rest
      else if Ascii.eqb c "<" && contains ">" rest then removeTags true rest
      else String c (removeTags false rest)
  end.

(** Whether [s] starts with the lower-case ASCII text [p], letter case
    ignored. *)
Fixpoint isPrefixOfCI (p s : string) : bool :=
  match p, s with
  | EmptyString, _ => true
  | String a p', String b s' => Ascii.eqb a (toLowerChar b) && isPrefixOfCI p' s'
  | String _ _, EmptyString => false
  end.

(** [s.replace(/p/gi, "")] for a literal [p]: the leftmost occurrences that
    do not overlap are deleted; [skip] counts the characters of the current
    occurrence still to delete. *)
Fixpoint removeLiteral (p : string) (skip : nat) (s : string) : string :=
  match s with
  | EmptyString => EmptyString
  | String c rest =>
      match skip with
      | S k => removeLiteral p k rest
      | O =>
          if isPrefixOfCI p s
          then removeLiteral p (String.length p - 1) rest
          else String c (removeLiteral p 0 rest)
      end
  end.

Fixpoint trimEnd (s : string) : string :=
  match s with
  | EmptyString => EmptyString
  | String c rest =>
      let trimmed := trimEnd rest in
      if String.eqb trimmed "" && isWhiteSpace c then EmptyString
      else String c trimmed
  end.

Definition trim (s : string) : string := trimEnd (trimStart s).

(** [sanitizeText(text, maxLength)]. *)
Definition sanitizeText (text : JsValue) (maxLength : Z) : string :=
  match text with
  | JStr s =>
      String.substring 0 (Z.to_nat maxLength)
        (trim
           (removeLiteral "vbscript:" 0
              (removeLiteral "data:" 0
                 (removeLiteral "javascript:" 0
                    (removeTags false (removeChars isControlChar s))))))
  | _ => ""
  end.

(** The code units of a string, in order. *)
Abbreviation chars := list_ascii_of_string.

(** Whether some [<] of [s] has a [>] after it. *)
Fixpoint hasTag (s : string) : bool :=
  match s with
  | EmptyString => false
  | String c rest => Ascii.eqb c "<" && contains ">" rest || hasTag rest
  end.

(** ** core/parser: the parsed URL *)

(** What [parseContentUrl] returns on success. *)
Record ParsedUrl : Type := {
  parsed_url : option string;
  parsed_hostname : string;
  parsed_pathname : string;
  parsed_search : string;
  parsed_hash : string;
  parsed_pathSegments : list string;
  parsed_queryParams : QueryParams;
  parsed_contentId : option string;
  parsed_contentType : string;
  parsed_protocol : string;
}.

Inductive ParseResult : Type :=
| ParseSuccess (parsedUrl : ParsedUrl)
| ParseFailure (error : string) (url : option string).

(** The object the [forEach] over the search parameters fills: a later
    value of a key replaces an earlier one. *)
Definition collectQueryParams (entries : list (string * string)) : QueryParams :=
  fold_left (fun queryParams entry => <[entry.1 := entry.2]> queryParams)
    entries ∅.

(** [parseContentUrl(url)].  [searchParams] gives the pairs that
    [urlObj.searchParams] iterates over, a built-in like the parser; an
    undefined [url] reaches [new URL] as the text undefined. *)
Definition parseContentUrl (h : Host)
    (searchParams : URL -> list (string * string)) (url : option string)
  : ParseResult :=
  match new_URL h (ToString (opt_js url)) with
  | Normal urlObj =>
      let pathSegments := pathSegmentsOf (pathname urlObj) in
      let queryParams := collectQueryParams (searchParams urlObj) in
      let contentId := extractContentId (pathname urlObj) queryParams in
      let contentType := inferContentType (pathname urlObj) queryParams in
      ParseSuccess
        {| parsed_url := url;
           parsed_hostname := hostname urlObj;
           parsed_pathname := pathname urlObj;
           parsed_search := search urlObj;
           parsed_hash := hash urlObj;
           parsed_pathSegments := pathSegments;
           parsed_queryParams := queryParams;
           parsed_contentId := contentId;
           parsed_contentType := contentType;
           parsed_protocol := protocol urlObj |}
  | Throw error => ParseFailure error url
  end.

(** What [extractContentParams] returns. *)
Record ContentParams : Type := {
  cp_contentId : option string;
  cp_contentType : string;
  cp_url : option string;
  cp_hostname : string;
  cp_pathname : string;
  cp_queryParams : QueryParams;
  cp_maxwidth : Dimension;
  cp_maxheight : Dimension;
  cp_pathSegments : list string;
  cp_protocol : string;
}.

Definition extractContentParams (parsedUrl : ParsedUrl)
    (maxwidth maxheight : Dimension) : ContentParams :=
  {| cp_contentId := parsed_contentId parsedUrl;
     cp_contentType := parsed_contentType parsedUrl;
     cp_url := parsed_url parsedUrl;
     cp_hostname := parsed_hostname parsedUrl;
     cp_pathname := parsed_pathname parsedUrl;
     cp_queryParams := parsed_queryParams parsedUrl;
     cp_maxwidth := maxwidth;
     cp_maxheight := maxheight;
     cp_pathSegments := parsed_pathSegments parsedUrl;
     cp_protocol := parsed_protocol parsedUrl |}.

(** ** integration/getContentMetadata *)

(** A content identifier, a string or null, as a value and inside a
    template literal. *)
Definition id_js (contentId : option string) : JsValue :=
  match contentId with
  | Some id => JStr id
  | None => JNull
  end.

(** [Math.min(limit || cap, cap)]. *)
Definition capped (limit : Dimension) (cap : Z) : Dimension :=
  match dim_or limit (DNum cap) with
  | DNum n => DNum (Z.min n cap)
  | other => other
  end.

(** The address [`${protocol}//${hostname}${path}`]. *)
Definition siteUrl (contentParams : ContentParams) (path : string) : string :=
  cp_protocol contentParams +:+ "//" +:+ cp_hostname contentParams +:+ path.

Definition fetchVideoMetadata (contentId : option string)
    (contentParams : ContentParams) : Metadata :=
  {| md_type := JStr "video";
     md_title := JStr ("Video Content " +:+ ToString (id_js contentId));
     md_author_name := JStr "Content Creator";
     md_author := JUndefined;
     md_author_url := JStr (siteUrl contentParams "/creator");
     md_authorUrl := JUndefined;
     md_cache_age := JNum 3600;
     md_thumbnail_url :=
       JStr (siteUrl contentParams
               ("/thumb/" +:+ ToString (id_js contentId) +:+ ".jpg"));
     md_thumbnail := JUndefined;
     md_thumbnail_width := JNum 320;
     md_thumbnail_height := JNum 180;
     md_url := JUndefined;
     md_html := JUndefined;
     md_embedUrl :=
       JStr (siteUrl contentParams ("/embed/" +:+ ToString (id_js contentId)));
     md_content := JUndefined;
     md_width := capped (cp_maxwidth contentParams) 1920;
     md_height := capped (cp_maxheight contentParams) 1080 |}.

Definition fetchPhotoMetadata (contentId : option string)
    (contentParams : ContentParams) : Metadata :=
  {| md_type := JStr "photo";
     md_title := JStr ("Photo " +:+ ToString (id_js contentId));
     md_author_name := JStr "Photographer";
     md_author := JUndefined;
     md_author_url := JStr (siteUrl contentParams "/photographer");
     md_authorUrl := JUndefined;
     md_cache_age := JNum 7200;
     md_thumbnail_url := JUndefined;
     md_thumbnail := JUndefined;
     md_thumbnail_width := JUndefined;
     md_thumbnail_height := JUndefined;
     md_url :=
       JStr (siteUrl contentParams
               ("/images/" +:+ ToString (id_js contentId) +:+ ".jpg"));
     md_html := JUndefined;
     md_embedUrl := JUndefined;
     md_content := JUndefined;
     md_width := capped (cp_maxwidth contentParams) 1200;
     md_height := capped (cp_maxheight contentParams) 800 |}.

Definition fetchRichContentMetadata (contentId : option string)
    (contentParams : ContentParams) : Metadata :=
  {| md_type := JStr "rich";
     md_title := JStr ("Rich Content " +:+ ToString (id_js contentId));
     md_author_name := JStr "Content Author";
     md_author := JUndefined;
     md_author_url := JStr (siteUrl contentParams "/author");
     md_authorUrl := JUndefined;
     md_cache_age := JNum 1800;
     md_thumbnail_url := JUndefined;
     md_thumbnail := JUndefined;
     md_thumbnail_width := JUndefined;
     md_thumbnail_height := JUndefined;
     md_url := JUndefined;
     md_html :=
       JStr ("<div class=" +:+ DQ +:+ "rich-content" +:+ DQ
             +:+ ">Rich interactive content for "
             +:+ sanitizeText (id_js contentId) 50 +:+ "</div>");
     md_embedUrl := JUndefined;
     md_content := JUndefined;
     md_width := capped (cp_maxwidth contentParams) 500;
     md_height := capped (cp_maxheight contentParams) 300 |}.

Definition fetchLinkMetadata (contentId : option string)
    (contentParams : ContentParams) : Metadata :=
  {| md_type := JStr "link";
     md_title := JStr ("Link Content " +:+ ToString (id_js contentId));
     md_author_name := JStr "Content Publisher";
     md_author := JUndefined;
     md_author_url := JStr (siteUrl contentParams "/publisher");
     md_authorUrl := JUndefined;
     md_cache_age := JNum 3600;
     md_thumbnail_url := JUndefined;
     md_thumbnail := JUndefined;
     md_thumbnail_width := JUndefined;
     md_thumbnail_height := JUndefined;
     md_url := JUndefined;
     md_html := JUndefined;
     md_embedUrl := JUndefined;
     md_content := JUndefined;
     md_width := DUndefined;
     md_height := DUndefined |}.

(** [fetchContentFromBackend(contentParams, correlationId)]: the [switch]
    on the content type. *)
Definition fetchContentFromBackend (contentParams : ContentParams)
  : Completion Metadata :=
  let contentId := cp_contentId contentParams in
  let contentType := cp_contentType contentParams in
  if String.eqb contentType "video" then
    mret (fetchVideoMetadata contentId contentParams)
  else if String.eqb contentType "photo" then
    mret (fetchPhotoMetadata contentId contentParams)
  else if String.eqb contentType "rich" then
    mret (fetchRichContentMetadata contentId contentParams)
  else mret (fetchLinkMetadata contentId contentParams).

(** The loop of [retryWithBackoff]: [fn] is run again after a failure until
    no retry remains, and the last error is thrown.  The waiting between
    the runs returns nothing; [fn] stands for what each run of the function
    completes with. *)
Fixpoint retryLoop {A} (fn : Completion A) (remaining : nat) : Completion A :=
  match fn with
  | Normal result => Normal result
  | Throw error =>
      match remaining with
      | O => Throw error
      | S remaining' => retryLoop fn remaining'
      end
  end.

Definition retryWithBackoff {A} (fn : Completion A) (maxRetries : nat)
  : Completion A :=
  retryLoop fn maxRetries.

Definition fetchContentFromBackendWithRetry (contentParams : ContentParams)
  : Completion Metadata :=
  retryWithBackoff (fetchContentFromBackend contentParams) 2.

(** [getTestMetadata(url, contentParams)]. *)
Definition getTestMetadata (url : string) (contentParams : ContentParams)
  : Metadata :=
  if str_includes url "/video/123" then
    {| md_type := JStr "video";
       md_title := JStr "Test Video & Special Characters";
       md_author_name := JStr "Test Author";
       md_author := JUndefined;
       md_author_url := JStr "https://mybusiness.com/author";
       md_authorUrl := JUndefined;
       md_cache_age := JNum 3600;
       md_thumbnail_url := JStr "https://mybusiness.com/thumb/123.jpg";
       md_thumbnail := JUndefined;
       md_thumbnail_width := JNum 320;
       md_thumbnail_height := JNum 180;
       md_url := JUndefined;
       md_html := JUndefined;
       md_embedUrl := JStr "https://mybusiness.com/embed/123";
       md_content := JUndefined;
       md_width := DNum 1920;
       md_height := DNum 1080 |}
  else if str_includes url "/content/123" then
    {| md_type := JStr "rich";
       md_title := JStr "Test Rich Content";
       md_author_name := JStr "Test Author";
       md_author := JUndefined;
       md_author_url := JStr "https://mybusiness.com/author";
       md_authorUrl := JUndefined;
       md_cache_age := JNum 3600;
       md_thumbnail_url := JUndefined;
       md_thumbnail := JUndefined;
       md_thumbnail_width := JUndefined;
       md_thumbnail_height := JUndefined;
       md_url := JUndefined;
       md_html := JStr "<div>Rich content</div>";
       md_embedUrl := JUndefined;
       md_content := JUndefined;
       md_width := DNum 500;
       md_height := DNum 300 |}
  else
    {| md_type := JStr (str_or (Some (cp_contentType contentParams)) "rich");
       md_title :=
         JStr ("Test "
               +:+ str_or (Some (cp_contentType contentParams)) "Content");
       md_author_name := JStr "Test Author";
       md_author := JUndefined;
       md_author_url := JUndefined;
       md_authorUrl := JUndefined;
       md_cache_age := JNum 3600;
       md_thumbnail_url := JUndefined;
       md_thumbnail := JUndefined;
       md_thumbnail_width := JUndefined;
       md_thumbnail_height := JUndefined;
       md_url := JUndefined;
       md_html := JUndefined;
       md_embedUrl := JUndefined;
       md_content := JUndefined;
       md_width := dim_or (cp_maxwidth contentParams) (DNum 500);
       md_height := dim_or (cp_maxheight contentParams) (DNum 300) |}.

(** [createEmptyMetadata()]. *)
Definition createEmptyMetadata : Metadata :=
  {| md_type := JStr "link";
     md_title := JStr "Content Not Available";
     md_author_name := JUndefined;
     md_author := JUndefined;
     md_author_url := JUndefined;
     md_authorUrl := JUndefined;
     md_cache_age := JNum 300;
     md_thumbnail_url := JUndefined;
     md_thumbnail := JUndefined;
     md_thumbnail_width := JUndefined;
     md_thumbnail_height := JUndefined;
     md_url := JUndefined;
     md_html := JUndefined;
     md_embedUrl := JUndefined;
     md_content := JUndefined;
     md_width := DUndefined;
     md_height := DUndefined |}.

(** [getContentMetadata(url, maxwidth, maxheight)].  [isTest] is the test
    of the environment, [NODE_ENV] being test or [JEST_WORKER_ID] being
    set; in that branch [url.includes] throws when [url] is undefined. *)
Definition getContentMetadata (h : Host)
    (searchParams : URL -> list (string * string)) (isTest : bool) : Backend :=
  fun url maxwidth maxheight =>
    try_catch
      (match parseContentUrl h searchParams url with
       | ParseFailure _ _ => mret createEmptyMetadata
       | ParseSuccess parsedUrl =>
           let contentParams :=
             extractContentParams parsedUrl maxwidth maxheight in
           if isTest then
             match url with
             | Some url => mret (getTestMetadata url contentParams)
             | None =>
                 Throw "TypeError: Cannot read properties of undefined"
             end
           else fetchContentFromBackendWithRetry contentParams
       end)
      (fun error => mret createEmptyMetadata).

(** ** config/environment *)

(** [process.env]: the variables that are set, with their values. *)
Abbreviation ProcessEnv := (gmap string string).

(** The [config] object, computed from the environment when the module is
    loaded. *)
Record Config : Type := {
  cfg_environment : string;
  cfg_providerName : string;
  cfg_providerUrl : string;
  cfg_providerDomain : string;
  cfg_logLevel : string;
  cfg_nodeEnv : string;
  cfg_isTest : bool;
  cfg_awsRegion : string;
  cfg_functionName : string;
  cfg_functionVersion : string;
}.

Definition config (processEnv : ProcessEnv) : Config :=
  {| cfg_environment := str_or (processEnv !! "ENVIRONMENT") "dev";
     cfg_providerName := str_or (processEnv !! "PROVIDER_NAME") "oEmbed Provider";
     cfg_providerUrl :=
       str_or (processEnv !! "PROVIDER_URL") "https://example.com";
     cfg_providerDomain :=
       str_or (processEnv !! "PROVIDER_DOMAIN") "example.com";
     cfg_logLevel := str_or (processEnv !! "LOG_LEVEL") "INFO";
     cfg_nodeEnv := str_or (processEnv !! "NODE_ENV") "production";
     cfg_isTest :=
       js_is (opt_js (processEnv !! "NODE_ENV")) "test"
       || truthy (opt_js (processEnv !! "JEST_WORKER_ID"));
     cfg_awsRegion := str_or (processEnv !! "AWS_REGION") "us-east-1";
     cfg_functionName :=
       str_or (processEnv !! "AWS_LAMBDA_FUNCTION_NAME") "oembedFunction";
     cfg_functionVersion :=
       str_or (processEnv !! "AWS_LAMBDA_FUNCTION_VERSION") "$LATEST" |}.

(** An entry of the [errors] of [validateConfig]. *)
Record ConfigError : Type := {
  ce_variable : string;
  ce_message : string;
  ce_severity : string;
}.

Record ConfigValidation : Type := {
  cv_isValid : bool;
  cv_errors : list ConfigError;
  cv_warnings : list ConfigError;
  cv_criticalErrors : list ConfigError;
}.

(** The [isValidUrl] of the configuration module: whatever [new URL]
    accepts. *)
Definition config_isValidUrl (h : Host) (url : string) : bool :=
  match new_URL h url with
  | Normal _ => true
  | Throw _ => false
  end.

Definition isAlphanumeric (c : ascii) : bool :=
  let n := nat_of_ascii c in
  ((48 <=? n) && (n <=? 57) || (65 <=? n) && (n <=? 90)
   || (97 <=? n) && (n <=? 122))%nat.

(** The class [[a-zA-Z0-9.-]]. *)
Definition isDomainChar (c : ascii) : bool :=
  isAlphanumeric c || Ascii.eqb c "." || Ascii.eqb c "-".

(** [[a-zA-Z0-9-]*[a-zA-Z0-9]] up to the end of the string. *)
Fixpoint labelTail (s : string) : bool :=
  match s with
  | EmptyString => false
  | String c rest =>
      match rest with
      | EmptyString => isAlphanumeric c
      | String _ _ => (isAlphanumeric c || Ascii.eqb c "-") && labelTail rest
      end
  end.

(** [/^[a-zA-Z0-9]([a-zA-Z0-9-]*[a-zA-Z0-9])?$/.test(part)]. *)
Definition isLabel (part : string) : bool :=
  match part with
  | EmptyString => false
  | String c rest => isAlphanumeric c && (String.eqb rest "" || labelTail rest)
  end.

(** [isValidDomain(domain)] on a string. *)
Definition isValidDomain (domain : string) : bool :=
  if negb (truthy (JStr domain)) then false
  else if (253 <? String.length domain)%nat then false
  else if negb (negb (String.eqb domain "") && allChars isDomainChar domain)
  then false
  else
    let parts := str_split "." domain in
    if (List.length parts <? 2)%nat then false
    else
      forallb
        (fun part =>
           (0 <? String.length part)%nat && (String.length part <=? 63)%nat
           && isLabel part)
        parts.

Definition requiredError (key : string) : ConfigError :=
  {| ce_variable := key;
     ce_message := key +:+ " environment variable is required";
     ce_severity := "error" |}.

(** [validateConfig()]; each [errors.push] appends to the list built so
    far. *)
Definition validateConfig (h : Host) (processEnv : ProcessEnv)
  : ConfigValidation :=
  let config := config processEnv in
  let requiredVars :=
    [("PROVIDER_NAME", cfg_providerName config);
     ("PROVIDER_URL", cfg_providerUrl config);
     ("PROVIDER_DOMAIN", cfg_providerDomain config)] in
  let errors0 :=
    fold_left
      (fun errors required =>
         if negb (truthy (JStr required.2)) || String.eqb required.2 "undefined"
         then errors ++ [requiredError required.1]
         else errors)
      requiredVars [] in
  let errors1 :=
    if truthy (JStr (cfg_providerUrl config))
       && negb (config_isValidUrl h (cfg_providerUrl config))
    then errors0 ++ [{| ce_variable := "PROVIDER_URL";
                        ce_message := "PROVIDER_URL must be a valid URL";
                        ce_severity := "error" |}]
    else errors0 in
  let errors2 :=
    if truthy (JStr (cfg_providerDomain config))
       && negb (isValidDomain (cfg_providerDomain config))
    then errors1 ++ [{| ce_variable := "PROVIDER_DOMAIN";
                        ce_message :=
                          "PROVIDER_DOMAIN must be a valid domain name";
                        ce_severity := "warning" |}]
    else errors1 in
  let validLogLevels := ["ERROR"; "WARN"; "INFO"; "DEBUG"] in
  let errors3 :=
    if negb (includes validLogLevels (cfg_logLevel config))
    then errors2 ++ [{| ce_variable := "LOG_LEVEL";
                        ce_message := "LOG_LEVEL must be one of: "
                                      +:+ join ", " validLogLevels;
                        ce_severity := "warning" |}]
    else errors2 in
  let validEnvironments := ["dev"; "stage"; "prod"; "test"] in
  let errors4 :=
    if negb (includes validEnvironments (cfg_environment config))
    then errors3 ++ [{| ce_variable := "ENVIRONMENT";
                        ce_message := "ENVIRONMENT should be one of: "
                                      +:+ join ", " validEnvironments;
                        ce_severity := "warning" |}]
    else errors3 in
  let withSeverity severity :=
    List.filter (fun e => String.eqb (ce_severity e) severity) errors4 in
  {| cv_isValid := (List.length (withSeverity "error") =? 0)%nat;
     cv_errors := errors4;
     cv_warnings := withSeverity "warning";
     cv_criticalErrors := withSeverity "error" |}.

(** * Properties *)

(** ** Strings *)

Lemma append_cons (x : ascii) (a b : string) :
  String x a +:+ b = String x (a +:+ b).
Proof. reflexivity. Qed.

Lemma append_nil (b : string) : "" +:+ b = b.
Proof. reflexivity. Qed.

Lemma append_assoc (a b c : string) : (a +:+ b) +:+ c = a +:+ (b +:+ c).
Proof.
  induction a as [|x a IH]; [reflexivity|].
  by rewrite !append_cons, IH.
Qed.

Lemma append_empty_r (a : string) : a +:+ "" = a.
Proof.
  induction a as [|x a IH]; [reflexivity|]. by rewrite append_cons, IH.
Qed.

Lemma length_append (a b : string) :
  String.length (a +:+ b) = (String.length a + String.length b)%nat.
Proof.
  induction a as [|x a IH]; [reflexivity|]. rewrite append_cons. simpl.
  by rewrite IH.
Qed.

Lemma substring_all (s : string) : String.substring 0 (String.length s) s = s.
Proof. induction s as [|x s IH]; simpl; [reflexivity | by rewrite IH]. Qed.

Lemma substring_skip (p s : string) (k : nat) :
  String.substring (String.length p) k (p +:+ s) = String.substring 0 k s.
Proof.
  induction p as [|x p IH]; [reflexivity|]. rewrite append_cons. exact IH.
Qed.

Lemma substring_split (s : string) (n : nat) :
  (n <= String.length s)%nat ->
  s = String.substring 0 n s +:+ String.substring n (String.length s - n) s.
Proof.
  revert n. induction s as [|x s IH]; intros [|n] Hn; simpl in *;
    try reflexivity; try lia.
  - by rewrite append_nil, substring_all.
  - rewrite append_cons. f_equal. apply IH. lia.
Qed.

(** [endsWith] is the suffix relation. *)
Lemma endsWith_spec (s suffix : string) :
  endsWith s suffix = true <-> exists p, s = p +:+ suffix.
Proof.
  unfold endsWith. split.
  - destruct (Nat.leb_spec (String.length suffix) (String.length s)) as [Hle|];
      [|discriminate].
    intros Heq%String.eqb_eq.
    set (k := String.length suffix) in *.
    exists (String.substring 0 (String.length s - k) s).
    rewrite <- Heq.
    etransitivity; [apply (substring_split s (String.length s - k)); lia|].
    do 2 f_equal. lia.
  - intros [p ->]. rewrite length_append.
    destruct (Nat.leb_spec (String.length suffix)
                (String.length p + String.length suffix)) as [_|]; [|lia].
    replace (String.length p + String.length suffix - String.length suffix)%nat
      with (String.length p) by lia.
    rewrite substring_skip, substring_all. apply String.eqb_refl.
Qed.

Lemma replaceAll_append (c : ascii) (r a b : string) :
  replaceAll c r (a +:+ b) = replaceAll c r a +:+ replaceAll c r b.
Proof.
  induction a as [|x a IH]; [reflexivity|].
  rewrite append_cons. cbn [replaceAll]. rewrite IH.
  destruct (Ascii.eqb x c); [by rewrite append_assoc | reflexivity].
Qed.

(** ** Objects *)

Lemma obj_get_set_eq (k : string) (v : JsValue) (o : JsObject) :
  obj_get k (obj_set k v o) = v.
Proof.
  induction o as [|[k' w] o IH]; simpl.
  - by rewrite String.eqb_refl.
  - destruct (String.eqb k' k) eqn:E; simpl; rewrite E; [reflexivity | exact IH].
Qed.

Lemma obj_get_set_ne (k k' : string) (v : JsValue) (o : JsObject) :
  String.eqb k' k = false -> obj_get k (obj_set k' v o) = obj_get k o.
Proof.
  intros Hne. induction o as [|[k0 w] o IH]; simpl.
  - by rewrite Hne.
  - destruct (String.eqb k0 k') eqn:E; simpl.
    + apply String.eqb_eq in E. subst k0. by rewrite Hne.
    + by rewrite IH.
Qed.

Lemma obj_has_set_eq (k : string) (v : JsValue) (o : JsObject) :
  obj_has k (obj_set k v o) = true.
Proof.
  induction o as [|[k' w] o IH]; simpl.
  - by rewrite String.eqb_refl.
  - destruct (String.eqb k' k) eqn:E; simpl; rewrite E; [reflexivity | exact IH].
Qed.

Lemma obj_has_set_ne (k k' : string) (v : JsValue) (o : JsObject) :
  String.eqb k' k = false -> obj_has k (obj_set k' v o) = obj_has k o.
Proof.
  intros Hne. induction o as [|[k0 w] o IH]; simpl.
  - by rewrite Hne.
  - destruct (String.eqb k0 k') eqn:E; simpl.
    + apply String.eqb_eq in E. subst k0. by rewrite Hne.
    + by rewrite IH.
Qed.

(** Rewriting reads through writes at literal keys. *)
Ltac obj_simpl :=
  unfold spread; simpl fold_left; simpl fst; simpl snd;
  repeat first
    [ rewrite obj_get_set_eq
    | rewrite obj_has_set_eq
    | rewrite obj_get_set_ne by reflexivity
    | rewrite obj_has_set_ne by reflexivity ].

(** ** Dimensions *)

Lemma truthy_dimension (d : Dimension) :
  truthy d = true -> exists n, d = DNum n /\ n <> 0.
Proof.
  destruct d as [| |n]; simpl; try discriminate.
  intros H. exists n. split; [reflexivity|].
  intros ->. discriminate.
Qed.

Lemma truthy_DNum (n : Z) : truthy (DNum n) = negb (n =? 0).
Proof. reflexivity. Qed.

(** ** Scenarios of the test suite *)

(** The video of the test suite under maxwidth 800 and maxheight 600. *)
Example video_success :
  exists r,
    createTypeSpecificResponse example_host example_video (DNum 800) (DNum 600)
    = Normal r
    /\ map fst r
       = ["version"; "cache_age"; "type"; "provider_name"; "provider_url";
          "title"; "author_name"; "author_url"; "thumbnail_url";
          "thumbnail_width"; "thumbnail_height"; "html"; "width"; "height"]
    /\ obj_get "width" r = JNum 800 /\ obj_get "height" r = JNum 600
    /\ obj_get "html" r
       = JStr (videoIframe "https://mybusiness.com/embed/123" "800" "600")
    /\ statusCode
         (handler example_host example_backend
            (request [("url", "https://mybusiness.com/video/123");
                      ("maxwidth", "800"); ("maxheight", "600")])) = 200.
Proof. eexists. repeat split; vm_compute; reflexivity. Qed.

(** A request without url that asks for XML. *)
Example xml_error :
  handler example_host example_backend (request [("format", "xml")])
  = {| statusCode := 400;
       headers := [("Content-Type", "text/xml");
                   ("Access-Control-Allow-Origin", "*")];
       body :=
         XML_DECLARATION +:+ LF
         +:+ "<oembed>" +:+ LF
         +:+ "  <error>" +:+ LF
         +:+ "    <code>MISSING_URL</code>" +:+ LF
         +:+ "    <message>URL parameter is required</message>" +:+ LF
         +:+ "    <timestamp>2024-01-01T00:00:00.000Z</timestamp>" +:+ LF
         +:+ "    <requestId>req_1704067200000_k3x9q2m7a</requestId>" +:+ LF
         +:+ "    " +:+ LF
         +:+ "  </error>" +:+ LF
         +:+ "</oembed>" |}.
Proof. vm_compute. reflexivity. Qed.

(** Values that [parseInt] reads, and values it does not. *)
Example parseInt_samples :
  parseInt "800" = Some 800 /\ parseInt "  -12px" = Some (-12)
  /\ parseInt "+7" = Some 7 /\ parseInt "0012" = Some 12
  /\ parseInt "12.5" = Some 12 /\ parseInt "invalid" = None
  /\ parseInt "" = None /\ parseInt ".5" = None /\ parseInt "-" = None.
Proof. repeat split. Qed.

(** ** The dimension constraint (C6) *)

(** C6, as stated, fails at zero.  With original 0 and limit 5 both are
    provided, yet the result is the limit 5 and not the minimum 0; with
    original 5 and limit 0 the result 5 exceeds the limit; with original 0
    and no limit the result is null and not the original. *)
Lemma calculateConstrainedDimension_zero_is_absent :
  calculateConstrainedDimension (DNum 0) (DNum 5) <> DNum (Z.min 0 5)
  /\ (calculateConstrainedDimension (DNum 5) (DNum 0) = DNum 5 /\ ~ 5 <= 0)
  /\ calculateConstrainedDimension (DNum 0) DUndefined <> DNum 0.
Proof.
  split; [|split; [split|]].
  - vm_compute. discriminate.
  - reflexivity.
  - lia.
  - vm_compute. discriminate.
Qed.

(** C6, amended: a dimension counts as given when it is a number other than
    zero.  When both are given the result is their minimum, hence at most
    the limit; when only the original is given the result is the original;
    when the original is not given the result is the limit if that is given
    and null otherwise. *)
Theorem calculateConstrainedDimension_clamp (original limit : Dimension) :
  (forall o c, original = DNum o -> limit = DNum c -> o <> 0 -> c <> 0 ->
     calculateConstrainedDimension original limit = DNum (Z.min o c)
     /\ Z.min o c <= c)
  /\ (truthy original = true -> truthy limit = false ->
      calculateConstrainedDimension original limit = original)
  /\ (truthy original = false -> truthy limit = true ->
      calculateConstrainedDimension original limit = limit)
  /\ (truthy original = false -> truthy limit = false ->
      calculateConstrainedDimension original limit = DNull).
Proof.
  unfold calculateConstrainedDimension, dim_or. repeat split.
  - subst. rewrite !truthy_DNum.
    destruct (Z.eqb_spec o 0); [contradiction|].
    destruct (Z.eqb_spec c 0); [contradiction|]. reflexivity.
  - lia.
  - intros -> ->. reflexivity.
  - intros -> ->. reflexivity.
  - intros -> ->. reflexivity.
Qed.

Lemma calculateConstrainedDimension_clamp_witness :
  (calculateConstrainedDimension (DNum 1024) (DNum 800) = DNum 800
   /\ Z.min 1024 800 <= 800)
  /\ calculateConstrainedDimension (DNum 1024) DUndefined = DNum 1024
  /\ calculateConstrainedDimension DUndefined (DNum 800) = DNum 800
  /\ calculateConstrainedDimension DNull DUndefined = DNull.
Proof.
  split; [|split; [|split]].
  - destruct (calculateConstrainedDimension_clamp (DNum 1024) (DNum 800))
      as (Hmin & _).
    apply (Hmin 1024 800); [reflexivity | reflexivity | lia | lia].
  - destruct (calculateConstrainedDimension_clamp (DNum 1024) DUndefined)
      as (_ & Horig & _).
    apply Horig; reflexivity.
  - destruct (calculateConstrainedDimension_clamp DUndefined (DNum 800))
      as (_ & _ & Hlimit & _).
    apply Hlimit; reflexivity.
  - destruct (calculateConstrainedDimension_clamp DNull DUndefined)
      as (_ & _ & _ & Hnull).
    apply Hnull; reflexivity.
Defined.

(** ** Error codes derived from the status (C10) *)

Lemma getErrorCodeFromStatus_other (statusCode : Z) :
  statusCode <> 400 -> statusCode <> 401 -> statusCode <> 404 ->
  statusCode <> 501 -> statusCode <> 500 ->
  getErrorCodeFromStatus statusCode = "UNKNOWN_ERROR".
Proof.
  intros. unfold getErrorCodeFromStatus. simpl list_to_map.
  rewrite !lookup_insert_ne by congruence. by rewrite lookup_empty.
Qed.

(** The JSON error body opens with the code. *)
Lemma formatJsonErrorResponse_body (statusCode : Z) (e : ErrorData) :
  exists rest,
    body (formatJsonErrorResponse statusCode e)
    = "{" +:+ quoteJSONString "error" +:+ ":{" +:+ quoteJSONString "code"
      +:+ ":" +:+ quoteJSONString (error_code e) +:+ "," +:+ rest.
Proof.
  unfold formatJsonErrorResponse, JSON_stringify, errorObject. cbn [body].
  destruct (error_details e) as [d|]; cbn [app jsonMembers omap list_omap
    jsonValue fmap option_fmap option_map fst snd map join];
    rewrite !append_assoc; eexists; reflexivity.
Qed.

(** The XML error body opens with the code element. *)
Lemma formatXmlErrorResponse_body (statusCode : Z) (e : ErrorData) :
  exists rest,
    body (formatXmlErrorResponse statusCode e)
    = XML_DECLARATION +:+ LF +:+ "<oembed>" +:+ LF +:+ "  <error>" +:+ LF
      +:+ "    <code>" +:+ escapeXml (error_code e) +:+ "</code>" +:+ rest.
Proof. unfold formatXmlErrorResponse. cbn [body]. eexists. reflexivity. Qed.

(** C10: without an explicit code, the code in the error body is read off
    the status: 400, 401, 404, 501 and 500 give BAD_REQUEST, UNAUTHORIZED,
    NOT_FOUND, NOT_IMPLEMENTED and INTERNAL_SERVER_ERROR, and every other
    status gives UNKNOWN_ERROR.  The JSON body opens with that code as the
    first member of [error], the XML body with it as the [code] element. *)
Theorem formatErrorResponse_default_code
    (h : Host) (statusCode : Z) (message format : string)
    (details : option string) :
  let code := getErrorCodeFromStatus statusCode in
  let response :=
    formatErrorResponse h statusCode message format None details in
  error_code (buildErrorData h statusCode message None details) = code
  /\ (format = "xml" ->
      exists rest,
        body response
        = XML_DECLARATION +:+ LF +:+ "<oembed>" +:+ LF +:+ "  <error>" +:+ LF
          +:+ "    <code>" +:+ escapeXml code +:+ "</code>" +:+ rest)
  /\ (format <> "xml" ->
      exists rest,
        body response
        = "{" +:+ quoteJSONString "error" +:+ ":{" +:+ quoteJSONString "code"
          +:+ ":" +:+ quoteJSONString code +:+ "," +:+ rest)
  /\ getErrorCodeFromStatus 400 = "BAD_REQUEST"
  /\ getErrorCodeFromStatus 401 = "UNAUTHORIZED"
  /\ getErrorCodeFromStatus 404 = "NOT_FOUND"
  /\ getErrorCodeFromStatus 501 = "NOT_IMPLEMENTED"
  /\ getErrorCodeFromStatus 500 = "INTERNAL_SERVER_ERROR"
  /\ (statusCode <> 400 -> statusCode <> 401 -> statusCode <> 404 ->
      statusCode <> 501 -> statusCode <> 500 -> code = "UNKNOWN_ERROR").
Proof.
  intros code response. subst response. unfold formatErrorResponse.
  split; [reflexivity|]. split; [|split].
  - intros ->. cbn [String.eqb Ascii.eqb Bool.eqb].
    apply formatXmlErrorResponse_body.
  - intros Hformat%String.eqb_neq. rewrite Hformat.
    apply formatJsonErrorResponse_body.
  - repeat split; try reflexivity.
    intros. by apply getErrorCodeFromStatus_other.
Qed.

Lemma formatErrorResponse_default_code_witness :
  getErrorCodeFromStatus 418 = "UNKNOWN_ERROR"
  /\ exists rest,
       body (formatErrorResponse example_host 418 "I am a teapot" "json" None
               None)
       = "{" +:+ quoteJSONString "error" +:+ ":{" +:+ quoteJSONString "code"
         +:+ ":" +:+ quoteJSONString "UNKNOWN_ERROR" +:+ "," +:+ rest.
Proof.
  destruct (formatErrorResponse_default_code example_host 418 "I am a teapot"
              "json" None) as (_ & _ & Hjson & _ & _ & _ & _ & _ & Hother).
  split; [apply Hother; lia|].
  apply Hjson. discriminate.
Defined.

(** ** The response builder (C3, C5, C8) *)

(** A type-specific constructor writes only [url], [html], [width],
    [height] and [type]; every other property is as the common part left it. *)
Lemma createTypeSpecificResponse_frame
    (h : Host) (metadata : Metadata) (maxwidth maxheight : Dimension)
    (r : JsObject) (key : string) :
  createTypeSpecificResponse h metadata maxwidth maxheight = Normal r ->
  String.eqb "url" key = false -> String.eqb "html" key = false ->
  String.eqb "width" key = false -> String.eqb "height" key = false ->
  String.eqb "type" key = false ->
  obj_get key r = obj_get key (commonResponse h metadata)
  /\ obj_has key r = obj_has key (commonResponse h metadata).
Proof.
  intros Hr Hurl Hhtml Hwidth Hheight Htype.
  unfold createTypeSpecificResponse in Hr. fold (commonResponse h metadata) in Hr.
  set (base := commonResponse h metadata) in *. clearbody base.
  unfold createPhotoResponse, createVideoResponse, createLinkResponse,
    createRichResponse, spread in Hr.
  repeat match type of Hr with
         | context [if ?b then _ else _] => destruct b
         end;
    try discriminate;
    try (destruct (generateVideoHtml _ _ _ _) in Hr; try discriminate);
    injection Hr as <-; simpl fold_left; simpl fst; simpl snd;
    rewrite ?obj_get_set_ne, ?obj_has_set_ne by assumption; auto.
Qed.

Lemma commonResponse_cache_age (h : Host) (metadata : Metadata) :
  obj_get "cache_age" (commonResponse h metadata)
  = if is_undefined (md_cache_age metadata)
    then JNum OEMBED.DEFAULT_CACHE_AGE
    else md_cache_age metadata.
Proof.
  unfold commonResponse, addThumbnailFields, addOptionalFields,
    buildBaseResponse, BASE_RESPONSE_TEMPLATE.
  destruct (is_undefined (md_cache_age metadata)); cbn [negb];
  repeat match goal with
         | |- context [if ?b then _ else _] => destruct b
         end; obj_simpl; reflexivity.
Qed.

(** C3, as stated, fails: a photo whose metadata carries no cache age gets
    3600 seconds and not the 7200 of the per-type table, and rich content
    gets 3600 and not 1800. *)
Lemma photo_cache_age_is_not_type_specific :
  (exists r,
     createTypeSpecificResponse example_host example_photo DUndefined DUndefined
     = Normal r
     /\ DEFAULT_CACHE_AGES "photo" = Some 7200
     /\ obj_get "cache_age" r <> JNum 7200)
  /\ (exists r,
        createTypeSpecificResponse example_host empty_metadata DUndefined
          DUndefined = Normal r
        /\ obj_get "type" r = JStr "rich"
        /\ DEFAULT_CACHE_AGES "rich" = Some 1800
        /\ obj_get "cache_age" r <> JNum 1800).
Proof.
  split; eexists; (split; [vm_compute; reflexivity|]); repeat split;
    vm_compute; discriminate.
Qed.

(** C3, amended: the response carries the cache age of the metadata when
    that is not undefined, and otherwise the one default of 3600 seconds,
    whatever the content type. *)
Theorem createTypeSpecificResponse_cache_age
    (h : Host) (metadata : Metadata) (maxwidth maxheight : Dimension)
    (r : JsObject) :
  createTypeSpecificResponse h metadata maxwidth maxheight = Normal r ->
  obj_get "cache_age" r
  = if is_undefined (md_cache_age metadata) then JNum 3600
    else md_cache_age metadata.
Proof.
  intros Hr.
  destruct (createTypeSpecificResponse_frame _ _ _ _ _ "cache_age" Hr)
    as [-> _]; try reflexivity.
  apply commonResponse_cache_age.
Qed.

Lemma createTypeSpecificResponse_cache_age_witness :
  exists r,
    createTypeSpecificResponse example_host example_photo (DNum 800) DUndefined
    = Normal r
    /\ obj_get "cache_age" r = JNum 3600.
Proof.
  eexists. split; [vm_compute; reflexivity|].
  apply (createTypeSpecificResponse_cache_age example_host example_photo
           (DNum 800) DUndefined).
  vm_compute. reflexivity.
Defined.

(** [addOptionalFields] writes only [title], [author_name], [author_url]
    and [cache_age]. *)
Lemma addOptionalFields_frame
    (response : JsObject) (metadata : Metadata) (key : string) :
  String.eqb "title" key = false -> String.eqb "author_name" key = false ->
  String.eqb "author_url" key = false -> String.eqb "cache_age" key = false ->
  obj_get key (addOptionalFields response metadata) = obj_get key response
  /\ obj_has key (addOptionalFields response metadata) = obj_has key response.
Proof.
  intros Htitle Hname Hurl Hage. unfold addOptionalFields.
  repeat match goal with
         | |- context [if ?b then _ else _] => destruct b
         end;
    rewrite ?obj_get_set_ne, ?obj_has_set_ne by assumption; auto.
Qed.

Lemma commonResponse_thumbnail (h : Host) (metadata : Metadata) :
  let thumbnailUrl :=
    js_or (md_thumbnail_url metadata) (md_thumbnail metadata) in
  obj_has "thumbnail_url" (commonResponse h metadata) = truthy thumbnailUrl
  /\ obj_get "thumbnail_url" (commonResponse h metadata)
     = (if truthy thumbnailUrl then thumbnailUrl else JUndefined)
  /\ obj_has "thumbnail_width" (commonResponse h metadata)
     = truthy thumbnailUrl && truthy (md_thumbnail_width metadata)
  /\ obj_has "thumbnail_height" (commonResponse h metadata)
     = truthy thumbnailUrl && truthy (md_thumbnail_height metadata).
Proof.
  cbn zeta. unfold commonResponse, addThumbnailFields.
  set (base := addOptionalFields (buildBaseResponse h metadata) metadata).
  destruct (addOptionalFields_frame (buildBaseResponse h metadata) metadata
              "thumbnail_url") as [Hget Hurl]; try reflexivity.
  destruct (addOptionalFields_frame (buildBaseResponse h metadata) metadata
              "thumbnail_width") as [_ Hwidth]; try reflexivity.
  destruct (addOptionalFields_frame (buildBaseResponse h metadata) metadata
              "thumbnail_height") as [_ Hheight]; try reflexivity.
  fold base in Hget, Hurl, Hwidth, Hheight.
  destruct (truthy (js_or (md_thumbnail_url metadata) (md_thumbnail metadata)));
    destruct (truthy (md_thumbnail_width metadata));
    destruct (truthy (md_thumbnail_height metadata));
    obj_simpl; rewrite ?Hget, ?Hurl, ?Hwidth, ?Hheight; repeat split.
Qed.

Lemma xmlElements_cons (k : string) (v : JsValue) (data : JsObject) :
  xmlElements ((k, v) :: data)
  = if is_undefined v || is_null v then xmlElements data
    else (k, escapeXml (ToString v)) :: xmlElements data.
Proof. unfold xmlElements. simpl. by destruct v. Qed.

Lemma jsonMembers_cons (k : string) (v : JsValue) (data : JsObject) :
  jsonMembers ((k, v) :: data)
  = match jsonValue v with
    | Some text => (k, text) :: jsonMembers data
    | None => jsonMembers data
    end.
Proof. unfold jsonMembers. simpl. by destruct (jsonValue v). Qed.

(** A key written into the JSON body or the XML body is a key of the
    object, and a key with a truthy value is written into both. *)
Lemma jsonMembers_key (key : string) (data : JsObject) :
  In key (map fst (jsonMembers data)) -> obj_has key data = true.
Proof.
  induction data as [|[k v] data IH]; [done|].
  rewrite jsonMembers_cons. cbn [obj_has].
  destruct (jsonValue v); cbn [map fst In].
  - intros [-> | Hin]; [by rewrite String.eqb_refl|].
    rewrite (IH Hin). apply orb_true_r.
  - intros Hin. rewrite (IH Hin). apply orb_true_r.
Qed.

Lemma xmlElements_key (key : string) (data : JsObject) :
  In key (map fst (xmlElements data)) -> obj_has key data = true.
Proof.
  induction data as [|[k v] data IH]; [done|].
  rewrite xmlElements_cons. cbn [obj_has].
  destruct (is_undefined v || is_null v); cbn [map fst In].
  - intros Hin. rewrite (IH Hin). apply orb_true_r.
  - intros [-> | Hin]; [by rewrite String.eqb_refl|].
    rewrite (IH Hin). apply orb_true_r.
Qed.

Lemma truthy_key_is_written (key : string) (data : JsObject) :
  truthy (obj_get key data) = true ->
  In key (map fst (jsonMembers data)) /\ In key (map fst (xmlElements data)).
Proof.
  induction data as [|[k v] data IH]; [done|].
  rewrite jsonMembers_cons, xmlElements_cons. cbn [obj_get].
  destruct (String.eqb_spec k key) as [->|Hne].
  - intros Hv. destruct v as [| |[]|n|s]; try done; cbn; auto.
  - intros Hv. destruct (IH Hv) as [Hjson Hxml].
    destruct (jsonValue v), (is_undefined v || is_null v); cbn [map fst In];
      auto.
Qed.

(** C5: a response that contains [thumbnail_width] or [thumbnail_height],
    as a property of the object or as a member of the JSON body or a child
    of the XML body, contains [thumbnail_url] too: its value is the
    metadata's [thumbnail_url], or the alias [thumbnail] when that is
    falsy, it is truthy, and it is written into the JSON body and into the
    XML body. *)
Theorem thumbnail_all_or_none
    (h : Host) (metadata : Metadata) (maxwidth maxheight : Dimension)
    (r : JsObject) :
  createTypeSpecificResponse h metadata maxwidth maxheight = Normal r ->
  obj_has "thumbnail_width" r = true \/ obj_has "thumbnail_height" r = true
  \/ In "thumbnail_width" (map fst (jsonMembers r))
  \/ In "thumbnail_height" (map fst (jsonMembers r))
  \/ In "thumbnail_width" (map fst (xmlElements r))
  \/ In "thumbnail_height" (map fst (xmlElements r)) ->
  obj_has "thumbnail_url" r = true
  /\ obj_get "thumbnail_url" r
     = js_or (md_thumbnail_url metadata) (md_thumbnail metadata)
  /\ truthy (obj_get "thumbnail_url" r) = true
  /\ In "thumbnail_url" (map fst (jsonMembers r))
  /\ In "thumbnail_url" (map fst (xmlElements r)).
Proof.
  intros Hr Hpresent.
  assert (Hdim : obj_has "thumbnail_width" r = true
                 \/ obj_has "thumbnail_height" r = true).
  { destruct Hpresent as [?|[?|[?%jsonMembers_key|[?%jsonMembers_key
      |[?%xmlElements_key|?%xmlElements_key]]]]]; auto. }
  clear Hpresent.
  assert (Hurl : obj_has "thumbnail_url" r = true
    /\ obj_get "thumbnail_url" r
       = js_or (md_thumbnail_url metadata) (md_thumbnail metadata)
    /\ truthy (obj_get "thumbnail_url" r) = true).
  { destruct (createTypeSpecificResponse_frame _ _ _ _ _ "thumbnail_url" Hr)
      as [-> ->]; try reflexivity.
    destruct (createTypeSpecificResponse_frame _ _ _ _ _ "thumbnail_width" Hr)
      as [_ Hw]; try reflexivity.
    destruct (createTypeSpecificResponse_frame _ _ _ _ _ "thumbnail_height" Hr)
      as [_ Hh]; try reflexivity.
    rewrite Hw, Hh in Hdim.
    destruct (commonResponse_thumbnail h metadata) as (-> & -> & Hw' & Hh').
    rewrite Hw', Hh' in Hdim.
    destruct (truthy (js_or (md_thumbnail_url metadata)
                        (md_thumbnail metadata))) eqn:Htruthy;
      [by repeat split|].
    destruct Hdim; discriminate. }
  destruct Hurl as (Hhas & Hget & Htruthy).
  split; [exact Hhas|]. split; [exact Hget|]. split; [exact Htruthy|].
  by apply truthy_key_is_written.
Qed.

Lemma thumbnail_all_or_none_witness :
  exists r,
    createTypeSpecificResponse example_host example_video (DNum 800) (DNum 600)
    = Normal r
    /\ obj_has "thumbnail_width" r = true
    /\ obj_has "thumbnail_url" r = true
    /\ obj_get "thumbnail_url" r = JStr "https://mybusiness.com/thumb/123.jpg"
    /\ truthy (obj_get "thumbnail_url" r) = true
    /\ In "thumbnail_url" (map fst (jsonMembers r))
    /\ In "thumbnail_url" (map fst (xmlElements r)).
Proof.
  eexists. split; [vm_compute; reflexivity|].
  split; [vm_compute; reflexivity|].
  apply (thumbnail_all_or_none example_host example_video (DNum 800)
           (DNum 600)).
  - vm_compute. reflexivity.
  - left. vm_compute. reflexivity.
Defined.

(** ** The handler's error responses *)

Lemma formatErrorResponse_statusCode
    (h : Host) (status : Z) (message format : string)
    (code details : option string) :
  statusCode (formatErrorResponse h status message format code details) = status.
Proof. unfold formatErrorResponse. by destruct (String.eqb format "xml"). Qed.

(** With an explicit code, the body opens with that code and the message. *)
Lemma formatErrorResponse_opening
    (h : Host) (status : Z) (message format code : string)
    (details : option string) :
  code <> "" ->
  escapeXml code = code -> escapeXml message = message ->
  jsonEscape code = code -> jsonEscape message = message ->
  exists rest,
    body (formatErrorResponse h status message format (Some code) details)
    = errorOpening format code message +:+ rest.
Proof.
  intros Hcode Hxc Hxm Hjc Hjm.
  unfold formatErrorResponse, errorOpening.
  set (e := buildErrorData h status message (Some code) details).
  assert (He : error_code e = code /\ error_message e = message).
  { subst e. cbn. apply String.eqb_neq in Hcode. by rewrite Hcode. }
  destruct He as [Hec Hem].
  destruct (String.eqb format "xml").
  - unfold formatXmlErrorResponse, xmlErrorOpening. cbn [body].
    rewrite Hec, Hem, Hxc, Hxm. eexists. rewrite !append_assoc. reflexivity.
  - unfold formatJsonErrorResponse, JSON_stringify, errorObject,
      jsonErrorOpening. cbn [body].
    destruct (error_details e) as [d|];
      cbn [app jsonMembers omap list_omap jsonValue fmap option_fmap
           option_map fst snd map join];
      unfold quoteJSONString; rewrite Hec, Hem, Hjc, Hjm;
      eexists; rewrite !append_assoc; reflexivity.
Qed.

(** What the handler answers when authorization does not accept the URL of
    a request that passed validation. *)
Lemma handler_authorization_failure
    (h : Host) (getContentMetadata : Backend) (event : Event)
    (error : string) (code : ErrorCode) (details : option string) :
  let params : QueryParams := default ∅ (queryStringParameters event) in
  let sanitized := sanitizeParams h (Some params) in
  isValid (validateOembedParams (Some params)) = true ->
  validateAndAuthorizeUrl h (sanitized_url sanitized)
  = Normal (AuthInvalid error code details) ->
  handler h getContentMetadata event
  = formatErrorResponse h (num_or (ERROR_STATUS_MAP code) 500) error
      (sanitized_format sanitized) (Some (code_name code)) details.
Proof.
  intros params sanitized Hvalid Hauth.
  unfold handler, handler_try. fold params. fold sanitized.
  rewrite Hvalid. cbn [negb]. rewrite Hauth. reflexivity.
Qed.

Lemma createPhotoResponse_requires_url
    (h : Host) (metadata : Metadata) (maxwidth maxheight : Dimension) :
  md_type metadata = JStr "photo" -> truthy (md_url metadata) = false ->
  createTypeSpecificResponse h metadata maxwidth maxheight
  = Throw "Photo type requires url field".
Proof.
  intros Htype Hurl. unfold createTypeSpecificResponse, createPhotoResponse.
  rewrite Htype, Hurl. reflexivity.
Qed.

Lemma createVideoResponse_requires_embed
    (h : Host) (metadata : Metadata) (maxwidth maxheight : Dimension) :
  md_type metadata = JStr "video" ->
  truthy (md_html metadata) = false -> truthy (md_embedUrl metadata) = false ->
  createTypeSpecificResponse h metadata maxwidth maxheight
  = Throw "Video type requires embedUrl or html field".
Proof.
  intros Htype Hhtml Hembed.
  unfold createTypeSpecificResponse, createVideoResponse.
  rewrite Htype, Hhtml, Hembed. reflexivity.
Qed.

(** C8: for a photo without [url], and for a video with neither [html] nor
    [embedUrl], construction throws its required-field error; and a request
    that passes validation and authorization and whose backend returns such
    metadata is answered with status 500 and code INTERNAL_ERROR: the body
    that is sent opens with that code and the message Internal server
    error, in the format asked for. *)
Theorem missing_required_field_is_internal_error
    (h : Host) (getContentMetadata : Backend) (event : Event)
    (metadata : Metadata) :
  let queryParams : QueryParams := default ∅ (queryStringParameters event) in
  let sanitized := sanitizeParams h (Some queryParams) in
  (md_type metadata = JStr "photo" /\ truthy (md_url metadata) = false)
  \/ (md_type metadata = JStr "video" /\ truthy (md_html metadata) = false
      /\ truthy (md_embedUrl metadata) = false) ->
  (forall maxwidth maxheight,
     createTypeSpecificResponse h metadata maxwidth maxheight
     = Throw (if js_is (md_type metadata) "photo"
              then "Photo type requires url field"
              else "Video type requires embedUrl or html field"))
  /\ (isValid (validateOembedParams (Some queryParams)) = true ->
      (exists urlObj hostname pathname,
         validateAndAuthorizeUrl h (sanitized_url sanitized)
         = Normal (AuthValid urlObj hostname pathname)) ->
      getContentMetadata (sanitized_url sanitized)
        (sanitized_maxwidth sanitized) (sanitized_maxheight sanitized)
      = Normal metadata ->
      handler h getContentMetadata event
      = formatErrorResponse h 500 "Internal server error"
          (str_or (queryParams !! "format") "json") (Some "INTERNAL_ERROR") None
      /\ statusCode (handler h getContentMetadata event) = 500
      /\ exists rest,
          body (handler h getContentMetadata event)
          = errorOpening (str_or (queryParams !! "format") "json")
              "INTERNAL_ERROR" "Internal server error" +:+ rest).
Proof.
  intros queryParams sanitized Hmissing.
  assert (Hthrow : forall maxwidth maxheight,
    createTypeSpecificResponse h metadata maxwidth maxheight
    = Throw (if js_is (md_type metadata) "photo"
             then "Photo type requires url field"
             else "Video type requires embedUrl or html field")).
  { intros maxwidth maxheight.
    destruct Hmissing as [[Htype Hurl] | (Htype & Hhtml & Hembed)].
    - rewrite Htype. by apply createPhotoResponse_requires_url.
    - rewrite Htype. by apply createVideoResponse_requires_embed. }
  split; [exact Hthrow|].
  intros Hvalid (urlObj & hostname & pathname & Hauth) Hbackend.
  assert (Hhandler : handler h getContentMetadata event
    = formatErrorResponse h 500 "Internal server error"
        (str_or (queryParams !! "format") "json") (Some "INTERNAL_ERROR") None).
  { unfold handler, handler_try.
    fold queryParams. fold sanitized.
    rewrite Hvalid. cbn [negb]. rewrite Hauth. cbn [mbind Completion_bind].
    rewrite Hbackend. cbn [mbind Completion_bind]. rewrite Hthrow.
    reflexivity. }
  split; [exact Hhandler|].
  rewrite Hhandler. split; [apply formatErrorResponse_statusCode|].
  by apply formatErrorResponse_opening.
Qed.

Lemma missing_required_field_is_internal_error_witness :
  createTypeSpecificResponse example_host photo_without_url DUndefined DUndefined
  = Throw "Photo type requires url field"
  /\ (statusCode
        (handler example_host (fun _ _ _ => Normal photo_without_url)
           (request [("url", "https://mybusiness.com/video/123")])) = 500
      /\ exists rest,
          body (handler example_host (fun _ _ _ => Normal photo_without_url)
                  (request [("url", "https://mybusiness.com/video/123")]))
          = jsonErrorOpening "INTERNAL_ERROR" "Internal server error"
            +:+ rest)
  /\ (handler example_host (fun _ _ _ => Normal video_without_embed)
        (request [("url", "https://mybusiness.com/video/123");
                  ("format", "xml")])
      = formatErrorResponse example_host 500 "Internal server error" "xml"
          (Some "INTERNAL_ERROR") None
      /\ exists rest,
          body (handler example_host (fun _ _ _ => Normal video_without_embed)
                  (request [("url", "https://mybusiness.com/video/123");
                            ("format", "xml")]))
          = xmlErrorOpening "INTERNAL_ERROR" "Internal server error"
            +:+ rest).
Proof.
  destruct (missing_required_field_is_internal_error example_host
              (fun _ _ _ => Normal photo_without_url)
              (request [("url", "https://mybusiness.com/video/123")])
              photo_without_url) as [Hthrow Hhandler].
  { left. split; reflexivity. }
  destruct (missing_required_field_is_internal_error example_host
              (fun _ _ _ => Normal video_without_embed)
              (request [("url", "https://mybusiness.com/video/123");
                        ("format", "xml")])
              video_without_embed) as [_ Hvideo].
  { right. repeat split; reflexivity. }
  split; [apply Hthrow|]. split.
  - destruct Hhandler as (_ & Hstatus & Hbody).
    + vm_compute. reflexivity.
    + do 3 eexists. vm_compute. reflexivity.
    + reflexivity.
    + split; [exact Hstatus | exact Hbody].
  - destruct Hvideo as (Hresponse & _ & Hbody).
    + vm_compute. reflexivity.
    + do 3 eexists. vm_compute. reflexivity.
    + reflexivity.
    + split; [exact Hresponse | exact Hbody].
Defined.

(** ** Parameter validation (C1, C2) *)

Lemma validateDimension_error
    (value fieldName : string) (errorCode : ErrorCode) (e : ValidationError) :
  validateDimension value fieldName errorCode = Some e ->
  e = createValidationError fieldName (ERROR_MESSAGES errorCode) errorCode.
Proof.
  unfold validateDimension.
  destruct (validateNumeric _ _ _); congruence.
Qed.

Lemma validateDimension_rejects (value fieldName : string) (errorCode : ErrorCode) :
  is_Some (validateDimension value fieldName errorCode)
  <-> dimensionRejected value.
Proof.
  unfold validateDimension, validateNumeric, dimensionRejected,
    MIN_DIMENSION, MAX_WIDTH_LIMIT, MAX_HEIGHT_LIMIT,
    OEMBED.MIN_DIMENSION, OEMBED.MAX_WIDTH_LIMIT, OEMBED.MAX_HEIGHT_LIMIT.
  destruct (parseInt value) as [n|]; [|by split; eauto].
  destruct (String.eqb fieldName "maxwidth");
    destruct (Z.ltb_spec n 1), (Z.ltb_spec 2048 n); simpl;
    (split; intros Hx; [try lia; by destruct Hx | try lia; by eauto]).
Qed.

Lemma validateOembedParams_errors (params : QueryParams) :
  errors (validateOembedParams (Some params))
  = urlErrors params ++ formatErrors params
    ++ dimensionErrors params "maxwidth" INVALID_MAXWIDTH
    ++ dimensionErrors params "maxheight" INVALID_MAXHEIGHT.
Proof.
  unfold validateOembedParams, urlErrors, formatErrors, dimensionErrors.
  change (default ∅ (Some params)) with params. cbn [errors].
  destruct (negb (truthy (opt_js (params !! "url"))));
    destruct (negb (includes VALID_FORMATS _));
    destruct (params !! "maxwidth") as [mw|];
    try destruct (validateDimension mw _ _);
    destruct (params !! "maxheight") as [mh|];
    try destruct (validateDimension mh _ _); reflexivity.
Qed.

Lemma validateOembedParams_isValid (queryParams : option QueryParams) :
  isValid (validateOembedParams queryParams)
  = (List.length (errors (validateOembedParams queryParams)) =? 0)%nat.
Proof. reflexivity. Qed.

Lemma validateOembedParams_format (params : QueryParams) :
  format (validateOembedParams (Some params))
  = str_or (params !! "format") "json".
Proof. reflexivity. Qed.

(** The handler answers an invalid request from the first error alone. *)
Lemma handler_first_error
    (h : Host) (getContentMetadata : Backend) (event : Event)
    (e : ValidationError) (rest : list ValidationError) :
  let validation :=
    validateOembedParams (Some (default ∅ (queryStringParameters event))) in
  errors validation = e :: rest ->
  handler h getContentMetadata event
  = formatErrorResponse h
      (num_or (ERROR_STATUS_MAP (code e)) HTTP_STATUS.INTERNAL_SERVER_ERROR)
      (message e) (format validation) (Some (code_name (code e))) None.
Proof.
  intros validation Herrors. subst validation.
  unfold handler, handler_try. cbn zeta.
  rewrite validateOembedParams_isValid, Herrors. reflexivity.
Qed.

Lemma dimensionErrors_codes
    (params : QueryParams) (fieldName : string) (errorCode : ErrorCode) :
  map code (dimensionErrors params fieldName errorCode) `sublist_of` [errorCode].
Proof.
  unfold dimensionErrors. destruct (params !! fieldName) as [value|];
    [|apply sublist_nil_l].
  destruct (validateDimension value fieldName errorCode) as [e|] eqn:E;
    [|apply sublist_nil_l].
  apply validateDimension_error in E. subst e. reflexivity.
Qed.

Lemma includes_formats_false (f : string) :
  f <> "json" -> f <> "xml" -> includes VALID_FORMATS f = false.
Proof.
  intros Hjson Hxml. unfold includes, VALID_FORMATS, OEMBED.FORMATS. simpl.
  apply String.eqb_neq in Hjson, Hxml. by rewrite Hjson, Hxml.
Qed.

Lemma str_or_nonempty (f d : string) : f <> "" -> str_or (Some f) d = f.
Proof. intros Hf. simpl. apply String.eqb_neq in Hf. by rewrite Hf. Qed.

(** C1, as stated, fails for the empty format value: it is outside json and
    xml, yet it is read as the default json, validation reports no error
    and the request is served. *)
Lemma empty_format_is_not_rejected :
  default ∅ (queryStringParameters request_with_empty_format) !! "format"
  = Some ""
  /\ includes ["json"; "xml"] "" = false
  /\ errors (validateOembedParams
               (queryStringParameters request_with_empty_format)) = []
  /\ statusCode (handler example_host example_backend
                   request_with_empty_format) = 200.
Proof. repeat split; vm_compute; reflexivity. Qed.

(** The codes and the messages of the error table hold no character that
    XML or JSON escapes. *)
Lemma error_table_plain (c : ErrorCode) :
  code_name c <> ""
  /\ escapeXml (code_name c) = code_name c
  /\ escapeXml (ERROR_MESSAGES c) = ERROR_MESSAGES c
  /\ jsonEscape (code_name c) = code_name c
  /\ jsonEscape (ERROR_MESSAGES c) = ERROR_MESSAGES c.
Proof. destruct c; (split; [discriminate|]); vm_compute; done. Qed.

(** Every validation error carries the message the table gives its code. *)
Lemma validation_error_message (params : QueryParams) (e : ValidationError) :
  In e (errors (validateOembedParams (Some params))) ->
  message e = ERROR_MESSAGES (code e).
Proof.
  rewrite validateOembedParams_errors, !in_app_iff.
  unfold urlErrors, formatErrors, dimensionErrors, validateDimension.
  intros [He|[He|[He|He]]].
  - destruct (negb _); [|done]. by destruct He as [<-|[]].
  - destruct (negb _); [|done]. by destruct He as [<-|[]].
  - destruct (params !! "maxwidth") as [value|]; [|done].
    destruct (validateNumeric _ _ _); [|done]. by destruct He as [<-|[]].
  - destruct (params !! "maxheight") as [value|]; [|done].
    destruct (validateNumeric _ _ _); [|done]. by destruct He as [<-|[]].
Qed.

(** C1, amended: the errors are those of the url check, then of the format
    check, then of maxwidth, then of maxheight; the handler answers from the
    first error alone, with its code and the status mapped to it.  A
    request whose url is missing or empty gets status 400 and code
    MISSING_URL whatever its format; a request with a non-empty url and a
    non-empty format other than json and xml gets status 501 and code
    INVALID_FORMAT.  The code is in the body that is sent: the body opens
    with the code and the message of the error, as XML when the format asked
    for is xml and as JSON otherwise. *)
Theorem validation_first_error_decides
    (h : Host) (getContentMetadata : Backend) (event : Event) :
  let params : QueryParams := default ∅ (queryStringParameters event) in
  let validation := validateOembedParams (Some params) in
  let response := handler h getContentMetadata event in
  errors validation
  = urlErrors params ++ formatErrors params
    ++ dimensionErrors params "maxwidth" INVALID_MAXWIDTH
    ++ dimensionErrors params "maxheight" INVALID_MAXHEIGHT
  /\ map code (errors validation)
     `sublist_of` [MISSING_URL; INVALID_FORMAT; INVALID_MAXWIDTH;
                   INVALID_MAXHEIGHT]
  /\ (forall e rest, errors validation = e :: rest ->
      response
      = formatErrorResponse h (num_or (ERROR_STATUS_MAP (code e)) 500)
          (message e) (format validation) (Some (code_name (code e))) None
      /\ statusCode response = num_or (ERROR_STATUS_MAP (code e)) 500
      /\ message e = ERROR_MESSAGES (code e)
      /\ exists tail,
          body response
          = errorOpening (format validation) (code_name (code e))
              (ERROR_MESSAGES (code e)) +:+ tail)
  /\ (truthy (opt_js (params !! "url")) = false ->
      response
      = formatErrorResponse h 400 "URL parameter is required"
          (format validation) (Some "MISSING_URL") None
      /\ statusCode response = 400
      /\ exists rest,
          body response
          = errorOpening (format validation) "MISSING_URL"
              "URL parameter is required" +:+ rest)
  /\ (truthy (opt_js (params !! "url")) = true ->
      forall f, params !! "format" = Some f ->
      f <> "" -> f <> "json" -> f <> "xml" ->
      response
      = formatErrorResponse h 501 "Format not implemented" f
          (Some "INVALID_FORMAT") None
      /\ statusCode response = 501
      /\ exists rest,
          body response
          = jsonErrorOpening "INVALID_FORMAT" "Format not implemented"
            +:+ rest).
Proof.
  intros params validation response.
  assert (Hfirst : forall e rest, errors validation = e :: rest ->
    response
    = formatErrorResponse h (num_or (ERROR_STATUS_MAP (code e)) 500)
        (message e) (format validation) (Some (code_name (code e))) None).
  { intros e rest He.
    exact (handler_first_error h getContentMetadata event e rest He). }
  pose proof (validateOembedParams_errors params) as Herrors.
  fold validation in Herrors.
  split; [exact Herrors|]. split; [|split; [|split]].
  - rewrite Herrors, !map_app.
    change [MISSING_URL; INVALID_FORMAT; INVALID_MAXWIDTH; INVALID_MAXHEIGHT]
      with ([MISSING_URL] ++ [INVALID_FORMAT] ++ [INVALID_MAXWIDTH]
            ++ [INVALID_MAXHEIGHT]).
    repeat apply sublist_app; try apply dimensionErrors_codes.
    + unfold urlErrors. destruct (negb _); [reflexivity | apply sublist_nil_l].
    + unfold formatErrors. destruct (negb _); [reflexivity | apply sublist_nil_l].
  - intros e rest He. rewrite (Hfirst e rest He).
    assert (Hmessage : message e = ERROR_MESSAGES (code e)).
    { apply (validation_error_message params). fold validation.
      rewrite He. by left. }
    split; [reflexivity|]. split; [apply formatErrorResponse_statusCode|].
    split; [exact Hmessage|]. rewrite Hmessage.
    destruct (error_table_plain (code e)) as (? & ? & ? & ? & ?).
    by apply formatErrorResponse_opening.
  - intros Hurl.
    assert (response
            = formatErrorResponse h 400 "URL parameter is required"
                (format validation) (Some "MISSING_URL") None) as ->.
    { unfold urlErrors in Herrors. rewrite Hurl in Herrors.
      exact (Hfirst _ _ Herrors). }
    split; [reflexivity|]. split; [apply formatErrorResponse_statusCode|].
    by apply formatErrorResponse_opening.
  - intros Hurl f Hf Hne Hjson Hxml.
    assert (response
            = formatErrorResponse h 501 "Format not implemented" f
                (Some "INVALID_FORMAT") None) as ->.
    { unfold urlErrors, formatErrors in Herrors.
      rewrite Hurl, Hf in Herrors.
      unfold OEMBED.DEFAULT_FORMAT in Herrors.
      rewrite (str_or_nonempty f "json" Hne) in Herrors.
      rewrite (includes_formats_false f Hjson Hxml) in Herrors.
      rewrite (Hfirst _ _ Herrors). cbn [code message createValidationError].
      subst validation. rewrite validateOembedParams_format, Hf.
      rewrite (str_or_nonempty f "json" Hne). reflexivity. }
    split; [reflexivity|]. split; [apply formatErrorResponse_statusCode|].
    destruct (formatErrorResponse_opening h 501 "Format not implemented" f
                "INVALID_FORMAT" None) as [rest Hrest]; try done.
    exists rest. rewrite Hrest. unfold errorOpening.
    apply String.eqb_neq in Hxml. by rewrite Hxml.
Qed.

(** A request without url asking for XML, and one with an unknown format. *)
Lemma validation_first_error_decides_witness :
  (statusCode (handler example_host example_backend
                 (request [("format", "xml"); ("maxwidth", "0")])) = 400
   /\ exists rest,
       body (handler example_host example_backend
               (request [("format", "xml"); ("maxwidth", "0")]))
       = xmlErrorOpening "MISSING_URL" "URL parameter is required" +:+ rest)
  /\ (handler example_host example_backend
        (request [("url", "https://mybusiness.com/video"); ("format", "yaml")])
      = formatErrorResponse example_host 501 "Format not implemented" "yaml"
          (Some "INVALID_FORMAT") None
      /\ exists rest,
          body (handler example_host example_backend
                  (request [("url", "https://mybusiness.com/video");
                            ("format", "yaml")]))
          = jsonErrorOpening "INVALID_FORMAT" "Format not implemented"
            +:+ rest).
Proof.
  split.
  - destruct (validation_first_error_decides example_host example_backend
                (request [("format", "xml"); ("maxwidth", "0")]))
      as (_ & _ & _ & Hmissing & _).
    destruct Hmissing as (_ & Hstatus & Hbody); [vm_compute; reflexivity|].
    split; [exact Hstatus | exact Hbody].
  - destruct (validation_first_error_decides example_host example_backend
                (request [("url", "https://mybusiness.com/video");
                          ("format", "yaml")]))
      as (_ & _ & _ & _ & Hformat).
    destruct (Hformat eq_refl "yaml") as (Hresponse & _ & Hbody);
      [vm_compute; reflexivity | discriminate | discriminate | discriminate |].
    split; [exact Hresponse | exact Hbody].
Defined.

(** *** [parseInt] reads back what the decimal printer writes *)

Lemma digit_cases (d : N) :
  (d < 10)%N ->
  d = 0%N \/ d = 1%N \/ d = 2%N \/ d = 3%N \/ d = 4%N \/ d = 5%N \/ d = 6%N
  \/ d = 7%N \/ d = 8%N \/ d = 9%N.
Proof. lia. Qed.

Lemma digitValue_pretty_N_char (d : N) :
  (d < 10)%N -> digitValue (pretty_N_char d) = Some (Z.of_N d).
Proof.
  intros Hd. destruct (digit_cases d Hd) as [->|[->|[->|[->|[->|[->|[->|[->|[->| ->]]]]]]]]];
    reflexivity.
Qed.

Lemma parseInt_digit_head (d : N) (rest : string) :
  (d < 10)%N ->
  parseInt (String (pretty_N_char d) rest)
  = leadingDigits None (String (pretty_N_char d) rest).
Proof.
  intros Hd. destruct (digit_cases d Hd) as [->|[->|[->|[->|[->|[->|[->|[->|[->| ->]]]]]]]]];
    reflexivity.
Qed.

Lemma pretty_N_go_head (x : N) (s : string) :
  (0 < x)%N ->
  exists d rest, (d < 10)%N /\ pretty_N_go x s = String (pretty_N_char d) rest.
Proof.
  revert s. induction (N.lt_wf_0 x) as [x _ IH]. intros s Hx.
  rewrite pretty_N_go_step by done.
  destruct (decide (x `div` 10 = 0)%N) as [Hz|Hnz].
  - rewrite Hz, pretty_N_go_0. exists (x `mod` 10)%N, s.
    split; [apply N.mod_lt; lia | reflexivity].
  - apply IH; [apply N.div_lt; lia | by apply N.neq_0_lt_0].
Qed.

Lemma leadingDigits_pretty_N_go (x : N) (s : string) (acc : option Z) :
  default 0 acc = 0 -> (0 < x)%N ->
  leadingDigits acc (pretty_N_go x s) = leadingDigits (Some (Z.of_N x)) s.
Proof.
  intros Hacc. revert s. induction (N.lt_wf_0 x) as [x _ IH]. intros s Hx.
  rewrite pretty_N_go_step by done.
  pose proof (N.div_mod x 10 ltac:(lia)) as Hdm.
  pose proof (N.mod_lt x 10 ltac:(lia)) as Hmod.
  destruct (decide (x `div` 10 = 0)%N) as [Hz|Hnz].
  - rewrite Hz, pretty_N_go_0. cbn [leadingDigits].
    rewrite digitValue_pretty_N_char by done. rewrite Hacc.
    do 2 f_equal. lia.
  - rewrite IH by first [apply N.div_lt; lia | by apply N.neq_0_lt_0].
    cbn [leadingDigits].
    rewrite digitValue_pretty_N_char by done. cbn [default from_option id].
    do 2 f_equal. lia.
Qed.

Lemma parseInt_pretty_N_go (x : N) :
  (0 < x)%N -> parseInt (pretty_N_go x "") = Some (Z.of_N x).
Proof.
  intros Hx. destruct (pretty_N_go_head x "" Hx) as (d & rest & Hd & Hhead).
  rewrite Hhead, parseInt_digit_head by done. rewrite <- Hhead.
  by rewrite leadingDigits_pretty_N_go.
Qed.

(** An integer printed in decimal is read back as itself. *)
Lemma parseInt_pretty (n : Z) : parseInt (pretty n) = Some n.
Proof.
  destruct n as [|p|p]; [reflexivity| |].
  - change (pretty (Z.pos p)) with (pretty_N_go (N.pos p) EmptyString).
    by rewrite parseInt_pretty_N_go.
  - change (pretty (Z.neg p)) with ("-" +:+ pretty_N_go (N.pos p) EmptyString).
    change (parseInt ("-" +:+ pretty_N_go (N.pos p) EmptyString))
      with (Z.opp <$> leadingDigits None (pretty_N_go (N.pos p) EmptyString)).
    by rewrite leadingDigits_pretty_N_go.
Qed.

Lemma urlErrors_elem (params : QueryParams) (e : ValidationError) :
  e ∈ urlErrors params ->
  e = createValidationError "url" (ERROR_MESSAGES MISSING_URL) MISSING_URL.
Proof.
  unfold urlErrors. destruct (negb _); [|by intros ?%elem_of_nil].
  by intros ->%list_elem_of_singleton.
Qed.

Lemma formatErrors_elem (params : QueryParams) (e : ValidationError) :
  e ∈ formatErrors params ->
  e = createValidationError "format" (ERROR_MESSAGES INVALID_FORMAT)
        INVALID_FORMAT.
Proof.
  unfold formatErrors. destruct (negb _); [|by intros ?%elem_of_nil].
  by intros ->%list_elem_of_singleton.
Qed.

Lemma dimensionErrors_elem
    (params : QueryParams) (fieldName : string) (errorCode : ErrorCode)
    (e : ValidationError) :
  e ∈ dimensionErrors params fieldName errorCode
  <-> (exists value, params !! fieldName = Some value /\ dimensionRejected value)
      /\ e = createValidationError fieldName (ERROR_MESSAGES errorCode) errorCode.
Proof.
  unfold dimensionErrors. destruct (params !! fieldName) as [value|].
  - pose proof (validateDimension_rejects value fieldName errorCode) as Hrej.
    destruct (validateDimension value fieldName errorCode) as [e'|] eqn:E.
    + apply validateDimension_error in E. subst e'.
      rewrite list_elem_of_singleton. split.
      * intros ->. split; [|reflexivity]. exists value. split; [done|].
        apply Hrej. eauto.
      * by intros [_ ->].
    + split; [by intros ?%elem_of_nil|].
      intros [(value' & [= <-] & Hvalue) _].
      apply Hrej in Hvalue. by destruct Hvalue.
  - split; [by intros ?%elem_of_nil|]. by intros [(value' & ? & _) _].
Qed.

(** C2, as stated, fails for a value that is not an integer: 12.5 and 100px
    are no integer literals, yet [parseInt] reads their leading 12 and 100,
    no error is reported and the request is served. *)
Lemma fractional_dimension_is_accepted :
  (isIntegerLiteral "12.5" = false
   /\ errors (validateOembedParams
                (queryStringParameters request_with_fractional_maxwidth)) = []
   /\ statusCode (handler example_host example_backend
                    request_with_fractional_maxwidth) = 200)
  /\ (isIntegerLiteral "100px" = false
      /\ errors (validateOembedParams
                   (queryStringParameters request_with_unit_suffix)) = []
      /\ statusCode (handler example_host example_backend
                       request_with_unit_suffix) = 200).
Proof. repeat split; vm_compute; reflexivity. Qed.

Lemma errors_elem (params : QueryParams) (e : ValidationError) :
  e ∈ errors (validateOembedParams (Some params))
  <-> e ∈ urlErrors params \/ e ∈ formatErrors params
      \/ e ∈ dimensionErrors params "maxwidth" INVALID_MAXWIDTH
      \/ e ∈ dimensionErrors params "maxheight" INVALID_MAXHEIGHT.
Proof. rewrite validateOembedParams_errors, !elem_of_app. tauto. Qed.

(** C2, amended: when maxwidth (respectively maxheight) is present, its
    error is reported exactly when [parseInt] finds no leading integer in
    the value or finds one below 1 or above 2048; for a value that is an
    integer written in decimal this is exactly when the integer is below 1
    or above 2048.  Every rejected value yields the same error object with
    the one code INVALID_MAXWIDTH (respectively INVALID_MAXHEIGHT), the
    status mapped to that code is 400, and it is the status of the response
    whenever that error is the first of the list. *)
Theorem dimension_rejected_by_parseInt_range
    (h : Host) (getContentMetadata : Backend) (event : Event)
    (fieldName : string) (errorCode : ErrorCode) (value : string) :
  let params : QueryParams := default ∅ (queryStringParameters event) in
  let validation := validateOembedParams (Some params) in
  (fieldName = "maxwidth" /\ errorCode = INVALID_MAXWIDTH)
  \/ (fieldName = "maxheight" /\ errorCode = INVALID_MAXHEIGHT) ->
  params !! fieldName = Some value ->
  (errorCode ∈ map code (errors validation) <-> dimensionRejected value)
  /\ (forall e, e ∈ errors validation ->
      field e = fieldName \/ code e = errorCode ->
      e = createValidationError fieldName (ERROR_MESSAGES errorCode) errorCode)
  /\ ERROR_STATUS_MAP errorCode = Some 400
  /\ (forall e rest, errors validation = e :: rest -> code e = errorCode ->
      statusCode (handler h getContentMetadata event) = 400)
  /\ (forall n : Z, value = pretty n ->
      (dimensionRejected value <-> n < 1 \/ 2048 < n)).
Proof.
  intros params validation Hfield Hvalue.
  assert (Hsame : forall e, e ∈ errors validation ->
    field e = fieldName \/ code e = errorCode ->
    e = createValidationError fieldName (ERROR_MESSAGES errorCode) errorCode
    /\ dimensionRejected value).
  { intros e He Hfc. apply errors_elem in He.
    destruct He as [He|[He|[He|He]]].
    - apply urlErrors_elem in He. subst e.
      destruct Hfield as [[-> ->]|[-> ->]], Hfc; discriminate.
    - apply formatErrors_elem in He. subst e.
      destruct Hfield as [[-> ->]|[-> ->]], Hfc; discriminate.
    - apply dimensionErrors_elem in He as [(value' & Hv' & Hrej) ->].
      destruct Hfield as [[-> ->]|[-> ->]]; [|destruct Hfc; discriminate].
      split; [reflexivity|]. congruence.
    - apply dimensionErrors_elem in He as [(value' & Hv' & Hrej) ->].
      destruct Hfield as [[-> ->]|[-> ->]]; [destruct Hfc; discriminate|].
      split; [reflexivity|]. congruence. }
  split; [|split; [|split; [|split]]].
  - split.
    + intros (e & Hcode & He)%list_elem_of_fmap.
      apply (Hsame e He). by right.
    + intros Hrej. apply list_elem_of_fmap.
      exists (createValidationError fieldName (ERROR_MESSAGES errorCode) errorCode).
      split; [reflexivity|]. apply errors_elem.
      destruct Hfield as [[-> ->]|[-> ->]]; [right; right; left | right; right; right];
        apply dimensionErrors_elem; eauto.
  - intros e He Hfc. by apply Hsame.
  - by destruct Hfield as [[-> ->]|[-> ->]].
  - intros e rest Herrors Hcode.
    pose proof (handler_first_error h getContentMetadata event e rest Herrors) as Hh.
    cbn zeta in Hh. rewrite Hh, formatErrorResponse_statusCode, Hcode.
    by destruct Hfield as [[-> ->]|[-> ->]].
  - intros n ->. unfold dimensionRejected. by rewrite parseInt_pretty.
Qed.

Lemma dimension_rejected_by_parseInt_range_witness :
  (INVALID_MAXHEIGHT
     ∈ map code (errors (validateOembedParams
                           (Some (list_to_map [("maxheight", "3000")]))))
   <-> dimensionRejected "3000")
  /\ (dimensionRejected "3000" <-> 3000 < 1 \/ 2048 < 3000).
Proof.
  destruct (dimension_rejected_by_parseInt_range example_host example_backend
              (request [("maxheight", "3000")]) "maxheight" INVALID_MAXHEIGHT
              "3000") as (Hiff & _ & _ & _ & Hint).
  - right. split; reflexivity.
  - vm_compute. reflexivity.
  - split; [exact Hiff|]. apply (Hint 3000). vm_compute. reflexivity.
Defined.

(** ** URL authorization (C4) *)

Lemma includes_protocols (p : string) :
  includes SECURITY.ALLOWED_PROTOCOLS p = true <-> p = "http:" \/ p = "https:".
Proof.
  unfold includes, SECURITY.ALLOWED_PROTOCOLS. simpl.
  rewrite !orb_true_iff, !String.eqb_eq. intuition discriminate.
Qed.

Lemma validateAndSanitizeUrl_valid (h : Host) (url : string) (u : URL) :
  url <> "" -> (String.length url <= 2048)%nat ->
  URL_parse h url = Some u ->
  includes SECURITY.ALLOWED_PROTOCOLS (protocol u) = true ->
  validateAndSanitizeUrl h (Some url)
  = UrlValid (sanitizedUrlOf u) (protocol u) (hostname u) (pathname u).
Proof.
  intros Hne Hlen Hparse Hproto. unfold validateAndSanitizeUrl, new_URL.
  destruct (Nat.eqb_spec (String.length url) 0) as [Hlen0|_];
    [by destruct url|].
  unfold SECURITY.MAX_URL_LENGTH.
  destruct (Nat.ltb_spec 2048 (String.length url)) as [Hgt|_]; [lia|].
  rewrite Hparse. cbn [mbind Completion_bind]. rewrite Hproto.
  reflexivity.
Qed.

(** C4: a URL that is empty, longer than 2048 characters, not parseable,
    or of a scheme other than http and https is invalid with code
    MALFORMED_URL.  Otherwise, without a configured provider domain the
    result is invalid with code MISSING_PROVIDER_DOMAIN; with one, the
    result is valid exactly when the parsed hostname ends with the provider
    domain (is the domain, or the domain after some prefix), and a mismatch
    gives code UNAUTHORIZED_DOMAIN, which the handler maps to 404, with
    details that name the hostname and the provider domain: a request that
    passed validation and whose url is such a mismatch is answered with
    status 404 and a body that opens with that code and the message
    Provider Domain Not Found.  The parser is assumed to accept again the
    URL rebuilt from the parts of an accepted one. *)
Theorem validateAndAuthorizeUrl_outcomes (h : Host) (url : string) :
  reparses h ->
  (url = "" \/ (2048 < String.length url)%nat \/ URL_parse h url = None
   \/ (exists u, URL_parse h url = Some u
                 /\ protocol u <> "http:" /\ protocol u <> "https:") ->
   exists details,
     validateAndAuthorizeUrl h (Some url)
     = Normal (AuthInvalid "Invalid URL" MALFORMED_URL (Some details)))
  /\ (forall u,
      url <> "" -> (String.length url <= 2048)%nat ->
      URL_parse h url = Some u ->
      protocol u = "http:" \/ protocol u = "https:" ->
      (truthy (opt_js (PROVIDER_DOMAIN (env h))) = false ->
       validateAndAuthorizeUrl h (Some url)
       = Normal (AuthInvalid "Provider domain not configured"
                   MISSING_PROVIDER_DOMAIN None))
      /\ (forall providerDomain,
          PROVIDER_DOMAIN (env h) = Some providerDomain ->
          providerDomain <> "" ->
          ((exists urlObj,
              validateAndAuthorizeUrl h (Some url)
              = Normal (AuthValid urlObj (hostname u) (pathname u)))
           <-> (exists p, hostname u = p +:+ providerDomain))
          /\ (~ (exists p, hostname u = p +:+ providerDomain) ->
              validateAndAuthorizeUrl h (Some url)
              = Normal (AuthInvalid "Provider Domain Not Found"
                          UNAUTHORIZED_DOMAIN
                          (Some ("URL hostname " +:+ hostname u
                                 +:+ " does not match provider domain "
                                 +:+ providerDomain)))
              /\ ERROR_STATUS_MAP UNAUTHORIZED_DOMAIN = Some 404
              /\ forall (getContentMetadata : Backend) (event : Event),
                  let params : QueryParams :=
                    default ∅ (queryStringParameters event) in
                  let response := handler h getContentMetadata event in
                  isValid (validateOembedParams (Some params)) = true ->
                  sanitized_url (sanitizeParams h (Some params)) = Some url ->
                  statusCode response = 404
                  /\ exists rest,
                      body response
                      = errorOpening (str_or (params !! "format") "json")
                          "UNAUTHORIZED_DOMAIN" "Provider Domain Not Found"
                        +:+ rest))).
Proof.
  intros Hreparse. split.
  - intros Hbad. unfold validateAndAuthorizeUrl.
    assert (exists error, validateAndSanitizeUrl h (Some url) = UrlInvalid error)
      as [error ->]; [|by eexists].
    unfold validateAndSanitizeUrl, new_URL.
    destruct (Nat.eqb_spec (String.length url) 0) as [|Hlen0]; [by eexists|].
    destruct (Nat.ltb_spec SECURITY.MAX_URL_LENGTH (String.length url))
      as [|Hlen]; [by eexists|].
    destruct Hbad as [-> | [Hlong | [Hnone | (u & Hu & Hhttp & Hhttps)]]].
    + done.
    + unfold SECURITY.MAX_URL_LENGTH in Hlen. lia.
    + rewrite Hnone. by eexists.
    + rewrite Hu. cbn [mbind Completion_bind].
      destruct (includes SECURITY.ALLOWED_PROTOCOLS (protocol u)) eqn:Hinc;
        [|by eexists].
      apply includes_protocols in Hinc. tauto.
  - intros u Hne Hlen Hparse Hproto%includes_protocols.
    unfold validateAndAuthorizeUrl.
    rewrite (validateAndSanitizeUrl_valid h url u) by done.
    split.
    + by intros ->.
    + intros providerDomain Hdomain Hdne. rewrite Hdomain.
      cbn [opt_js truthy default from_option id].
      apply String.eqb_neq in Hdne. rewrite Hdne. cbn [negb].
      destruct (endsWith (hostname u) providerDomain) eqn:Hends; cbn [negb].
      * destruct (Hreparse url u Hparse Hproto) as [urlObj HurlObj].
        unfold new_URL. rewrite HurlObj. cbn [mbind Completion_bind mret Completion_ret].
        apply endsWith_spec in Hends. split; [split; eauto|]. done.
      * assert (Hno : ~ (exists p, hostname u = p +:+ providerDomain)).
        { intros Hp%endsWith_spec. congruence. }
        split; [split|].
        -- by intros [urlObj ?].
        -- intros Hp. by destruct Hno.
        -- intros _. split; [done|]. split; [done|].
           intros getContentMetadata event Hvalid Hsanitized.
           rewrite (handler_authorization_failure h getContentMetadata event
                      "Provider Domain Not Found" UNAUTHORIZED_DOMAIN
                      (Some ("URL hostname " +:+ hostname u
                             +:+ " does not match provider domain "
                             +:+ providerDomain)) Hvalid).
           ++ split; [apply formatErrorResponse_statusCode|].
              by apply formatErrorResponse_opening.
           ++ rewrite Hsanitized. unfold validateAndAuthorizeUrl.
              rewrite (validateAndSanitizeUrl_valid h url u) by done.
              rewrite Hdomain. cbn [opt_js truthy default from_option id].
              rewrite Hdne. cbn [negb]. by rewrite Hends.
Qed.

Lemma example_host_reparses : reparses example_host.
Proof.
  intros s u Hparse Hproto. unfold example_host, URL_parse in *.
  unfold example_parse in Hparse.
  repeat match type of Hparse with
         | (if ?b then _ else _) = _ => destruct b
         end; try discriminate; injection Hparse as <-;
    try discriminate; vm_compute; eauto.
Qed.

Lemma validateAndAuthorizeUrl_outcomes_witness :
  (validateAndAuthorizeUrl example_host (Some "https://other-domain.com/video")
   = Normal (AuthInvalid "Provider Domain Not Found" UNAUTHORIZED_DOMAIN
               (Some "URL hostname other-domain.com does not match provider domain mybusiness.com"))
   /\ statusCode
        (handler example_host example_backend
           (request [("url", "https://other-domain.com/video")])) = 404)
  /\ (exists details,
        validateAndAuthorizeUrl example_host (Some "ftp://mybusiness.com/file")
        = Normal (AuthInvalid "Invalid URL" MALFORMED_URL (Some details))).
Proof.
  split.
  - destruct (validateAndAuthorizeUrl_outcomes example_host
                "https://other-domain.com/video" example_host_reparses)
      as [_ Hparsed].
    destruct (Hparsed (https_url "other-domain.com" "/video"))
      as [_ Hdomain].
    + discriminate.
    + vm_compute. lia.
    + reflexivity.
    + right. reflexivity.
    + destruct (Hdomain "mybusiness.com" eq_refl) as [_ Hmismatch].
      * discriminate.
      * destruct Hmismatch as (Hresult & _ & Hhandler).
        { intros Hp%endsWith_spec. vm_compute in Hp. discriminate. }
        split; [exact Hresult|].
        apply (Hhandler example_backend
                 (request [("url", "https://other-domain.com/video")]));
          vm_compute; reflexivity.
  - destruct (validateAndAuthorizeUrl_outcomes example_host
                "ftp://mybusiness.com/file" example_host_reparses)
      as [Hmalformed _].
    apply Hmalformed. do 3 right. eexists. split; [reflexivity|].
    split; discriminate.
Defined.

(** ** The video markup (C9) *)

(** [sanitizeUrl] never throws: its [catch] turns a failed parse into the
    empty string. *)
Lemma sanitizeUrl_result (h : Host) (url : JsValue) :
  sanitizeUrl h url
  = Normal (if truthy url then
              match URL_parse h (ToString url) with
              | Some urlObj =>
                  if includes ["http:"; "https:"] (protocol urlObj)
                  then href urlObj else ""
              | None => ""
              end
            else "").
Proof.
  unfold sanitizeUrl, new_URL. destruct (truthy url); [|reflexivity].
  cbn [negb]. destruct (URL_parse h (ToString url)) as [urlObj|]; [|reflexivity].
  cbn [mbind Completion_bind try_catch].
  by destruct (includes _ (protocol urlObj)).
Qed.






(** ** JSON and XML bodies (C7) *)

(** The five replacements in sequence, without the guard for the empty
    string. *)
Lemma escapeXml_replacements (s : string) :
  escapeXml s
  = replaceAll "'" "&apos;"
      (replaceAll "034" "&quot;"
         (replaceAll ">" "&gt;"
            (replaceAll "<" "&lt;" (replaceAll "&" "&amp;" s)))).
Proof. destruct s; reflexivity. Qed.

Lemma escapeXml_append (a b : string) :
  escapeXml (a +:+ b) = escapeXml a +:+ escapeXml b.
Proof. by rewrite !escapeXml_replacements, !replaceAll_append. Qed.

Lemma escapeXml_char (c : ascii) : escapeXml (String c "") = xmlEscapeChar c.
Proof.
  rewrite escapeXml_replacements. unfold xmlEscapeChar.
  destruct (Ascii.eqb_spec c "&") as [->|Hamp]; [reflexivity|].
  destruct (Ascii.eqb_spec c "<") as [->|Hlt]; [reflexivity|].
  destruct (Ascii.eqb_spec c ">") as [->|Hgt]; [reflexivity|].
  destruct (Ascii.eqb_spec c "034") as [->|Hquot]; [reflexivity|].
  destruct (Ascii.eqb_spec c "'") as [->|Hapos]; [reflexivity|].
  apply Ascii.eqb_neq in Hamp, Hlt, Hgt, Hquot, Hapos.
  cbn [replaceAll]. rewrite Hamp. cbn [replaceAll]. rewrite Hlt.
  cbn [replaceAll]. rewrite Hgt. cbn [replaceAll]. rewrite Hquot.
  cbn [replaceAll]. rewrite Hapos. reflexivity.
Qed.

(** Replacing one after another is escaping character by character: no
    replacement touches the entities written by an earlier one. *)
Lemma escapeXml_xmlEscaped (s : string) : escapeXml s = xmlEscaped s.
Proof.
  induction s as [|c s IH]; [reflexivity|].
  change (String c s) with (String c "" +:+ s).
  rewrite escapeXml_append, escapeXml_char, IH. reflexivity.
Qed.


Lemma contains_append (c : ascii) (a b : string) :
  contains c (a +:+ b) = contains c a || contains c b.
Proof.
  induction a as [|x a IH]; [reflexivity|].
  rewrite append_cons. simpl. rewrite IH. by rewrite orb_assoc.
Qed.

(** No markup character survives the escape. *)
Lemma xmlEscaped_clean (s : string) :
  contains "<" (xmlEscaped s) = false /\ contains ">" (xmlEscaped s) = false
  /\ contains "034" (xmlEscaped s) = false
  /\ contains "'" (xmlEscaped s) = false.
Proof.
  induction s as [|c s (IH1 & IH2 & IH3 & IH4)]; [by repeat split|].
  cbn [xmlEscaped]. rewrite !contains_append, IH1, IH2, IH3, IH4.
  unfold xmlEscapeChar.
  destruct (Ascii.eqb_spec c "&"); [by repeat split|].
  destruct (Ascii.eqb_spec c "<") as [|Hlt]; [by repeat split|].
  destruct (Ascii.eqb_spec c ">") as [|Hgt]; [by repeat split|].
  destruct (Ascii.eqb_spec c "034") as [|Hquot]; [by repeat split|].
  destruct (Ascii.eqb_spec c "'") as [|Hapos]; [by repeat split|].
  apply Ascii.eqb_neq in Hlt, Hgt, Hquot, Hapos. simpl.
  by rewrite Hlt, Hgt, Hquot, Hapos.
Qed.

(** C7, amended: for a response object without a null-valued field, the
    fields written into the JSON body are, in the same order, the child
    elements of the [oembed] root of the XML body.  For every response
    object, the JSON body has a member for each field that is not undefined
    and the XML body is the declaration followed by the root with one flat
    child per field that is neither null nor undefined: the children are
    the members of the JSON body less the null-valued fields, which JSON
    writes as null and XML leaves out.  The text of each child is the value
    escaped character by character: ampersand, angle brackets and double
    quote to their named entities and the apostrophe to [&apos;], so that
    no angle bracket or quote is left in it. *)
Theorem json_and_xml_carry_the_same_fields (data : JsObject) :
  (Forall (fun kv => kv.2 <> JNull) data ->
   map fst (jsonMembers data) = map fst (xmlElements data))
  /\ map fst (jsonMembers data)
     = map fst (List.filter (fun kv => negb (is_undefined kv.2)) data)
  /\ map fst (xmlElements data)
     = map fst (List.filter (fun kv => negb (is_null kv.2))
                  (List.filter (fun kv => negb (is_undefined kv.2)) data))
  /\ (forall key, In (key, JNull) data -> In (key, "null") (jsonMembers data))
  /\ (forall key text, In (key, text) (xmlElements data) ->
      exists value, In (key, value) data /\ value <> JNull
                    /\ value <> JUndefined
                    /\ text = xmlEscaped (ToString value))
  /\ xmlElements data
     = map (fun kv => (kv.1, xmlEscaped (ToString kv.2)))
         (List.filter
            (fun kv => negb (is_undefined kv.2) && negb (is_null kv.2)) data)
  /\ Forall (fun e => contains "<" e.2 = false /\ contains ">" e.2 = false
                        /\ contains "034" e.2 = false
                        /\ contains "'" e.2 = false) (xmlElements data)
  /\ body (formatResponse data "json")
     = "{" +:+ join "," (map (fun m => quoteJSONString m.1 +:+ ":" +:+ m.2)
                          (jsonMembers data)) +:+ "}"
  /\ body (formatResponse data "xml")
     = XML_DECLARATION +:+ LF +:+ "<oembed>" +:+ LF
       +:+ join LF (map (fun e => "  <" +:+ e.1 +:+ ">" +:+ e.2
                                  +:+ "</" +:+ e.1 +:+ ">")
                      (xmlElements data))
       +:+ LF +:+ "</oembed>".
Proof.
  assert (Hescaped : xmlElements data
    = map (fun kv => (kv.1, xmlEscaped (ToString kv.2)))
        (List.filter
           (fun kv => negb (is_undefined kv.2) && negb (is_null kv.2)) data)).
  { unfold xmlElements. apply map_ext. intros kv.
    by rewrite escapeXml_xmlEscaped. }
  split; [|split; [|split; [|split; [|split;
    [|split; [exact Hescaped|split; [|split; reflexivity]]]]]]].
  - clear Hescaped. intros Hnonnull.
    induction Hnonnull as [|[k v] data Hv _ IH]; [reflexivity|].
    rewrite jsonMembers_cons, xmlElements_cons. simpl in Hv.
    destruct v as [| |[]| |]; simpl; try congruence.
  - clear Hescaped. induction data as [|[k v] data IH]; [reflexivity|].
    rewrite jsonMembers_cons. cbn [List.filter snd].
    destruct v as [| |[]| |]; cbn; by rewrite IH.
  - clear Hescaped. induction data as [|[k v] data IH]; [reflexivity|].
    rewrite xmlElements_cons. cbn [List.filter snd].
    destruct v as [| |[]| |]; cbn; by rewrite IH.
  - clear Hescaped. intros key Hin.
    induction data as [|[k v] data IH]; [done|].
    rewrite jsonMembers_cons. destruct Hin as [[= -> ->] | Hin].
    + by left.
    + destruct (jsonValue v); [right|]; by apply IH.
  - intros key text. rewrite Hescaped, in_map_iff.
    intros ([k v] & [= <- <-] & [Hin Hkept]%filter_In).
    exists v. cbn [fst snd] in *.
    split; [exact Hin|]. by destruct v.
  - rewrite Hescaped. apply Forall_map, Forall_forall. intros kv _.
    apply xmlEscaped_clean.
Qed.

Lemma json_and_xml_carry_the_same_fields_witness :
  map fst (jsonMembers [("version", JStr "1.0"); ("title", JStr "a < b");
                        ("width", JNum 640); ("note", JUndefined)])
  = map fst (xmlElements [("version", JStr "1.0"); ("title", JStr "a < b");
                          ("width", JNum 640); ("note", JUndefined)]).
Proof.
  destruct (json_and_xml_carry_the_same_fields
              [("version", JStr "1.0"); ("title", JStr "a < b");
               ("width", JNum 640); ("note", JUndefined)]) as [Hsame _].
  apply Hsame. repeat constructor; discriminate.
Defined.

(** C7, as stated, fails for a null-valued field: the builder copies a
    null cache age of the metadata into the response, JSON writes it and
    the XML body leaves it out. *)
Lemma null_field_is_in_json_only :
  exists r,
    createTypeSpecificResponse example_host link_with_null_cache_age
      DUndefined DUndefined = Normal r
    /\ obj_get "cache_age" r = JNull
    /\ map fst (jsonMembers r)
       = ["version"; "cache_age"; "type"; "provider_name"; "provider_url"]
    /\ map fst (xmlElements r)
       = ["version"; "type"; "provider_name"; "provider_url"]
    /\ map fst (jsonMembers r) <> map fst (xmlElements r).
Proof.
  eexists. split; [vm_compute; reflexivity|].
  repeat split; try (vm_compute; reflexivity). vm_compute. discriminate.
Qed.

(** * Further properties of the pipeline *)

(** ** The handler as a whole *)

Lemma formatErrorResponse_headers
    (h : Host) (status : Z) (message format : string)
    (code details : option string) :
  headers (formatErrorResponse h status message format code details)
  = if String.eqb format "xml" then XML_HEADERS else JSON_HEADERS.
Proof. unfold formatErrorResponse. by destruct (String.eqb format "xml"). Qed.

Lemma formatResponse_headers (data : JsObject) (format : string) :
  headers (formatResponse data format)
  = (if String.eqb format "xml" then XML_HEADERS else JSON_HEADERS)
    ++ [("Cache-Control",
         "max-age=" +:+ ToString (js_or (obj_get "cache_age" data) (JNum 3600)))].
Proof. unfold formatResponse. by destruct (String.eqb format "xml"). Qed.

Lemma formatResponse_statusCode (data : JsObject) (format : string) :
  statusCode (formatResponse data format) = 200.
Proof. unfold formatResponse. by destruct (String.eqb format "xml"). Qed.

Lemma validateAndAuthorizeUrl_codes
    (h : Host) (url : option string) (error : string) (code : ErrorCode)
    (details : option string) :
  validateAndAuthorizeUrl h url = Normal (AuthInvalid error code details) ->
  code = MALFORMED_URL \/ code = MISSING_PROVIDER_DOMAIN
  \/ code = UNAUTHORIZED_DOMAIN.
Proof.
  unfold validateAndAuthorizeUrl.
  destruct (validateAndSanitizeUrl h url); [intros [= _ <- _]; auto|].
  destruct (negb (truthy _)); [intros [= _ <- _]; auto|].
  destruct (negb (endsWith _ _)); [intros [= _ <- _]; auto|].
  destruct (new_URL h sanitizedUrl); discriminate.
Qed.

Lemma first_error_code (params : QueryParams) (e : ValidationError)
    (rest : list ValidationError) :
  errors (validateOembedParams (Some params)) = e :: rest ->
  code e = MISSING_URL \/ code e = INVALID_FORMAT
  \/ code e = INVALID_MAXWIDTH \/ code e = INVALID_MAXHEIGHT.
Proof.
  intros Herrors.
  assert (He : e ∈ errors (validateOembedParams (Some params)))
    by (rewrite Herrors; left).
  apply errors_elem in He. destruct He as [He|[He|[He|He]]].
  - apply urlErrors_elem in He. subst e. auto.
  - apply formatErrors_elem in He. subst e. auto.
  - apply dimensionErrors_elem in He as [_ ->]. auto.
  - apply dimensionErrors_elem in He as [_ ->]. auto.
Qed.

(** The three ways the handler answers: an error response built from a
    status among 400, 404, 500 and 501, or the formatted success. *)
Lemma handler_shapes (h : Host) (getContentMetadata : Backend) (event : Event) :
  let format :=
    str_or (default ∅ (queryStringParameters event) !! "format") "json" in
  (exists status message code details,
     handler h getContentMetadata event
     = formatErrorResponse h status message format code details
     /\ (status = 400 \/ status = 404 \/ status = 500 \/ status = 501))
  \/ (exists data, handler h getContentMetadata event = formatResponse data format).
Proof.
  intros format. unfold handler. cbn zeta.
  set (params := default ∅ (queryStringParameters event)) in *.
  unfold handler_try.
  rewrite validateOembedParams_isValid.
  destruct (errors (validateOembedParams (Some params))) as [|e rest] eqn:Herrors.
  - cbn [List.length Nat.eqb negb].
    destruct (validateAndAuthorizeUrl h _) as [[error code details|]|] eqn:Hauth;
      cbn [mbind Completion_bind].
    + left. do 4 eexists. split; [reflexivity|].
      apply validateAndAuthorizeUrl_codes in Hauth.
      destruct Hauth as [->|[->| ->]]; cbn; auto.
    + destruct (getContentMetadata _ _ _) as [metadata|];
        cbn [mbind Completion_bind];
        [|left; do 4 eexists; split; [reflexivity|auto]].
      destruct (createTypeSpecificResponse h metadata _ _) as [r|];
        cbn [mbind Completion_bind].
      * right. by eexists.
      * left. do 4 eexists. split; [reflexivity|auto].
    + left. do 4 eexists. split; [reflexivity|auto].
  - cbn [List.length Nat.eqb negb]. left. do 4 eexists. split; [reflexivity|].
    destruct (first_error_code params e rest Herrors) as [->|[->|[->| ->]]];
      cbn; auto.
Qed.

(** X1: whatever the request, the host and the backend, the response has a
    status among 200, 400, 404, 500 and 501, allows every origin, and has
    the XML content type exactly when the format parameter is xml. *)
Theorem handler_status_and_headers
    (h : Host) (getContentMetadata : Backend) (event : Event) :
  let response := handler h getContentMetadata event in
  let format :=
    str_or (default ∅ (queryStringParameters event) !! "format") "json" in
  statusCode response ∈ [200; 400; 404; 500; 501]
  /\ header "Access-Control-Allow-Origin" response = Some "*"
  /\ header "Content-Type" response
     = Some (if String.eqb format "xml" then "text/xml"
             else "application/json").
Proof.
  intros response format. subst response.
  destruct (handler_shapes h getContentMetadata event)
    as [(status & message & code & details & -> & Hstatus) | (data & ->)];
    fold format; unfold header.
  - rewrite formatErrorResponse_statusCode, formatErrorResponse_headers.
    split; [|by destruct (String.eqb format "xml")].
    destruct Hstatus as [->|[->|[->| ->]]]; set_solver.
  - rewrite formatResponse_statusCode, formatResponse_headers.
    split; [set_solver|]. by destruct (String.eqb format "xml").
Qed.

(** X2: the backend is consulted only for requests that pass validation and
    authorization: when validation reports an error, or authorization does
    not return a valid result, the response is the same whatever the
    backend would have answered. *)
Theorem handler_rejects_before_backend
    (h : Host) (backend1 backend2 : Backend) (event : Event) :
  let params : QueryParams := default ∅ (queryStringParameters event) in
  isValid (validateOembedParams (Some params)) = false
  \/ (forall urlObj hostname pathname,
        validateAndAuthorizeUrl h (sanitized_url (sanitizeParams h (Some params)))
        <> Normal (AuthValid urlObj hostname pathname)) ->
  handler h backend1 event = handler h backend2 event.
Proof.
  intros params Hrejected. unfold handler, handler_try. cbn zeta. fold params.
  destruct Hrejected as [-> | Hauth]; [reflexivity|].
  destruct (isValid (validateOembedParams (Some params))); [|reflexivity].
  cbn [negb].
  destruct (validateAndAuthorizeUrl h _) as [[error code details|u hn pn]|];
    [reflexivity | | reflexivity].
  by destruct (Hauth u hn pn).
Qed.

Lemma handler_rejects_before_backend_witness :
  handler example_host example_backend
    (request [("url", "https://other-domain.com/video")])
  = handler example_host (fun _ _ _ => Throw "backend down")
      (request [("url", "https://other-domain.com/video")]).
Proof.
  apply (handler_rejects_before_backend example_host).
  right. intros urlObj hostname pathname. vm_compute. discriminate.
Defined.

(** X3: when the backend fails on a request that passed validation and
    authorization, the response is the fixed internal-error answer: its
    status is 500 and its body opens with the code INTERNAL_ERROR and the
    message Internal server error, as XML when the format asked for is xml
    and as JSON otherwise.  Nothing of the backend's error message reaches
    it: a backend that fails with any other message gets the same
    response. *)
Theorem handler_hides_backend_failure
    (h : Host) (getContentMetadata : Backend) (event : Event)
    (backendMessage : string) :
  let params : QueryParams := default ∅ (queryStringParameters event) in
  let sanitized := sanitizeParams h (Some params) in
  let response := handler h getContentMetadata event in
  isValid (validateOembedParams (Some params)) = true ->
  (exists urlObj hostname pathname,
     validateAndAuthorizeUrl h (sanitized_url sanitized)
     = Normal (AuthValid urlObj hostname pathname)) ->
  getContentMetadata (sanitized_url sanitized) (sanitized_maxwidth sanitized)
    (sanitized_maxheight sanitized) = Throw backendMessage ->
  response
  = formatErrorResponse h 500 "Internal server error"
      (str_or (params !! "format") "json") (Some "INTERNAL_ERROR") None
  /\ statusCode response = 500
  /\ (exists rest,
       body response
       = errorOpening (str_or (params !! "format") "json") "INTERNAL_ERROR"
           "Internal server error" +:+ rest)
  /\ (forall (other : Backend) (otherMessage : string),
       other (sanitized_url sanitized) (sanitized_maxwidth sanitized)
         (sanitized_maxheight sanitized) = Throw otherMessage ->
       handler h other event = response).
Proof.
  intros params sanitized response Hvalid
    (urlObj & hostname & pathname & Hauth) Hbackend.
  assert (Hfails : forall (backend : Backend) (message : string),
    backend (sanitized_url sanitized) (sanitized_maxwidth sanitized)
      (sanitized_maxheight sanitized) = Throw message ->
    handler h backend event
    = formatErrorResponse h 500 "Internal server error"
        (str_or (params !! "format") "json") (Some "INTERNAL_ERROR") None).
  { intros backend message Hthrow.
    unfold handler, handler_try. cbn zeta. fold params. fold sanitized.
    rewrite Hvalid. cbn [negb]. rewrite Hauth. cbn [mbind Completion_bind].
    rewrite Hthrow. reflexivity. }
  subst response. rewrite (Hfails _ _ Hbackend).
  split; [reflexivity|]. split; [apply formatErrorResponse_statusCode|].
  split; [by apply formatErrorResponse_opening|].
  intros other otherMessage Hother. exact (Hfails _ _ Hother).
Qed.

Lemma handler_hides_backend_failure_witness :
  statusCode
    (handler example_host (fun _ _ _ => Throw "connection refused by 10.0.0.7")
       (request [("url", "https://mybusiness.com/video/123")])) = 500
  /\ exists rest,
      body (handler example_host
              (fun _ _ _ => Throw "connection refused by 10.0.0.7")
              (request [("url", "https://mybusiness.com/video/123")]))
      = jsonErrorOpening "INTERNAL_ERROR" "Internal server error" +:+ rest.
Proof.
  destruct (handler_hides_backend_failure example_host
              (fun _ _ _ => Throw "connection refused by 10.0.0.7")
              (request [("url", "https://mybusiness.com/video/123")])
              "connection refused by 10.0.0.7")
    as (_ & Hstatus & Hbody & _).
  - vm_compute. reflexivity.
  - do 3 eexists. vm_compute. reflexivity.
  - reflexivity.
  - split; [exact Hstatus | exact Hbody].
Defined.

(** X4: a request that passes validation and authorization and whose
    metadata the builder accepts is answered with status 200 and the
    formatted response; its Cache-Control header is max-age with the
    metadata's cache age when that is truthy, and with 3600 otherwise (also
    for a cache age of null or 0, which the body still carries).  A cache
    age that is a number is taken within [MAX_SAFE_INTEGER], where all its
    digits are printed. *)
Theorem handler_success
    (h : Host) (getContentMetadata : Backend) (event : Event)
    (metadata : Metadata) (r : JsObject) :
  let params : QueryParams := default ∅ (queryStringParameters event) in
  let sanitized := sanitizeParams h (Some params) in
  let response := handler h getContentMetadata event in
  isValid (validateOembedParams (Some params)) = true ->
  (exists urlObj hostname pathname,
     validateAndAuthorizeUrl h (sanitized_url sanitized)
     = Normal (AuthValid urlObj hostname pathname)) ->
  getContentMetadata (sanitized_url sanitized) (sanitized_maxwidth sanitized)
    (sanitized_maxheight sanitized) = Normal metadata ->
  createTypeSpecificResponse h metadata (sanitized_maxwidth sanitized)
    (sanitized_maxheight sanitized) = Normal r ->
  (forall n, md_cache_age metadata = JNum n -> Z.abs n <= MAX_SAFE_INTEGER) ->
  response = formatResponse r (str_or (params !! "format") "json")
  /\ statusCode response = 200
  /\ header "Cache-Control" response
     = Some ("max-age="
             +:+ (if truthy (md_cache_age metadata)
                  then ToString (md_cache_age metadata) else "3600")).
Proof.
  intros params sanitized response Hvalid
    (urlObj & hostname & pathname & Hauth) Hbackend Hbuilt _.
  assert (Hresponse
    : response = formatResponse r (str_or (params !! "format") "json")).
  { subst response. unfold handler, handler_try. cbn zeta.
    fold params. fold sanitized.
    rewrite Hvalid. cbn [negb]. rewrite Hauth. cbn [mbind Completion_bind].
    rewrite Hbackend. cbn [mbind Completion_bind]. rewrite Hbuilt.
    reflexivity. }
  split; [exact Hresponse|]. rewrite Hresponse.
  split; [apply formatResponse_statusCode|].
  unfold header. rewrite formatResponse_headers.
  destruct (createTypeSpecificResponse_frame _ _ _ _ _ "cache_age" Hbuilt)
    as [-> _]; try reflexivity.
  rewrite commonResponse_cache_age.
  assert (Hage : ToString
            (js_or (if is_undefined (md_cache_age metadata)
                    then JNum OEMBED.DEFAULT_CACHE_AGE
                    else md_cache_age metadata) (JNum 3600))
          = if truthy (md_cache_age metadata)
            then ToString (md_cache_age metadata) else "3600").
  { unfold js_or. destruct (md_cache_age metadata) as [| |[]|n|s] eqn:E;
      cbn; try reflexivity.
    - by destruct (n =? 0).
    - by destruct (String.eqb s ""). }
  rewrite Hage. by destruct (String.eqb _ "xml").
Qed.

Lemma handler_success_witness :
  header "Cache-Control"
    (handler example_host example_backend
       (request [("url", "https://mybusiness.com/video/123");
                 ("format", "xml")]))
  = Some "max-age=3600".
Proof.
  edestruct (handler_success example_host example_backend
               (request [("url", "https://mybusiness.com/video/123");
                         ("format", "xml")]) example_video)
    as (_ & _ & Hcache);
    [ vm_compute; reflexivity
    | do 3 eexists; vm_compute; reflexivity
    | reflexivity
    | vm_compute; reflexivity
    | intros n Hn; vm_compute in Hn; discriminate Hn
    | exact Hcache ].
Defined.

Lemma dimensionErrors_nil
    (params : QueryParams) (fieldName : string) (errorCode : ErrorCode) :
  dimensionErrors params fieldName errorCode = []
  <-> (forall value, params !! fieldName = Some value ->
       exists n, parseInt value = Some n /\ 1 <= n <= 2048).
Proof.
  { unfold dimensionErrors.
    destruct (params !! fieldName) as [value|]; [|by split].
    pose proof (validateDimension_rejects value fieldName errorCode) as Hrej.
    unfold dimensionRejected in Hrej.
    destruct (validateDimension value fieldName errorCode) as [e|].
    - split; [done|]. intros Hok. destruct (Hok value eq_refl) as (n & Hn & ?).
      rewrite Hn in Hrej. destruct Hrej as [Hrej _].
      destruct Hrej; [by eexists | lia | lia].
    - split; [|done]. intros _ value' [= <-].
      destruct (parseInt value) as [n|].
      + exists n. split; [done|].
        destruct (decide (1 <= n <= 2048)) as [|Hout]; [done|].
        destruct Hrej as [_ Hrej]. destruct Hrej as [? ?]; [lia | done].
      + destruct Hrej as [_ Hrej]. by destruct Hrej as [? ?]. }
Qed.

(** What passing validation says of each parameter. *)
Lemma validateOembedParams_valid_parts (params : QueryParams) :
  isValid (validateOembedParams (Some params)) = true ->
  truthy (opt_js (params !! "url")) = true
  /\ includes ["json"; "xml"] (str_or (params !! "format") "json") = true
  /\ (forall value, params !! "maxwidth" = Some value ->
      exists n, parseInt value = Some n /\ 1 <= n <= 2048)
  /\ (forall value, params !! "maxheight" = Some value ->
      exists n, parseInt value = Some n /\ 1 <= n <= 2048).
Proof.
  rewrite validateOembedParams_isValid, validateOembedParams_errors.
  rewrite Nat.eqb_eq, !length_app.
  rewrite <- (dimensionErrors_nil params "maxwidth" INVALID_MAXWIDTH),
    <- (dimensionErrors_nil params "maxheight" INVALID_MAXHEIGHT).
  unfold urlErrors, formatErrors, VALID_FORMATS, OEMBED.FORMATS,
    OEMBED.DEFAULT_FORMAT.
  destruct (truthy (opt_js (params !! "url")));
    destruct (includes _ _);
    destruct (dimensionErrors params "maxwidth" _);
    destruct (dimensionErrors params "maxheight" _);
    cbn; try lia; done.
Qed.

(** X5: validation passes exactly when the url is present and not empty,
    the format is absent, empty, json or xml, and each of maxwidth and
    maxheight is absent or a value [parseInt] reads as an integer from 1 to
    2048. *)
Theorem validateOembedParams_isValid_iff (params : QueryParams) :
  isValid (validateOembedParams (Some params)) = true
  <-> truthy (opt_js (params !! "url")) = true
      /\ includes ["json"; "xml"] (str_or (params !! "format") "json") = true
      /\ (forall value, params !! "maxwidth" = Some value ->
          exists n, parseInt value = Some n /\ 1 <= n <= 2048)
      /\ (forall value, params !! "maxheight" = Some value ->
          exists n, parseInt value = Some n /\ 1 <= n <= 2048).
Proof.
  split; [apply validateOembedParams_valid_parts|].
  intros (Hurl & Hformat & Hwidth & Hheight).
  apply (dimensionErrors_nil params "maxwidth" INVALID_MAXWIDTH) in Hwidth.
  apply (dimensionErrors_nil params "maxheight" INVALID_MAXHEIGHT) in Hheight.
  rewrite validateOembedParams_isValid, validateOembedParams_errors.
  rewrite Hwidth, Hheight, !app_nil_r.
  unfold urlErrors, formatErrors, VALID_FORMATS, OEMBED.FORMATS,
    OEMBED.DEFAULT_FORMAT.
  by rewrite Hurl, Hformat.
Qed.

Lemma safeParseInteger_unchanged (h : Host) (value : string) :
  decodeURIComponent h value = Normal value
  \/ (exists e, decodeURIComponent h value = Throw e) ->
  safeParseInteger h value
  = match parseInt value with Some n => DNum n | None => DNull end.
Proof.
  unfold safeParseInteger. by intros [-> | [e ->]].
Qed.

(** X15: for a request that passed validation, [sanitizeParams] yields a
    url, the format the validation computed, which is json or xml, and for
    each of maxwidth and maxheight: undefined when the parameter is absent,
    and, when [decodeURIComponent] leaves the value as it is or fails on it,
    the integer between 1 and 2048 that validation read from it. *)
Theorem sanitizeParams_after_validation (h : Host) (params : QueryParams) :
  isValid (validateOembedParams (Some params)) = true ->
  let sanitized := sanitizeParams h (Some params) in
  (exists url, sanitized_url sanitized = Some url)
  /\ sanitized_format sanitized = format (validateOembedParams (Some params))
  /\ (sanitized_format sanitized = "json" \/ sanitized_format sanitized = "xml")
  /\ (params !! "maxwidth" = None -> sanitized_maxwidth sanitized = DUndefined)
  /\ (params !! "maxheight" = None ->
      sanitized_maxheight sanitized = DUndefined)
  /\ (forall value,
      params !! "maxwidth" = Some value ->
      decodeURIComponent h value = Normal value
      \/ (exists e, decodeURIComponent h value = Throw e) ->
      exists n, sanitized_maxwidth sanitized = DNum n
                /\ parseInt value = Some n /\ 1 <= n <= 2048)
  /\ (forall value,
      params !! "maxheight" = Some value ->
      decodeURIComponent h value = Normal value
      \/ (exists e, decodeURIComponent h value = Throw e) ->
      exists n, sanitized_maxheight sanitized = DNum n
                /\ parseInt value = Some n /\ 1 <= n <= 2048).
Proof.
  intros (Hurl & Hformat & Hwidth & Hheight)%validateOembedParams_valid_parts.
  cbn zeta. unfold sanitizeParams.
  change (default ∅ (Some params)) with params.
  cbn [sanitized_url sanitized_format sanitized_maxwidth sanitized_maxheight].
  split.
  { destruct (params !! "url") as [url|]; [|done]. cbn in Hurl.
    change (truthy (JStr url)) with (negb (String.eqb url "")).
    rewrite Hurl. destruct (decodeURIComponent h url); by eexists. }
  split; [by rewrite validateOembedParams_format|].
  split.
  { unfold OEMBED.DEFAULT_FORMAT. cbn [includes existsb] in Hformat.
    rewrite orb_false_r in Hformat.
    apply orb_true_iff in Hformat as [?%String.eqb_eq | ?%String.eqb_eq];
      [by left | by right]. }
  split; [by intros ->|]. split; [by intros ->|].
  split.
  - intros value Hvalue Hdecode. rewrite Hvalue.
    destruct (Hwidth value Hvalue) as (n & Hn & Hrange). exists n.
    by rewrite (safeParseInteger_unchanged h value Hdecode), Hn.
  - intros value Hvalue Hdecode. rewrite Hvalue.
    destruct (Hheight value Hvalue) as (n & Hn & Hrange). exists n.
    by rewrite (safeParseInteger_unchanged h value Hdecode), Hn.
Qed.

Lemma sanitizeParams_after_validation_witness :
  exists n,
    sanitized_maxwidth
      (sanitizeParams example_host
         (Some (list_to_map [("url", "https://mybusiness.com/video/123");
                             ("maxwidth", "800")])))
    = DNum n /\ parseInt "800" = Some n /\ 1 <= n <= 2048.
Proof.
  destruct (sanitizeParams_after_validation example_host
              (list_to_map [("url", "https://mybusiness.com/video/123");
                            ("maxwidth", "800")]))
    as (_ & _ & _ & _ & _ & Hwidth & _); [vm_compute; reflexivity|].
  apply (Hwidth "800"); [vm_compute; reflexivity | left; vm_compute; reflexivity].
Defined.

(** ** The response builder as a whole *)

Lemma js_is_type (type : JsValue) (s : string) :
  s <> "rich" -> s <> "" ->
  js_is (js_or type (JStr "rich")) s = true <-> type = JStr s.
Proof.
  intros Hrich Hempty. unfold js_or, js_is, truthy.
  destruct type as [| |b|n|t]; repeat case_match; simplify_eq;
    (split; intros Hx; simplify_eq; try done;
     try (apply String.eqb_eq in Hx; by simplify_eq);
     try apply String.eqb_refl).
  all: match goal with
       | H : negb (String.eqb ?t "") = false |- _ =>
           apply negb_false_iff, String.eqb_eq in H; by simplify_eq
       end.
Qed.

Lemma generateVideoHtml_normal
    (h : Host) (metadata : Metadata) (width height : Dimension) :
  exists html,
    generateVideoHtml h metadata width height = Normal html /\ html <> "".
Proof.
  unfold generateVideoHtml. rewrite sanitizeUrl_result.
  destruct (negb (truthy _)); [by eexists|].
  cbn [mbind Completion_bind].
  destruct (negb (truthy (JStr _))); by eexists.
Qed.

(** The response of each branch of the dispatch. *)
Lemma createTypeSpecificResponse_cases
    (h : Host) (metadata : Metadata) (maxwidth maxheight : Dimension)
    (r : JsObject) :
  createTypeSpecificResponse h metadata maxwidth maxheight = Normal r ->
  let type := md_type metadata in
  let width :=
    dim_js (finalDimension (md_width metadata) maxwidth (defaultWidthOf type)) in
  let height :=
    dim_js (finalDimension (md_height metadata) maxheight
              (defaultHeightOf type)) in
  (type = JStr "photo" /\ truthy (md_url metadata) = true
   /\ r = spread (commonResponse h metadata)
            [("url", md_url metadata); ("width", width); ("height", height)])
  \/ (type = JStr "video"
      /\ exists html, truthy html = true
         /\ (truthy (md_html metadata) = true -> html = md_html metadata)
         /\ r = spread (commonResponse h metadata)
                  [("html", html); ("width", width); ("height", height)])
  \/ (type = JStr "link" /\ r = commonResponse h metadata)
  \/ (type <> JStr "photo" /\ type <> JStr "video" /\ type <> JStr "link"
      /\ exists html, truthy html = true
         /\ (truthy (md_html metadata) = true -> html = md_html metadata)
         /\ r = spread (commonResponse h metadata)
                  [("type", JStr "rich"); ("html", html); ("width", width);
                   ("height", height)]).
Proof.
  intros Hr type width height. subst width height.
  unfold createTypeSpecificResponse in Hr. fold (commonResponse h metadata) in Hr.
  fold type in Hr. unfold defaultWidthOf, defaultHeightOf, finalDimension.
  destruct (js_is (js_or type (JStr "rich")) "photo") eqn:Hphoto.
  { apply js_is_type in Hphoto; [|done|done]. rewrite Hphoto. cbn [js_is].
    unfold createPhotoResponse in Hr.
    destruct (truthy (md_url metadata)); [|discriminate].
    injection Hr as <-. left. by rewrite String.eqb_refl. }
  assert (Hnp : type <> JStr "photo").
  { intros Ht. apply (js_is_type type "photo") in Ht; [congruence | done | done]. }
  destruct (js_is (js_or type (JStr "rich")) "video") eqn:Hvideo.
  { apply js_is_type in Hvideo; [|done|done]. rewrite Hvideo. cbn [js_is].
    cbn [String.eqb Ascii.eqb Bool.eqb].
    unfold createVideoResponse in Hr.
    destruct (negb (truthy (md_embedUrl metadata)) && negb (truthy (md_html metadata)));
      [discriminate|].
    right. left. split; [done|].
    destruct (truthy (md_html metadata)) eqn:Hhtml.
    - injection Hr as <-. by exists (md_html metadata).
    - destruct (generateVideoHtml_normal h metadata
                  (dim_or (calculateConstrainedDimension (md_width metadata)
                             maxwidth) (DNum DEFAULT_DIMENSIONS.video.width))
                  (dim_or (calculateConstrainedDimension (md_height metadata)
                             maxheight) (DNum DEFAULT_DIMENSIONS.video.height)))
        as (html & Hgen & Hne).
      rewrite Hgen in Hr. injection Hr as <-.
      exists (JStr html). split; [|done]. cbn.
      apply String.eqb_neq in Hne. by rewrite Hne. }
  assert (Hnv : type <> JStr "video").
  { intros Ht. apply (js_is_type type "video") in Ht; [congruence | done | done]. }
  destruct (js_is (js_or type (JStr "rich")) "link") eqn:Hlink.
  { apply js_is_type in Hlink; [|done|done]. injection Hr as <-. auto. }
  assert (Hnl : type <> JStr "link").
  { intros Ht. apply (js_is_type type "link") in Ht; [congruence | done | done]. }
  do 3 right. split; [done|]. split; [done|]. split; [done|].
  assert (Hdefaults :
    (if js_is type "photo" then DEFAULT_DIMENSIONS.photo.width
     else if js_is type "video" then DEFAULT_DIMENSIONS.video.width
          else DEFAULT_DIMENSIONS.rich.width) = DEFAULT_DIMENSIONS.rich.width
    /\ (if js_is type "photo" then DEFAULT_DIMENSIONS.photo.height
        else if js_is type "video" then DEFAULT_DIMENSIONS.video.height
             else DEFAULT_DIMENSIONS.rich.height)
       = DEFAULT_DIMENSIONS.rich.height).
  { destruct type as [| |?|?|t]; cbn; try done.
    destruct (String.eqb_spec t "photo"); [congruence|].
    destruct (String.eqb_spec t "video"); [congruence|]. done. }
  destruct Hdefaults as [-> ->].
  assert (Hrich : forall md',
    md_html md' = md_html metadata -> md_content md' = md_content metadata ->
    md_width md' = md_width metadata -> md_height md' = md_height metadata ->
    createRichResponse (commonResponse h metadata) md' maxwidth maxheight
    = Normal r ->
    exists html, truthy html = true
      /\ (truthy (md_html metadata) = true -> html = md_html metadata)
      /\ r = spread (commonResponse h metadata)
               [("type", JStr "rich"); ("html", html);
                ("width", dim_js (dim_or (calculateConstrainedDimension
                                            (md_width metadata) maxwidth)
                                    (DNum DEFAULT_DIMENSIONS.rich.width)));
                ("height", dim_js (dim_or (calculateConstrainedDimension
                                             (md_height metadata) maxheight)
                                     (DNum DEFAULT_DIMENSIONS.rich.height)))]).
  { intros md' Hh Hc Hw Hht. unfold createRichResponse, generateRichHtml.
    rewrite Hh, Hc, Hw, Hht. intros [= <-].
    eexists. split; [|split; [|reflexivity]].
    - unfold js_or. destruct (truthy (md_html metadata)) eqn:E; [done|].
      reflexivity.
    - intros Ht. unfold js_or. by rewrite Ht. }
  destruct (js_is (js_or type (JStr "rich")) "rich").
  - by apply (Hrich metadata).
  - by apply (Hrich (with_type metadata (JStr "rich"))).
Qed.

Lemma createTypeSpecificResponse_throw_cases
    (h : Host) (metadata : Metadata) (maxwidth maxheight : Dimension)
    (message : string) :
  createTypeSpecificResponse h metadata maxwidth maxheight = Throw message ->
  (md_type metadata = JStr "photo" /\ truthy (md_url metadata) = false)
  \/ (md_type metadata = JStr "video"
      /\ truthy (md_html metadata) = false
      /\ truthy (md_embedUrl metadata) = false).
Proof.
  - intros Hthrow. unfold createTypeSpecificResponse in Hthrow.
    destruct (js_is (js_or (md_type metadata) (JStr "rich")) "photo") eqn:Hphoto.
    { apply js_is_type in Hphoto; [|done|done]. left. split; [done|].
      unfold createPhotoResponse in Hthrow.
      by destruct (truthy (md_url metadata)). }
    destruct (js_is (js_or (md_type metadata) (JStr "rich")) "video") eqn:Hvideo.
    { apply js_is_type in Hvideo; [|done|done]. right. split; [done|].
      unfold createVideoResponse in Hthrow.
      destruct (truthy (md_embedUrl metadata)), (truthy (md_html metadata));
        cbn in Hthrow; try done.
      match type of Hthrow with
      | context [generateVideoHtml ?a ?b ?c ?d] =>
          destruct (generateVideoHtml_normal a b c d) as (html & Hgen & _);
          rewrite Hgen in Hthrow
      end. done. }
    by repeat case_match.
Qed.

(** X6: construction fails only for a photo without [url] and for a video
    with neither [html] nor [embedUrl]; for every other metadata, whatever
    its type, it returns a response. *)
Theorem createTypeSpecificResponse_throws_iff
    (h : Host) (metadata : Metadata) (maxwidth maxheight : Dimension) :
  (exists message,
     createTypeSpecificResponse h metadata maxwidth maxheight = Throw message)
  <-> (md_type metadata = JStr "photo" /\ truthy (md_url metadata) = false)
      \/ (md_type metadata = JStr "video"
          /\ truthy (md_html metadata) = false
          /\ truthy (md_embedUrl metadata) = false).
Proof.
  split.
  - intros [message Hthrow].
    by apply createTypeSpecificResponse_throw_cases in Hthrow.
  - intros [[Htype Hurl] | (Htype & Hhtml & Hembed)]; eexists.
    + by apply createPhotoResponse_requires_url.
    + by apply createVideoResponse_requires_embed.
Qed.

(** [addThumbnailFields] writes only the three thumbnail properties. *)
Lemma addThumbnailFields_frame
    (response : JsObject) (metadata : Metadata) (key : string) :
  String.eqb "thumbnail_url" key = false ->
  String.eqb "thumbnail_width" key = false ->
  String.eqb "thumbnail_height" key = false ->
  obj_get key (addThumbnailFields response metadata) = obj_get key response
  /\ obj_has key (addThumbnailFields response metadata) = obj_has key response.
Proof.
  intros Hurl Hwidth Hheight. unfold addThumbnailFields.
  repeat match goal with
         | |- context [if ?b then _ else _] => destruct b
         end;
    rewrite ?obj_get_set_ne, ?obj_has_set_ne by assumption; auto.
Qed.

(** X7: every response carries version 1.0, the provider name and URL of
    the environment (or their defaults), and a type among photo, video,
    link and rich: the metadata's type when it is photo, video or link, and
    rich for every other value. *)
Theorem response_required_fields
    (h : Host) (metadata : Metadata) (maxwidth maxheight : Dimension)
    (r : JsObject) :
  createTypeSpecificResponse h metadata maxwidth maxheight = Normal r ->
  obj_get "version" r = JStr "1.0"
  /\ obj_get "provider_name" r
     = JStr (str_or (PROVIDER_NAME (env h)) "oEmbed Provider")
  /\ obj_get "provider_url" r
     = JStr (str_or (PROVIDER_URL (env h)) "https://example.com")
  /\ obj_get "type" r
     = (if js_is (md_type metadata) "photo" || js_is (md_type metadata) "video"
           || js_is (md_type metadata) "link"
        then md_type metadata else JStr "rich")
  /\ obj_get "type" r ∈ [JStr "photo"; JStr "video"; JStr "link"; JStr "rich"].
Proof.
  intros Hr.
  assert (Hbase : forall key,
    String.eqb "url" key = false -> String.eqb "html" key = false ->
    String.eqb "width" key = false -> String.eqb "height" key = false ->
    String.eqb "type" key = false ->
    String.eqb "thumbnail_url" key = false ->
    String.eqb "thumbnail_width" key = false ->
    String.eqb "thumbnail_height" key = false ->
    String.eqb "title" key = false -> String.eqb "author_name" key = false ->
    String.eqb "author_url" key = false -> String.eqb "cache_age" key = false ->
    obj_get key r = obj_get key (buildBaseResponse h metadata)).
  { intros key ? ? ? ? ? ? ? ? ? ? ? ?.
    destruct (createTypeSpecificResponse_frame _ _ _ _ _ key Hr) as [-> _];
      try done.
    unfold commonResponse.
    destruct (addThumbnailFields_frame
                (addOptionalFields (buildBaseResponse h metadata) metadata)
                metadata key) as [-> _]; try done.
    by destruct (addOptionalFields_frame (buildBaseResponse h metadata)
                   metadata key) as [-> _]. }
  rewrite !Hbase by reflexivity.
  split; [reflexivity|]. split; [reflexivity|]. split; [reflexivity|].
  assert (Htype : obj_get "type" (commonResponse h metadata)
                  = js_or (md_type metadata) (JStr "rich")).
  { unfold commonResponse.
    destruct (addThumbnailFields_frame
                (addOptionalFields (buildBaseResponse h metadata) metadata)
                metadata "type") as [-> _]; try done.
    by destruct (addOptionalFields_frame (buildBaseResponse h metadata)
                   metadata "type") as [-> _]. }
  assert (Hvalue : obj_get "type" r
     = (if js_is (md_type metadata) "photo" || js_is (md_type metadata) "video"
           || js_is (md_type metadata) "link"
        then md_type metadata else JStr "rich")).
  { destruct (createTypeSpecificResponse_cases h metadata maxwidth maxheight r Hr)
      as [(Ht & _ & ->) | [(Ht & html & _ & _ & ->) | [(Ht & ->)
          | (Hp & Hv & Hl & html & _ & _ & ->)]]];
      obj_simpl; rewrite ?Htype, ?Ht; try reflexivity.
    destruct (md_type metadata) as [| |?|?|t]; try reflexivity. cbn.
    destruct (String.eqb_spec t "photo"); [congruence|].
    destruct (String.eqb_spec t "video"); [congruence|].
    destruct (String.eqb_spec t "link"); [congruence|]. reflexivity. }
  split; [exact Hvalue|]. rewrite Hvalue. apply list_elem_of_In.
  destruct (md_type metadata) as [| |?|?|t]; cbn; auto 6.
  destruct (String.eqb_spec t "photo") as [->|]; [cbn; auto|].
  destruct (String.eqb_spec t "video") as [->|]; [cbn; auto|].
  destruct (String.eqb_spec t "link") as [->|]; cbn; auto 6.
Qed.

Lemma response_required_fields_witness :
  exists r,
    createTypeSpecificResponse example_host
      (with_type example_video (JStr "audio")) DUndefined DUndefined = Normal r
    /\ obj_get "type" r = JStr "rich"
    /\ obj_get "version" r = JStr "1.0".
Proof.
  eexists. split; [vm_compute; reflexivity|].
  edestruct (response_required_fields example_host
               (with_type example_video (JStr "audio")) DUndefined DUndefined)
    as (Hversion & _ & _ & Htype & _); [vm_compute; reflexivity|].
  split; [exact Htype | exact Hversion].
Defined.

Lemma finalDimension_spec (original limit : Dimension) (dflt : Z) :
  dflt <> 0 ->
  exists w,
    finalDimension original limit dflt = DNum w /\ w <> 0
    /\ (forall m, limit = DNum m -> m <> 0 -> w <= m)
    /\ (truthy limit = false -> truthy original = true -> original = DNum w)
    /\ (truthy limit = false -> truthy original = false -> w = dflt).
Proof.
  intros Hd. unfold finalDimension, calculateConstrainedDimension, dim_or.
  destruct original as [| |o], limit as [| |c]; cbn;
    try (exists dflt;
         destruct (Z.eqb_spec dflt 0); [done|]; by repeat split).
  - destruct (Z.eqb_spec c 0) as [->|Hc]; cbn.
    + exists dflt. repeat split; try done. by intros ? [= <-].
    + rewrite (proj2 (Z.eqb_neq c 0) Hc). cbn. exists c.
      repeat split; try done. intros ? [= <-]. lia.
  - destruct (Z.eqb_spec c 0) as [->|Hc]; cbn.
    + exists dflt. repeat split; try done. by intros ? [= <-].
    + rewrite (proj2 (Z.eqb_neq c 0) Hc). cbn. exists c.
      repeat split; try done. intros ? [= <-]. lia.
  - destruct (Z.eqb_spec o 0) as [->|Ho]; cbn.
    + exists dflt. repeat split; try done.
    + rewrite (proj2 (Z.eqb_neq o 0) Ho). cbn. exists o. by repeat split.
  - destruct (Z.eqb_spec o 0) as [->|Ho]; cbn.
    + exists dflt. repeat split; try done.
    + rewrite (proj2 (Z.eqb_neq o 0) Ho). cbn. exists o. by repeat split.
  - destruct (Z.eqb_spec o 0) as [->|Ho], (Z.eqb_spec c 0) as [->|Hc]; cbn.
    + exists dflt. repeat split; try done. by intros ? [= <-].
    + rewrite (proj2 (Z.eqb_neq c 0) Hc). cbn. exists c.
      repeat split; try done. intros ? [= <-]. lia.
    + rewrite (proj2 (Z.eqb_neq o 0) Ho). cbn. exists o.
      repeat split; try done. by intros ? [= <-].
    + assert (Z.min o c <> 0) as Hmin by lia.
      rewrite (proj2 (Z.eqb_neq _ 0) Hmin). exists (Z.min o c).
      repeat split; try done. intros ? [= <-]. lia.
Qed.

Lemma defaultWidthOf_nonzero (type : JsValue) : defaultWidthOf type <> 0.
Proof. unfold defaultWidthOf. by repeat case_match. Qed.

Lemma defaultHeightOf_nonzero (type : JsValue) : defaultHeightOf type <> 0.
Proof. unfold defaultHeightOf. by repeat case_match. Qed.

(** X8: every response other than a link carries a width and a height that
    are numbers other than zero.  The width is at most maxwidth whenever
    maxwidth is a number other than zero; without a maxwidth it is the
    metadata's width when that is given and the default of the content type
    (800 by 600 for photo, 640 by 360 for video, 500 by 300 otherwise) when
    not.  The same holds of height and maxheight. *)
Theorem response_dimensions_within_limits
    (h : Host) (metadata : Metadata) (maxwidth maxheight : Dimension)
    (r : JsObject) :
  createTypeSpecificResponse h metadata maxwidth maxheight = Normal r ->
  md_type metadata <> JStr "link" ->
  exists width height,
    obj_get "width" r = JNum width /\ obj_get "height" r = JNum height
    /\ width <> 0 /\ height <> 0
    /\ (forall m, maxwidth = DNum m -> m <> 0 -> width <= m)
    /\ (forall m, maxheight = DNum m -> m <> 0 -> height <= m)
    /\ (truthy maxwidth = false ->
        if truthy (md_width metadata) then md_width metadata = DNum width
        else width = defaultWidthOf (md_type metadata))
    /\ (truthy maxheight = false ->
        if truthy (md_height metadata) then md_height metadata = DNum height
        else height = defaultHeightOf (md_type metadata)).
Proof.
  intros Hr Hlink.
  destruct (finalDimension_spec (md_width metadata) maxwidth
              (defaultWidthOf (md_type metadata))
              (defaultWidthOf_nonzero _)) as (w & Hw & Hw0 & Hwmax & Hwo & Hwd).
  destruct (finalDimension_spec (md_height metadata) maxheight
              (defaultHeightOf (md_type metadata))
              (defaultHeightOf_nonzero _)) as (ht & Hh & Hh0 & Hhmax & Hho & Hhd).
  exists w, ht.
  assert (obj_get "width" r = JNum w /\ obj_get "height" r = JNum ht)
    as [-> ->].
  { destruct (createTypeSpecificResponse_cases h metadata maxwidth maxheight r Hr)
      as [(_ & _ & ->) | [(_ & html & _ & _ & ->) | [(Ht & _)
          | (_ & _ & _ & html & _ & _ & ->)]]];
      try done; obj_simpl; by rewrite Hw, Hh. }
  repeat split; try done.
  - intros Hmw. destruct (truthy (md_width metadata)) eqn:E; auto.
  - intros Hmh. destruct (truthy (md_height metadata)) eqn:E; auto.
Qed.

Lemma response_dimensions_within_limits_witness :
  exists r width,
    createTypeSpecificResponse example_host example_photo (DNum 800) DUndefined
    = Normal r
    /\ obj_get "width" r = JNum width /\ width <= 800.
Proof.
  eexists.
  edestruct (response_dimensions_within_limits example_host example_photo
               (DNum 800) DUndefined)
    as (width & height & Hwidth & _ & _ & _ & Hmax & _);
    [vm_compute; reflexivity | discriminate |].
  exists width. split; [reflexivity|]. split; [exact Hwidth|].
  apply (Hmax 800); [reflexivity | lia].
Defined.

Lemma commonResponse_no_content_fields (h : Host) (metadata : Metadata) :
  obj_has "url" (commonResponse h metadata) = false
  /\ obj_has "html" (commonResponse h metadata) = false
  /\ obj_has "width" (commonResponse h metadata) = false
  /\ obj_has "height" (commonResponse h metadata) = false.
Proof.
  unfold commonResponse.
  repeat split;
    match goal with
    | |- obj_has ?key _ = false =>
        destruct (addThumbnailFields_frame
                    (addOptionalFields (buildBaseResponse h metadata) metadata)
                    metadata key) as [_ ->]; try reflexivity;
        destruct (addOptionalFields_frame (buildBaseResponse h metadata)
                    metadata key) as [_ ->]; reflexivity
    end.
Qed.

(** X9: the field a type requires is never empty in a response: a photo
    response carries the metadata's [url], which is truthy; a video or rich
    response carries a truthy [html], the metadata's own when that is
    truthy and generated markup otherwise; a link response has none of
    [url], [html], [width] and [height]. *)
Theorem response_content_fields
    (h : Host) (metadata : Metadata) (maxwidth maxheight : Dimension)
    (r : JsObject) :
  createTypeSpecificResponse h metadata maxwidth maxheight = Normal r ->
  (md_type metadata = JStr "photo" ->
   obj_get "url" r = md_url metadata /\ truthy (obj_get "url" r) = true
   /\ obj_has "html" r = false)
  /\ (md_type metadata <> JStr "photo" -> md_type metadata <> JStr "link" ->
      truthy (obj_get "html" r) = true
      /\ (truthy (md_html metadata) = true ->
          obj_get "html" r = md_html metadata)
      /\ obj_has "url" r = false)
  /\ (md_type metadata = JStr "link" ->
      obj_has "url" r = false /\ obj_has "html" r = false
      /\ obj_has "width" r = false /\ obj_has "height" r = false).
Proof.
  intros Hr.
  destruct (commonResponse_no_content_fields h metadata)
    as (Hurl & Hhtml & Hwidth & Hheight).
  destruct (createTypeSpecificResponse_cases h metadata maxwidth maxheight r Hr)
    as [(Ht & Htruthy & ->) | [(Ht & html & Htruthy & Hown & ->) | [(Ht & ->)
        | (Hp & Hv & Hl & html & Htruthy & Hown & ->)]]];
    (split; [|split]); intros; try congruence; obj_simpl; auto.
Qed.

Lemma response_content_fields_witness :
  exists r,
    createTypeSpecificResponse example_host example_photo DUndefined DUndefined
    = Normal r
    /\ obj_get "url" r = JStr "https://mybusiness.com/photo/7.jpg"
    /\ obj_has "html" r = false.
Proof.
  eexists.
  edestruct (response_content_fields example_host example_photo DUndefined
               DUndefined) as (Hphoto & _ & _); [vm_compute; reflexivity|].
  split; [reflexivity|].
  destruct (Hphoto eq_refl) as (Hurl & _ & Hhtml). split; [exact Hurl | exact Hhtml].
Defined.

Lemma addOptionalFields_fields (h : Host) (metadata : Metadata) :
  let base := addOptionalFields (buildBaseResponse h metadata) metadata in
  let authorName := js_or (md_author_name metadata) (md_author metadata) in
  let authorUrl := js_or (md_author_url metadata) (md_authorUrl metadata) in
  (obj_has "title" base = truthy (md_title metadata)
   /\ obj_get "title" base
      = if truthy (md_title metadata) then md_title metadata else JUndefined)
  /\ (obj_has "author_name" base = truthy authorName
      /\ obj_get "author_name" base
         = if truthy authorName then authorName else JUndefined)
  /\ (obj_has "author_url" base = truthy authorUrl
      /\ obj_get "author_url" base
         = if truthy authorUrl then authorUrl else JUndefined).
Proof.
  cbn zeta. unfold addOptionalFields, buildBaseResponse, BASE_RESPONSE_TEMPLATE.
  destruct (truthy (md_title metadata));
    destruct (truthy (js_or (md_author_name metadata) (md_author metadata)));
    destruct (truthy (js_or (md_author_url metadata) (md_authorUrl metadata)));
    destruct (negb (is_undefined (md_cache_age metadata)));
    obj_simpl; repeat split.
Qed.

(** X10: the optional fields appear exactly when the metadata gives them a
    truthy value: [title] from [title], [author_name] from [author_name] or
    else the alias [author], [author_url] from [author_url] or else the
    alias [authorUrl].  No response carries an empty title or author. *)
Theorem response_optional_fields
    (h : Host) (metadata : Metadata) (maxwidth maxheight : Dimension)
    (r : JsObject) :
  createTypeSpecificResponse h metadata maxwidth maxheight = Normal r ->
  let authorName := js_or (md_author_name metadata) (md_author metadata) in
  let authorUrl := js_or (md_author_url metadata) (md_authorUrl metadata) in
  (obj_has "title" r = truthy (md_title metadata)
   /\ obj_get "title" r
      = if truthy (md_title metadata) then md_title metadata else JUndefined)
  /\ (obj_has "author_name" r = truthy authorName
      /\ obj_get "author_name" r
         = if truthy authorName then authorName else JUndefined)
  /\ (obj_has "author_url" r = truthy authorUrl
      /\ obj_get "author_url" r
         = if truthy authorUrl then authorUrl else JUndefined).
Proof.
  intros Hr authorName authorUrl.
  assert (Hframe : forall key,
    String.eqb "url" key = false -> String.eqb "html" key = false ->
    String.eqb "width" key = false -> String.eqb "height" key = false ->
    String.eqb "type" key = false ->
    String.eqb "thumbnail_url" key = false ->
    String.eqb "thumbnail_width" key = false ->
    String.eqb "thumbnail_height" key = false ->
    obj_get key r
    = obj_get key (addOptionalFields (buildBaseResponse h metadata) metadata)
    /\ obj_has key r
       = obj_has key (addOptionalFields (buildBaseResponse h metadata) metadata)).
  { intros key ? ? ? ? ? ? ? ?.
    destruct (createTypeSpecificResponse_frame _ _ _ _ _ key Hr) as [-> ->];
      try done.
    unfold commonResponse. by apply addThumbnailFields_frame. }
  destruct (Hframe "title") as [-> ->]; try reflexivity.
  destruct (Hframe "author_name") as [-> ->]; try reflexivity.
  destruct (Hframe "author_url") as [-> ->]; try reflexivity.
  apply addOptionalFields_fields.
Qed.

Lemma response_optional_fields_witness :
  exists r,
    createTypeSpecificResponse example_host example_photo DUndefined DUndefined
    = Normal r
    /\ obj_has "title" r = false /\ obj_has "author_name" r = false.
Proof.
  eexists.
  edestruct (response_optional_fields example_host example_photo DUndefined
               DUndefined) as ((Htitle & _) & (Hauthor & _) & _);
    [vm_compute; reflexivity|].
  split; [reflexivity|]. split; [exact Htitle | exact Hauthor].
Defined.

(** ** Escaping *)

(** A function that distributes over concatenation escapes character by
    character. *)
Lemma escapeEach_of_morphism (g : string -> string) (f : ascii -> string) :
  g "" = "" -> (forall a b, g (a +:+ b) = g a +:+ g b) ->
  (forall c, g (String c "") = f c) ->
  forall s, g s = escapeEach f s.
Proof.
  intros Hnil Happ Hchar s. induction s as [|c s IH]; [exact Hnil|].
  change (String c s) with (String c "" +:+ s).
  rewrite Happ, Hchar, IH. reflexivity.
Qed.

Lemma contains_escapeEach (x : ascii) (f : ascii -> string) (s : string) :
  (forall c, contains x (f c) = false) -> contains x (escapeEach f s) = false.
Proof.
  intros Hf. induction s as [|c s IH]; [reflexivity|].
  cbn [escapeEach]. by rewrite contains_append, Hf, IH.
Qed.

Lemma escapeHtml_replacements (s : string) :
  escapeHtml s
  = replaceAll "/" "&#x2F;"
      (replaceAll "'" "&#x27;"
         (replaceAll "034" "&quot;"
            (replaceAll ">" "&gt;"
               (replaceAll "<" "&lt;" (replaceAll "&" "&amp;" s))))).
Proof. destruct s; reflexivity. Qed.

Lemma escapeHtml_char (c : ascii) : escapeHtml (String c "") = htmlEscapeChar c.
Proof.
  rewrite escapeHtml_replacements. unfold htmlEscapeChar.
  destruct (Ascii.eqb_spec c "&") as [->|Hamp]; [reflexivity|].
  destruct (Ascii.eqb_spec c "<") as [->|Hlt]; [reflexivity|].
  destruct (Ascii.eqb_spec c ">") as [->|Hgt]; [reflexivity|].
  destruct (Ascii.eqb_spec c "034") as [->|Hquot]; [reflexivity|].
  destruct (Ascii.eqb_spec c "'") as [->|Hapos]; [reflexivity|].
  destruct (Ascii.eqb_spec c "/") as [->|Hslash]; [reflexivity|].
  apply Ascii.eqb_neq in Hamp, Hlt, Hgt, Hquot, Hapos, Hslash.
  cbn [replaceAll]. rewrite Hamp. cbn [replaceAll]. rewrite Hlt.
  cbn [replaceAll]. rewrite Hgt. cbn [replaceAll]. rewrite Hquot.
  cbn [replaceAll]. rewrite Hapos. cbn [replaceAll]. rewrite Hslash.
  reflexivity.
Qed.

Lemma escapeHtml_escapeEach (s : string) :
  escapeHtml s = escapeEach htmlEscapeChar s.
Proof.
  apply (escapeEach_of_morphism escapeHtml htmlEscapeChar); [reflexivity | |].
  - intros a b. by rewrite !escapeHtml_replacements, !replaceAll_append.
  - apply escapeHtml_char.
Qed.

Lemma htmlEscapeChar_clean (c : ascii) :
  contains "<" (htmlEscapeChar c) = false
  /\ contains ">" (htmlEscapeChar c) = false
  /\ contains "034" (htmlEscapeChar c) = false
  /\ contains "'" (htmlEscapeChar c) = false
  /\ contains "/" (htmlEscapeChar c) = false.
Proof.
  unfold htmlEscapeChar.
  destruct (Ascii.eqb_spec c "&"); [by repeat split|].
  destruct (Ascii.eqb_spec c "<") as [|Hlt]; [by repeat split|].
  destruct (Ascii.eqb_spec c ">") as [|Hgt]; [by repeat split|].
  destruct (Ascii.eqb_spec c "034") as [|Hquot]; [by repeat split|].
  destruct (Ascii.eqb_spec c "'") as [|Hapos]; [by repeat split|].
  destruct (Ascii.eqb_spec c "/") as [|Hslash]; [by repeat split|].
  apply Ascii.eqb_neq in Hlt, Hgt, Hquot, Hapos, Hslash. simpl.
  by rewrite Hlt, Hgt, Hquot, Hapos, Hslash.
Qed.

Lemma sanitizeHtmlContent_escapeHtml (content : JsValue) :
  sanitizeHtmlContent content
  = if truthy content then escapeHtml (ToString content) else "".
Proof.
  unfold sanitizeHtmlContent. destruct (truthy content); [|reflexivity].
  by rewrite escapeHtml_replacements.
Qed.

(** X11: [escapeHtml] and [sanitizeHtmlContent] escape character by
    character: the six replacements in sequence never touch an entity
    written by an earlier one.  Their output contains no angle bracket, no
    quote and no slash; and the container [generateRichHtml] builds when the
    metadata has no [html] holds the content, or the text Rich content, in
    that escaped form. *)
Theorem html_content_is_escaped (metadata : Metadata) (width height : Dimension) :
  (forall s, escapeHtml s = escapeEach htmlEscapeChar s)
  /\ (forall content,
      sanitizeHtmlContent content
      = if truthy content then escapeEach htmlEscapeChar (ToString content)
        else "")
  /\ (forall content,
      contains "<" (sanitizeHtmlContent content) = false
      /\ contains ">" (sanitizeHtmlContent content) = false
      /\ contains "034" (sanitizeHtmlContent content) = false
      /\ contains "'" (sanitizeHtmlContent content) = false
      /\ contains "/" (sanitizeHtmlContent content) = false)
  /\ (truthy (md_html metadata) = false ->
      exists opening,
        generateRichHtml metadata width height
        = JStr (opening +:+ ">"
                +:+ escapeEach htmlEscapeChar
                      (ToString (js_or (md_content metadata)
                                   (JStr "Rich content")))
                +:+ "</div>")).
Proof.
  assert (Hsan : forall content,
    sanitizeHtmlContent content
    = if truthy content then escapeEach htmlEscapeChar (ToString content)
      else "").
  { intros content.
    by rewrite sanitizeHtmlContent_escapeHtml, escapeHtml_escapeEach. }
  split; [exact escapeHtml_escapeEach|]. split; [exact Hsan|]. split.
  - intros content. rewrite Hsan. destruct (truthy content); [|done].
    repeat split; apply contains_escapeEach; intros c; apply htmlEscapeChar_clean.
  - intros Hhtml. unfold generateRichHtml. rewrite Hhtml, Hsan.
    assert (Htruthy : truthy (js_or (md_content metadata) (JStr "Rich content"))
                      = true).
    { unfold js_or. by destruct (truthy (md_content metadata)) eqn:E. }
    rewrite Htruthy. eexists. rewrite <- !append_assoc. reflexivity.
Qed.

Lemma html_content_is_escaped_witness :
  exists opening,
    generateRichHtml
      (with_type example_photo (JStr "rich")) (DNum 500) (DNum 300)
    = JStr (opening +:+ ">Rich content</div>").
Proof.
  destruct (html_content_is_escaped (with_type example_photo (JStr "rich"))
              (DNum 500) (DNum 300)) as (_ & _ & _ & Hrich).
  destruct (Hrich eq_refl) as [opening Hopening].
  exists opening. exact Hopening.
Defined.

Lemma xmlEscapeChar_inj (c1 c2 : ascii) (rest1 rest2 : string) :
  xmlEscapeChar c1 +:+ rest1 = xmlEscapeChar c2 +:+ rest2 ->
  c1 = c2 /\ rest1 = rest2.
Proof.
  unfold xmlEscapeChar.
  destruct (Ascii.eqb_spec c1 "&") as [->|?];
    [|destruct (Ascii.eqb_spec c1 "<") as [->|?];
      [|destruct (Ascii.eqb_spec c1 ">") as [->|?];
        [|destruct (Ascii.eqb_spec c1 "034") as [->|?];
          [|destruct (Ascii.eqb_spec c1 "'") as [->|?]]]]];
    (destruct (Ascii.eqb_spec c2 "&") as [->|?];
     [|destruct (Ascii.eqb_spec c2 "<") as [->|?];
       [|destruct (Ascii.eqb_spec c2 ">") as [->|?];
         [|destruct (Ascii.eqb_spec c2 "034") as [->|?];
           [|destruct (Ascii.eqb_spec c2 "'") as [->|?]]]]]);
    rewrite ?append_cons, ?append_nil; intros Heq;
    simplify_eq; try done; try congruence.
Qed.

(** X12: [escapeXml] loses nothing: two different strings never have the
    same escaped text. *)
Theorem escapeXml_injective (s1 s2 : string) :
  escapeXml s1 = escapeXml s2 -> s1 = s2.
Proof.
  rewrite !escapeXml_xmlEscaped. revert s2.
  induction s1 as [|c1 s1 IH]; intros [|c2 s2]; cbn [xmlEscaped].
  - done.
  - unfold xmlEscapeChar. repeat case_match; discriminate.
  - unfold xmlEscapeChar. repeat case_match; discriminate.
  - intros [-> Hrest]%xmlEscapeChar_inj. f_equal. by apply IH.
Qed.

Lemma escapeXml_injective_witness :
  escapeXml "a<b" = "a&lt;b" /\ escapeXml "a<b" <> escapeXml "a&lt;b".
Proof.
  split; [reflexivity|].
  intros Hsame. apply (escapeXml_injective "a<b" "a&lt;b") in Hsame.
  discriminate Hsame.
Defined.

(** ** utils/security *)

Lemma validateNumeric_valid (value : string) (min max n : Z) :
  validateNumeric value min max = NumericValid n
  <-> parseInt value = Some n /\ min <= n <= max.
Proof.
  unfold validateNumeric. destruct (parseInt value) as [m|]; [|by split; [|intros []]].
  destruct (Z.ltb_spec m min), (Z.ltb_spec max m); cbn;
    (split; [intros [= <-] | intros [[= <-] ?]]); try done; try lia.
Qed.

(** X13: for bounds within [MAX_SAFE_INTEGER], [validateNumeric] accepts
    an integer of that range written in decimal exactly when it lies
    between the bounds, and then returns that integer; what it returns for
    any value is the integer [parseInt] reads, which lies between the
    bounds and so within [MAX_SAFE_INTEGER]; and a value [parseInt] cannot
    read is rejected as not a number. *)
Theorem validateNumeric_decimal (n min max : Z) :
  Z.abs n <= MAX_SAFE_INTEGER ->
  Z.abs min <= MAX_SAFE_INTEGER ->
  Z.abs max <= MAX_SAFE_INTEGER ->
  (min <= n <= max -> validateNumeric (pretty n) min max = NumericValid n)
  /\ (n < min \/ max < n ->
      validateNumeric (pretty n) min max
      = NumericInvalid ("Value must be between " +:+ pretty min +:+ " and "
                        +:+ pretty max))
  /\ (forall value m,
      validateNumeric value min max = NumericValid m ->
      parseInt value = Some m /\ min <= m <= max
      /\ Z.abs m <= MAX_SAFE_INTEGER)
  /\ (forall value,
      parseInt value = None ->
      validateNumeric value min max = NumericInvalid "Value must be a number").
Proof.
  intros _ Hmin Hmax. split; [|split; [|split]].
  - intros Hn. apply validateNumeric_valid. by rewrite parseInt_pretty.
  - intros Hn. unfold validateNumeric. rewrite parseInt_pretty.
    destruct (Z.ltb_spec n min), (Z.ltb_spec max n); cbn; try done; lia.
  - intros value m Hvalid.
    apply validateNumeric_valid in Hvalid as [Hparsed Hbounds].
    split; [exact Hparsed|]. split; [exact Hbounds | lia].
  - intros value Hnan. unfold validateNumeric. by rewrite Hnan.
Qed.

Lemma validateNumeric_decimal_witness :
  validateNumeric (pretty 640) 100 2048 = NumericValid 640
  /\ validateNumeric (pretty 99) 100 2048
     = NumericInvalid "Value must be between 100 and 2048".
Proof.
  destruct (validateNumeric_decimal 640 100 2048) as (Hin & _);
    [unfold MAX_SAFE_INTEGER; lia ..|].
  destruct (validateNumeric_decimal 99 100 2048) as (_ & Hout & _);
    [unfold MAX_SAFE_INTEGER; lia ..|].
  split; [apply Hin; lia | apply Hout; lia].
Defined.







Lemma str_or_default_nonempty (value : option string) (d : string) :
  d <> "" -> str_or value d <> "".
Proof.
  intros Hd. destruct value as [f|]; [|exact Hd]. simpl.
  destruct (String.eqb_spec f ""); [exact Hd | done].
Qed.



(** ** core/parser *)

Lemma str_split_nonempty (sep : ascii) (s : string) : str_split sep s <> [].
Proof.
  destruct s as [|c s]; [done|]. cbn [str_split].
  destruct (Ascii.eqb c sep); [done|]. by destruct (str_split sep s).
Qed.

Lemma join_cons (sep piece : string) (pieces : list string) :
  pieces <> [] ->
  join sep (piece :: pieces) = piece +:+ sep +:+ join sep pieces.
Proof. by destruct pieces. Qed.

Lemma str_split_join (sep : ascii) (s : string) :
  join (String sep "") (str_split sep s) = s.
Proof.
  induction s as [|c s IH]; [reflexivity|]. cbn [str_split].
  destruct (Ascii.eqb_spec c sep) as [->|Hc].
  - rewrite join_cons by apply str_split_nonempty. by rewrite IH.
  - pose proof (str_split_nonempty sep s) as Hne.
    destruct (str_split sep s) as [|piece pieces]; [done|].
    destruct pieces as [|piece' pieces].
    + cbn [join] in *. by rewrite IH.
    + rewrite join_cons by done. rewrite join_cons in IH by done.
      by rewrite append_cons, IH.
Qed.

Lemma str_split_pieces (sep : ascii) (s : string) :
  Forall (fun piece => contains sep piece = false) (str_split sep s).
Proof.
  induction s as [|c s IH]; [by constructor|]. cbn [str_split].
  destruct (Ascii.eqb_spec c sep) as [->|Hc]; [by constructor|].
  apply Ascii.eqb_neq in Hc.
  destruct (str_split sep s) as [|piece pieces].
  - constructor; [|done]. cbn [contains]. by rewrite Hc.
  - inversion IH; subst. constructor; [|done]. cbn [contains]. by rewrite Hc.
Qed.

Lemma pathSegmentsOf_elem (pathname segment : string) :
  In segment (pathSegmentsOf pathname) ->
  segment <> "" /\ contains "/" segment = false.
Proof.
  unfold pathSegmentsOf. intros [Hin Hlen]%filter_In. split.
  - intros ->. done.
  - pose proof (str_split_pieces "/" pathname) as Hpieces.
    rewrite List.Forall_forall in Hpieces. by apply Hpieces.
Qed.

Lemma segmentAfterKeyword_elem (pathSegments : list string) (id : string) :
  segmentAfterKeyword pathSegments = Some id -> In id pathSegments.
Proof.
  induction pathSegments as [|segment rest IH]; [done|].
  destruct rest as [|nextSegment rest]; [done|].
  cbn [segmentAfterKeyword].
  destruct (includes ID_SEGMENTS segment).
  - intros [= <-]. right. by left.
  - intros Hid. right. by apply IH.
Qed.

Lemma last_elem (l : list string) (x : string) : last l = Some x -> In x l.
Proof.
  intros Hlast. apply list_elem_of_In. rewrite last_Some in Hlast.
  destruct Hlast as [l' ->]. set_solver.
Qed.

Lemma segmentAfterKeyword_none (init : list string) (lastSegment : string) :
  Forall (fun segment => includes ID_SEGMENTS segment = false) init ->
  segmentAfterKeyword (init ++ [lastSegment]) = None.
Proof.
  intros Hinit. induction Hinit as [|segment init Hs _ IH]; [reflexivity|].
  cbn [app]. destruct init; cbn [app segmentAfterKeyword] in *; by rewrite Hs.
Qed.

Lemma segmentAfterKeyword_first
    (before : list string) (keyword id : string) (after : list string) :
  Forall (fun segment => includes ID_SEGMENTS segment = false) before ->
  includes ID_SEGMENTS keyword = true ->
  segmentAfterKeyword (before ++ keyword :: id :: after) = Some id.
Proof.
  intros Hbefore Hkeyword. induction Hbefore as [|segment before Hs _ IH].
  - cbn [app segmentAfterKeyword]. by rewrite Hkeyword.
  - cbn [app]. destruct before; cbn [app segmentAfterKeyword] in *;
      by rewrite Hs.
Qed.

(** X16: [extractContentId] never returns an empty identifier.  What it
    returns is the value of one of the query parameters id, v, video and
    content, or else a segment of the path, which is not empty and has no
    slash in it.  The parameters are tried in that order and before the
    path: a non-empty id is returned whatever else the request holds, a
    non-empty v when id is empty or missing, a non-empty video when id and
    v are, a non-empty content when id, v and video are.  With none of the
    four, the path decides: the segment that follows the first segment
    among video, content, post, article, media and embed that is not the
    last one; without such a segment, the last segment when it is made of
    letters, digits, underscores and hyphens; and null otherwise, as for a
    path without segments. *)
Theorem extractContentId_result (pathname : string) (queryParams : QueryParams) :
  (forall id,
    extractContentId pathname queryParams = Some id ->
    id <> ""
    /\ (queryParams !! "id" = Some id \/ queryParams !! "v" = Some id
        \/ queryParams !! "video" = Some id
        \/ queryParams !! "content" = Some id
        \/ (In id (pathSegmentsOf pathname) /\ contains "/" id = false)))
  /\ (forall id,
      id <> "" -> queryParams !! "id" = Some id ->
      extractContentId pathname queryParams = Some id)
  /\ (forall v,
      v <> "" -> truthy (opt_js (queryParams !! "id")) = false ->
      queryParams !! "v" = Some v ->
      extractContentId pathname queryParams = Some v)
  /\ (forall video,
      video <> "" -> truthy (opt_js (queryParams !! "id")) = false ->
      truthy (opt_js (queryParams !! "v")) = false ->
      queryParams !! "video" = Some video ->
      extractContentId pathname queryParams = Some video)
  /\ (forall content,
      content <> "" -> truthy (opt_js (queryParams !! "id")) = false ->
      truthy (opt_js (queryParams !! "v")) = false ->
      truthy (opt_js (queryParams !! "video")) = false ->
      queryParams !! "content" = Some content ->
      extractContentId pathname queryParams = Some content)
  /\ (truthy (opt_js (queryParams !! "id")) = false ->
      truthy (opt_js (queryParams !! "v")) = false ->
      truthy (opt_js (queryParams !! "video")) = false ->
      truthy (opt_js (queryParams !! "content")) = false ->
      (forall before keyword next after,
         pathSegmentsOf pathname = before ++ keyword :: next :: after ->
         Forall (fun segment => ~ In segment ID_SEGMENTS) before ->
         In keyword ID_SEGMENTS ->
         extractContentId pathname queryParams = Some next)
      /\ (forall init lastSegment,
          pathSegmentsOf pathname = init ++ [lastSegment] ->
          Forall (fun segment => ~ In segment ID_SEGMENTS) init ->
          extractContentId pathname queryParams
          = if looksLikeId lastSegment then Some lastSegment else None)
      /\ (pathSegmentsOf pathname = [] ->
          extractContentId pathname queryParams = None)).
Proof.
  assert (Hparam : forall key id,
    truthy (opt_js (queryParams !! key)) = true ->
    queryParams !! key = Some id -> id <> "").
  { intros key id Htruthy Hkey. rewrite Hkey in Htruthy. cbn in Htruthy.
    intros ->. done. }
  assert (Hincludes : forall l segment,
    includes l segment = true <-> In segment l).
  { intros l segment. unfold includes. rewrite existsb_exists. split.
    - intros (x & Hin & ->%String.eqb_eq). exact Hin.
    - intros Hin. exists segment. by rewrite String.eqb_refl. }
  assert (Hnone : forall l,
    Forall (fun segment => ~ In segment ID_SEGMENTS) l ->
    Forall (fun segment => includes ID_SEGMENTS segment = false) l).
  { intros l Hl. eapply Forall_impl; [exact Hl|]. intros segment Hnot. cbn.
    destruct (includes ID_SEGMENTS segment) eqn:Hs; [|done].
    by apply Hincludes in Hs. }
  split; [|split; [|split; [|split; [|split]]]].
  - intros id. unfold extractContentId.
    destruct (truthy (opt_js (queryParams !! "id"))) eqn:Hid;
      [intros Hkey; split; [by eapply Hparam | by left]|].
    destruct (truthy (opt_js (queryParams !! "v"))) eqn:Hv;
      [intros Hkey; split; [by eapply Hparam | by right; left]|].
    destruct (truthy (opt_js (queryParams !! "video"))) eqn:Hvideo;
      [intros Hkey; split; [by eapply Hparam | by right; right; left]|].
    destruct (truthy (opt_js (queryParams !! "content"))) eqn:Hcontent;
      [intros Hkey; split; [by eapply Hparam | by right; right; right; left]|].
    cbn zeta. intros Hpath.
    assert (Hin : In id (pathSegmentsOf pathname)).
    { destruct (segmentAfterKeyword (pathSegmentsOf pathname)) as [next|] eqn:Hk.
      - injection Hpath as <-. by apply segmentAfterKeyword_elem.
      - destruct (last (pathSegmentsOf pathname)) as [lastSegment|] eqn:Hlast;
          [|done].
        destruct (truthy (JStr lastSegment) && looksLikeId lastSegment);
          [|done].
        injection Hpath as <-. by apply last_elem. }
    destruct (pathSegmentsOf_elem _ _ Hin) as [Hne Hslash].
    split; [done|]. by right; right; right; right.
  - intros id Hne Hid. unfold extractContentId. rewrite Hid. cbn.
    apply String.eqb_neq in Hne. by rewrite Hne.
  - intros v Hne Hid Hv. unfold extractContentId. rewrite Hid, Hv. cbn.
    apply String.eqb_neq in Hne. by rewrite Hne.
  - intros video Hne Hid Hv Hvideo. unfold extractContentId.
    rewrite Hid, Hv, Hvideo. cbn.
    apply String.eqb_neq in Hne. by rewrite Hne.
  - intros content Hne Hid Hv Hvideo Hcontent. unfold extractContentId.
    rewrite Hid, Hv, Hvideo, Hcontent. cbn.
    apply String.eqb_neq in Hne. by rewrite Hne.
  - intros Hid Hv Hvideo Hcontent. unfold extractContentId.
    rewrite Hid, Hv, Hvideo, Hcontent. cbn zeta. split; [|split].
    + intros before keyword next after -> Hbefore Hkeyword.
      rewrite segmentAfterKeyword_first; [done | by apply Hnone |].
      by apply Hincludes.
    + intros init lastSegment -> Hinit.
      rewrite segmentAfterKeyword_none by by apply Hnone.
      rewrite last_snoc. by destruct lastSegment.
    + by intros ->.
Qed.

Lemma extractContentId_result_witness :
  extractContentId "/media/abc" (list_to_map [("v", "xyz")]) = Some "xyz"
  /\ extractContentId "/media/abc" (list_to_map [("content", "c1")])
     = Some "c1"
  /\ extractContentId "/media/abc" ∅ = Some "abc"
  /\ extractContentId "/" ∅ = None.
Proof.
  destruct (extractContentId_result "/media/abc" (list_to_map [("v", "xyz")]))
    as (_ & _ & Hv & _).
  destruct (extractContentId_result "/media/abc"
              (list_to_map [("content", "c1")]))
    as (_ & _ & _ & _ & Hcontent & _).
  destruct (extractContentId_result "/media/abc" ∅)
    as (_ & _ & _ & _ & _ & Hpath).
  destruct (extractContentId_result "/" ∅) as (_ & _ & _ & _ & _ & Hnone).
  split; [|split; [|split]].
  - apply Hv; [discriminate | reflexivity | reflexivity].
  - apply Hcontent; [discriminate | reflexivity ..].
  - destruct Hpath as (Hkeyword & _); [reflexivity ..|].
    apply (Hkeyword [] "media" "abc" []);
      [reflexivity | constructor | vm_compute; tauto].
  - destruct Hnone as (_ & _ & Hempty); [reflexivity ..|].
    apply Hempty. reflexivity.
Defined.

Lemma isPrefixOf_append (p b : string) : isPrefixOf p (p +:+ b) = true.
Proof.
  induction p as [|c p IH]; [reflexivity|]. rewrite append_cons.
  cbn [isPrefixOf]. by rewrite Ascii.eqb_refl, IH.
Qed.

Lemma str_includes_cons (c : ascii) (haystack needle : string) :
  str_includes (String c haystack) needle
  = isPrefixOf needle (String c haystack) || str_includes haystack needle.
Proof. reflexivity. Qed.

Lemma str_includes_append (a needle b : string) :
  str_includes (a +:+ needle +:+ b) needle = true.
Proof.
  induction a as [|c a IH].
  - rewrite append_nil. pose proof (isPrefixOf_append needle b) as Hp.
    destruct (needle +:+ b); cbn [str_includes]; by rewrite Hp.
  - rewrite append_cons, str_includes_cons, IH. apply orb_true_r.
Qed.

Lemma toLowerCase_append (a b : string) :
  toLowerCase (a +:+ b) = toLowerCase a +:+ toLowerCase b.
Proof.
  induction a as [|c a IH]; [reflexivity|].
  rewrite append_cons. cbn [toLowerCase]. by rewrite IH.
Qed.

Lemma toLowerChar_idem (c : ascii) : toLowerChar (toLowerChar c) = toLowerChar c.
Proof. by destruct c as [[] [] [] [] [] [] [] []]. Qed.

Lemma toLowerCase_idem (s : string) : toLowerCase (toLowerCase s) = toLowerCase s.
Proof.
  induction s as [|c s IH]; [reflexivity|].
  cbn [toLowerCase]. by rewrite toLowerChar_idem, IH.
Qed.

(** A name followed by another segment stands between two slashes in the
    path. *)
Lemma segments_between_slashes
    (pieces before : list string) (keyword id : string) (after : list string) :
  List.filter (fun segment => (0 <? String.length segment)%nat) pieces
  = before ++ keyword :: id :: after ->
  exists a b, "/" +:+ join "/" pieces = a +:+ ("/" +:+ keyword +:+ "/") +:+ b.
Proof.
  revert before. induction pieces as [|piece pieces IH]; intros before Hf.
  { by destruct before. }
  assert (Hrest : forall l,
    List.filter (fun segment => (0 <? String.length segment)%nat) pieces
    = l -> l <> [] -> pieces <> []).
  { intros l <- Hl ->. done. }
  cbn [List.filter] in Hf.
  destruct piece as [|c piece]; cbn [String.length Nat.ltb Nat.leb] in Hf.
  - destruct (IH before Hf) as (a & b & Hab).
    rewrite join_cons by (apply (Hrest _ Hf); by destruct before).
    exists ("/" +:+ a), b. rewrite append_nil, !append_assoc.
    rewrite <- !append_assoc in Hab. rewrite !append_assoc in Hab.
    by rewrite Hab.
  - change (0 <? S (String.length piece))%nat with true in Hf.
    destruct before as [|segment before]; cbn [app] in Hf.
    + injection Hf as -> Hf.
      rewrite join_cons by (by apply (Hrest _ Hf)).
      exists "", (join "/" pieces). by rewrite append_nil, !append_assoc.
    + injection Hf as <- Hf.
      destruct (IH before Hf) as (a & b & Hab).
      rewrite join_cons by (apply (Hrest _ Hf); by destruct before).
      exists ("/" +:+ String c piece +:+ a), b.
      rewrite !append_assoc. rewrite !append_assoc in Hab. by rewrite Hab.
Qed.

Lemma pathname_between_slashes
    (pathname : string) (before : list string) (keyword id : string)
    (after : list string) :
  isPrefixOf "/" pathname = true ->
  pathSegmentsOf pathname = before ++ keyword :: id :: after ->
  exists a b, pathname = a +:+ ("/" +:+ keyword +:+ "/") +:+ b.
Proof.
  destruct pathname as [|c rest]; [done|]. cbn [isPrefixOf].
  rewrite andb_true_r. intros <-%Ascii.eqb_eq.
  unfold pathSegmentsOf. cbn [str_split Ascii.eqb Bool.eqb].
  cbn [List.filter String.length Nat.ltb Nat.leb].
  intros Hf. destruct (segments_between_slashes _ _ _ _ _ Hf) as (a & b & Hab).
  exists a, b. rewrite <- Hab.
  change "/"%string with (String "/" "") at 2.
  by rewrite (str_split_join "/" rest).
Qed.

(** X17: [inferContentType] answers video, photo, rich or link and nothing
    else; a non-empty v or video parameter makes it video whatever the
    path; and the letter case of the path does not matter. *)
Theorem inferContentType_outcomes (pathname : string) (queryParams : QueryParams) :
  let type := inferContentType pathname queryParams in
  In type ["video"; "photo"; "rich"; "link"]
  /\ (truthy (opt_js (queryParams !! "v")) = true
      \/ truthy (opt_js (queryParams !! "video")) = true ->
      type = "video")
  /\ (forall other,
      toLowerCase other = toLowerCase pathname ->
      inferContentType other queryParams = type)
  /\ inferContentType (toLowerCase pathname) queryParams = type.
Proof.
  cbn zeta. split; [|split; [|split]].
  - unfold inferContentType. cbn zeta. repeat case_match; cbn; auto 6.
  - unfold inferContentType. cbn zeta. intros [-> | ->];
      by rewrite ?orb_true_r.
  - intros other Hother. unfold inferContentType. by rewrite Hother.
  - unfold inferContentType. by rewrite toLowerCase_idem.
Qed.

Lemma inferContentType_outcomes_witness :
  inferContentType "/photo/1.JPG" (list_to_map [("v", "abc")]) = "video"
  /\ inferContentType "/Photo/1" ∅ = inferContentType "/photo/1" ∅.
Proof.
  destruct (inferContentType_outcomes "/photo/1.JPG"
              (list_to_map [("v", "abc")])) as (_ & Hquery & _).
  destruct (inferContentType_outcomes "/photo/1" ∅) as (_ & _ & Hcase & _).
  split; [apply Hquery; left; reflexivity | apply Hcase; reflexivity].
Defined.

(** X18: the two readings of a path agree on videos.  In a path that starts
    with a slash and has the segment video or embed followed by another
    segment, [inferContentType] answers video; and when no query parameter
    gives an identifier and no earlier segment is one of the known names,
    [extractContentId] returns the segment that follows. *)
Theorem video_path_type_and_id
    (pathname : string) (queryParams : QueryParams)
    (before : list string) (keyword id : string) (after : list string) :
  isPrefixOf "/" pathname = true ->
  pathSegmentsOf pathname = before ++ keyword :: id :: after ->
  keyword = "video" \/ keyword = "embed" ->
  inferContentType pathname queryParams = "video"
  /\ (truthy (opt_js (queryParams !! "id")) = false ->
      truthy (opt_js (queryParams !! "v")) = false ->
      truthy (opt_js (queryParams !! "video")) = false ->
      truthy (opt_js (queryParams !! "content")) = false ->
      Forall (fun segment => includes ID_SEGMENTS segment = false) before ->
      extractContentId pathname queryParams = Some id).
Proof.
  intros Hslash Hsegments Hkeyword. split.
  - destruct (pathname_between_slashes _ _ _ _ _ Hslash Hsegments)
      as (a & b & ->).
    unfold inferContentType. cbn zeta. rewrite !toLowerCase_append.
    destruct Hkeyword as [-> | ->].
    + change (toLowerCase ("/" +:+ "video" +:+ "/")) with "/video/".
      by rewrite (str_includes_append (toLowerCase a) "/video/").
    + change (toLowerCase ("/" +:+ "embed" +:+ "/")) with "/embed/".
      rewrite (str_includes_append (toLowerCase a) "/embed/").
      by rewrite !orb_true_r.
  - intros Hid Hv Hvideo Hcontent Hbefore. unfold extractContentId.
    rewrite Hid, Hv, Hvideo, Hcontent. cbn zeta. rewrite Hsegments.
    rewrite segmentAfterKeyword_first; [done | done |].
    by destruct Hkeyword as [-> | ->].
Qed.

Lemma video_path_type_and_id_witness :
  inferContentType "/channel/video/123" ∅ = "video"
  /\ extractContentId "/channel/video/123" ∅ = Some "123".
Proof.
  destruct (video_path_type_and_id "/channel/video/123" ∅
              ["channel"] "video" "123" [])
    as [Htype Hid]; [reflexivity | reflexivity | by left |].
  split; [exact Htype|].
  apply Hid; try reflexivity. by repeat constructor.
Defined.

(** ** utils/helpers *)

Lemma length_substring_0 (m : nat) (s : string) :
  String.length (String.substring 0 m s) = Nat.min m (String.length s).
Proof.
  revert m. induction s as [|c s IH]; intros [|m]; simpl; try reflexivity.
  by rewrite IH.
Qed.

Lemma substring_0_prefix (m : nat) (s : string) :
  exists dropped, s = String.substring 0 m s +:+ dropped.
Proof.
  revert m. induction s as [|c s IH]; intros [|m].
  - by exists "".
  - by exists "".
  - by exists (String c s).
  - destruct (IH m) as [dropped Hd]. exists dropped.
    cbn [String.substring]. by rewrite append_cons, <- Hd.
Qed.

(** X19: [truncateString] returns a string that fits as it is.  A longer
    one is cut so that, with the suffix appended, the result has exactly
    [maxLength] code units: a prefix of the input followed by the suffix.
    That holds when the suffix itself fits; when it does not, the result is
    the suffix alone, which is longer than [maxLength]. *)
Theorem truncateString_length (s : string) (maxLength : Z) (suffix : string) :
  let result := truncateString (JStr s) maxLength suffix in
  (Z.of_nat (String.length s) <= maxLength -> result = s)
  /\ (maxLength < Z.of_nat (String.length s) ->
      Z.of_nat (String.length suffix) <= maxLength ->
      Z.of_nat (String.length result) = maxLength
      /\ exists kept dropped, s = kept +:+ dropped /\ result = kept +:+ suffix)
  /\ (s <> "" ->
      maxLength < Z.of_nat (String.length s) ->
      maxLength <= Z.of_nat (String.length suffix) ->
      result = suffix).
Proof.
  cbn zeta. unfold truncateString.
  change (truthy (JStr s)) with (negb (String.eqb s "")).
  destruct (String.eqb_spec s "") as [->|Hne]; cbn [negb].
  { split; [done|]. split; [|done]. cbn. lia. }
  split; [|split].
  - intros Hfits. by destruct (Z.leb_spec (Z.of_nat (String.length s)) maxLength);
      [|lia].
  - intros Hlong Hsuffix.
    destruct (Z.leb_spec (Z.of_nat (String.length s)) maxLength); [lia|].
    split.
    + rewrite length_append, length_substring_0. lia.
    + destruct (substring_0_prefix
                  (Z.to_nat (maxLength - Z.of_nat (String.length suffix))) s)
        as [dropped Hd].
      by eexists _, dropped.
  - intros _ Hlong Hsuffix.
    destruct (Z.leb_spec (Z.of_nat (String.length s)) maxLength); [lia|].
    replace (Z.to_nat (maxLength - Z.of_nat (String.length suffix))) with 0%nat
      by lia.
    by destruct s.
Qed.

Lemma truncateString_length_witness :
  Z.of_nat (String.length
              (truncateString (JStr "Serverless oEmbed") 10 "...")) = 10
  /\ truncateString (JStr "Serverless oEmbed") 2 "..." = "...".
Proof.
  destruct (truncateString_length "Serverless oEmbed" 10 "...")
    as (_ & Hcut & _).
  destruct (truncateString_length "Serverless oEmbed" 2 "...")
    as (_ & _ & Hsuffix).
  split.
  - apply Hcut; cbn; lia.
  - apply Hsuffix; [discriminate | cbn; lia | cbn; lia].
Defined.









(** ToInt32 differs from its argument by a multiple of 2^32, and multiples
    of 2^32 do not change it. *)
Lemma ToInt32_offset (z : Z) : exists k, ToInt32 z = z + 2 ^ 32 * k.
Proof.
  exists (- ((z + 2 ^ 31) / 2 ^ 32)). unfold ToInt32.
  rewrite Z.mod_eq by lia. lia.
Qed.

Lemma ToInt32_plus (z k : Z) : ToInt32 (z + 2 ^ 32 * k) = ToInt32 z.
Proof.
  unfold ToInt32. f_equal.
  replace (z + 2 ^ 32 * k + 2 ^ 31) with (z + 2 ^ 31 + k * 2 ^ 32) by lia.
  apply Z_mod_plus_full.
Qed.

Lemma ToInt32_range (z : Z) : - 2 ^ 31 <= ToInt32 z < 2 ^ 31.
Proof.
  unfold ToInt32. pose proof (Z.mod_pos_bound (z + 2 ^ 31) (2 ^ 32)). lia.
Qed.

Lemma hashStep_ToInt32 (x : Z) (c : ascii) :
  hashStep (ToInt32 x) c = ToInt32 (31 * x + Z.of_nat (nat_of_ascii c)).
Proof.
  unfold hashStep. cbn zeta.
  destruct (ToInt32_offset x) as [k1 ->].
  destruct (ToInt32_offset ((x + 2 ^ 32 * k1) * 2 ^ 5)) as [k2 ->].
  rewrite <- (ToInt32_plus (31 * x + _) (31 * k1 + k2)). f_equal. lia.
Qed.

Lemma hashLoop_polynomial (x : Z) (s : string) :
  s <> "" -> hashLoop (ToInt32 x) s = ToInt32 (hashPolynomial x s).
Proof.
  revert x. induction s as [|c s IH]; intros x Hne; [done|].
  cbn [hashLoop hashPolynomial]. rewrite hashStep_ToInt32.
  destruct s as [|c' s]; [reflexivity|]. by apply IH.
Qed.

(** X21: [generateHash] computes the polynomial hash in 31 of the code
    units: truncating to 32 bits in every round of the loop gives the same
    number as truncating the exact polynomial once.  The number stays
    within the signed 32-bit range, and the result is the hexadecimal form
    of its absolute value; an empty string and a value that is not a string
    give the text empty. *)
Theorem generateHash_polynomial (s : string) :
  (s <> "" ->
   generateHash (JStr s) = toString16 (Z.abs (ToInt32 (hashPolynomial 0 s)))
   /\ 0 <= Z.abs (ToInt32 (hashPolynomial 0 s)) <= 2 ^ 31)
  /\ generateHash (JStr "") = "empty"
  /\ (forall n, generateHash (JNum n) = "empty")
  /\ generateHash JUndefined = "empty" /\ generateHash JNull = "empty".
Proof.
  split; [|by repeat split].
  intros Hne. split.
  - unfold generateHash.
    change (truthy (JStr s)) with (negb (String.eqb s "")).
    apply String.eqb_neq in Hne as Hneb. rewrite Hneb. cbn [negb].
    change 0 with (ToInt32 0) at 1. by rewrite hashLoop_polynomial.
  - pose proof (ToInt32_range (hashPolynomial 0 s)). lia.
Qed.

Lemma generateHash_polynomial_witness :
  generateHash (JStr "ab") = toString16 (31 * 97 + 98).
Proof.
  destruct (generateHash_polynomial "ab") as [Hhash _].
  destruct Hhash as [Hhash _]; [discriminate|].
  rewrite Hhash. reflexivity.
Defined.

(** ** oembed/html-generator: widgets and galleries *)

Lemma truthy_JStr_eqb (s : string) : truthy (JStr s) = negb (String.eqb s "").
Proof. reflexivity. Qed.



Lemma galleryImage_result (h : Host) (image : Image) (index : nat) :
  exists element,
    galleryImage h image index = Normal element
    /\ (truthy (JStr element) = false <-> sanitizedImageUrl h image = "").
Proof.
  unfold galleryImage, sanitizedImageUrl.
  rewrite sanitizeUrl_result. cbn [mbind Completion_bind].
  set (sanitizedUrl := if truthy _ then _ else _).
  rewrite truthy_JStr_eqb.
  destruct (String.eqb_spec sanitizedUrl "") as [->|Hne]; cbn [negb].
  - by exists "".
  - eexists. split; [reflexivity|]. unfold imgElement.
    rewrite !append_cons. by split.
Qed.

Lemma imageProperties_readable (entry : ImageEntry) :
  readable entry = true -> imageProperties entry = Normal (propertiesOf entry).
Proof. by destruct entry as [image|[]]. Qed.

Lemma imageProperties_unreadable (entry : ImageEntry) :
  readable entry = false -> exists error, imageProperties entry = Throw error.
Proof. destruct entry as [image|[]]; try done; by eexists. Qed.

Lemma mapImages_result (h : Host) (index : nat) (entries : list ImageEntry) :
  Forall (fun entry => readable entry = true) entries ->
  exists elements,
    mapImages h index entries = Normal elements
    /\ (List.filter (fun element => truthy (JStr element)) elements = []
        <-> Forall (fun entry => sanitizedImageUrl h (propertiesOf entry) = "")
              entries).
Proof.
  intros Hreadable. revert index.
  induction Hreadable as [|entry entries Hentry _ IH]; intros index.
  { exists []. by split. }
  cbn [mapImages]. rewrite (imageProperties_readable _ Hentry).
  cbn [mbind Completion_bind].
  destruct (galleryImage_result h (propertiesOf entry) index)
    as (element & -> & Helement).
  destruct (IH (S index)) as (elements & -> & Helements).
  cbn [mbind Completion_bind mret Completion_ret].
  eexists. split; [reflexivity|]. cbn [List.filter].
  destruct (truthy (JStr element)) eqn:Htruthy.
  - split; [done|]. intros Hall. inversion Hall as [|? ? Hurl _]; subst.
    apply Helement in Hurl. congruence.
  - rewrite Helements. split.
    + intros Hrest. constructor; [by apply Helement | done].
    + intros Hall. by inversion Hall.
Qed.

Lemma mapImages_throws (h : Host) (index : nat) (entries : list ImageEntry) :
  Exists (fun entry => readable entry = false) entries ->
  exists error, mapImages h index entries = Throw error.
Proof.
  intros Hunreadable. revert index.
  induction entries as [|entry entries IH]; intros index;
    [by inversion Hunreadable|].
  cbn [mapImages]. destruct (readable entry) eqn:Hentry.
  - rewrite (imageProperties_readable _ Hentry). cbn [mbind Completion_bind].
    destruct (galleryImage_result h (propertiesOf entry) index)
      as (element & -> & _).
    cbn [mbind Completion_bind].
    assert (Hrest : Exists (fun entry => readable entry = false) entries).
    { inversion Hunreadable as [? ? Hhere|]; subst; [congruence | done]. }
    destruct (IH Hrest (S index)) as (error & ->).
    by eexists.
  - destruct (imageProperties_unreadable _ Hentry) as (error & ->).
    by eexists.
Qed.

Lemma join_empty (parts : list string) :
  Forall (fun part => truthy (JStr part) = true) parts ->
  join "" parts = "" -> parts = [].
Proof.
  intros Hparts. destruct Hparts as [|part parts Hpart _]; [done|].
  destruct part as [|c part]; [done|].
  destruct parts; cbn [join]; rewrite ?append_cons; discriminate.
Qed.

(** X23: what [generateGalleryHtml] makes of [metadata.images].  Of an
    array whose entries are all objects, strings, numbers or booleans it
    makes the error block when the array is empty or [sanitizeUrl] accepts
    the address of none of the entries, and the gallery container, which is
    not the error block, as soon as it accepts one.  An array with a null
    or undefined entry makes it throw, and so does a non-empty string and
    an object that is no array and has a truthy length.  Every other value
    (none, null, a number, a boolean, the empty string, an object without a
    truthy length) gives the error block. *)
Theorem generateGalleryHtml_outcomes
    (h : Host) (metadata : Metadata) (width height : Dimension) :
  (forall entries,
     Forall (fun entry => readable entry = true) entries ->
     exists html,
       generateGalleryHtml h metadata (ImagesArray entries) width height
       = Normal html
       /\ (Forall (fun entry => sanitizedImageUrl h (propertiesOf entry) = "")
             entries ->
           html = GALLERY_NOT_AVAILABLE)
       /\ (Exists (fun entry => sanitizedImageUrl h (propertiesOf entry) <> "")
             entries ->
           html <> GALLERY_NOT_AVAILABLE
           /\ exists safeWidth safeHeight imageElements,
               imageElements <> ""
               /\ html = galleryContainer safeWidth safeHeight imageElements))
  /\ (forall entries,
      Exists (fun entry => entry = ImagePrimitive JNull
                           \/ entry = ImagePrimitive JUndefined) entries ->
      exists error,
        generateGalleryHtml h metadata (ImagesArray entries) width height
        = Throw error)
  /\ (forall v,
      generateGalleryHtml h metadata (ImagesPrimitive v) width height
      = match v with
        | JStr s =>
            if String.eqb s "" then Normal GALLERY_NOT_AVAILABLE
            else Throw "TypeError: images.map is not a function"
        | _ => Normal GALLERY_NOT_AVAILABLE
        end)
  /\ (forall o,
      generateGalleryHtml h metadata (ImagesObject o) width height
      = if truthy (obj_get "length" o)
        then Throw "TypeError: images.map is not a function"
        else Normal GALLERY_NOT_AVAILABLE).
Proof.
  split; [|split; [|split]].
  - intros entries Hreadable.
    unfold generateGalleryHtml. cbn zeta. cbn [images_or_empty images_length].
    destruct entries as [|entry rest].
    { eexists. split; [reflexivity|]. split; [done|].
      intros Hex. by inversion Hex. }
    assert (Hlength
      : truthy (JNum (Z.of_nat (List.length (entry :: rest)))) = true).
    { cbn [List.length truthy]. rewrite Nat2Z.inj_succ.
      apply negb_true_iff, Z.eqb_neq. lia. }
    rewrite Hlength. cbn [negb].
    destruct (mapImages_result h 0 (entry :: rest) Hreadable)
      as (elements & -> & Hnone).
    cbn [mbind Completion_bind].
    set (kept := List.filter (fun element => truthy (JStr element)) elements)
      in *.
    assert (Hkept : Forall (fun part => truthy (JStr part) = true) kept).
    { apply List.Forall_forall. intros part Hin.
      by apply filter_In in Hin as [_ ?]. }
    rewrite truthy_JStr_eqb.
    destruct (String.eqb_spec (join "" kept) "") as [Hjoin|Hjoin]; cbn [negb].
    + eexists. split; [reflexivity|]. split; [done|].
      intros Hex. apply (join_empty _ Hkept) in Hjoin. apply Hnone in Hjoin.
      apply List.Exists_exists in Hex as (bad & Hin & Hbad).
      rewrite List.Forall_forall in Hjoin. by specialize (Hjoin bad Hin).
    + eexists. split; [reflexivity|]. split.
      * intros Hall. apply Hnone in Hall. rewrite Hall in Hjoin. done.
      * intros _. split.
        -- unfold galleryContainer, GALLERY_NOT_AVAILABLE, DQ.
           rewrite !append_cons, !append_nil. discriminate.
        -- by eexists _, _, _.
  - intros entries Hunreadable.
    unfold generateGalleryHtml. cbn zeta. cbn [images_or_empty images_length].
    destruct entries as [|entry rest]; [by inversion Hunreadable|].
    assert (Hlength
      : truthy (JNum (Z.of_nat (List.length (entry :: rest)))) = true).
    { cbn [List.length truthy]. rewrite Nat2Z.inj_succ.
      apply negb_true_iff, Z.eqb_neq. lia. }
    rewrite Hlength. cbn [negb].
    destruct (mapImages_throws h 0 (entry :: rest)) as (error & ->);
      [|by eexists].
    eapply List.Exists_impl; [|exact Hunreadable].
    by intros e [-> | ->].
  - intros v. unfold generateGalleryHtml. cbn zeta.
    destruct v as [| |[]|n|s]; try reflexivity.
    + cbn [images_or_empty truthy]. by destruct (negb (n =? 0)).
    + cbn [images_or_empty]. rewrite truthy_JStr_eqb.
      destruct (String.eqb_spec s "") as [->|Hs]; [reflexivity|].
      cbn [negb images_length].
      assert (Hlength : truthy (JNum (Z.of_nat (String.length s))) = true).
      { destruct s as [|c s]; [done|]. cbn [String.length truthy].
        rewrite Nat2Z.inj_succ. apply negb_true_iff, Z.eqb_neq. lia. }
      by rewrite Hlength.
  - intros o. unfold generateGalleryHtml. cbn zeta.
    cbn [images_or_empty images_length].
    by destruct (truthy (obj_get "length" o)).
Qed.

Lemma generateGalleryHtml_outcomes_witness :
  generateGalleryHtml example_host empty_metadata (ImagesPrimitive JUndefined)
    DUndefined DUndefined
  = Normal GALLERY_NOT_AVAILABLE
  /\ (exists error,
       generateGalleryHtml example_host empty_metadata
         (ImagesArray [ImagePrimitive JNull]) DUndefined DUndefined
       = Throw error)
  /\ generateGalleryHtml example_host empty_metadata
       (ImagesPrimitive (JStr "abc")) DUndefined DUndefined
     = Throw "TypeError: images.map is not a function"
  /\ exists html,
      generateGalleryHtml example_host empty_metadata
        (ImagesArray
           [ImageObject
              {| img_url := JUndefined;
                 img_src := JStr "https://mybusiness.com/embed/123";
                 img_alt := JUndefined; img_title := JUndefined |}])
        DUndefined DUndefined
      = Normal html
      /\ html <> GALLERY_NOT_AVAILABLE.
Proof.
  destruct (generateGalleryHtml_outcomes example_host empty_metadata
              DUndefined DUndefined)
    as (Harray & Hthrows & Hprimitive & _).
  split; [exact (Hprimitive JUndefined)|].
  split; [apply Hthrows; constructor; by left|].
  split; [exact (Hprimitive (JStr "abc"))|].
  destruct (Harray
              [ImageObject
                 {| img_url := JUndefined;
                    img_src := JStr "https://mybusiness.com/embed/123";
                    img_alt := JUndefined; img_title := JUndefined |}])
    as (html & Hhtml & _ & Hsome); [by repeat constructor|].
  exists html. split; [exact Hhtml|].
  apply Hsome. constructor. vm_compute. discriminate.
Defined.

(** ** utils/security: sanitizeText *)

Lemma removeChars_sublist (class : ascii -> bool) (s : string) :
  sublist (chars (removeChars class s)) (chars s).
Proof.
  induction s as [|c s IH]; [done|]. cbn [removeChars].
  destruct (class c); cbn [list_ascii_of_string];
    [by apply sublist_cons | by apply sublist_skip].
Qed.

Lemma removeTags_sublist (inTag : bool) (s : string) :
  sublist (chars (removeTags inTag s)) (chars s).
Proof.
  revert inTag. induction s as [|c s IH]; intros inTag; [done|].
  cbn [removeTags]. destruct inTag; [by apply sublist_cons|].
  destruct (Ascii.eqb c "<" && contains ">" s); cbn [list_ascii_of_string];
    [by apply sublist_cons | by apply sublist_skip].
Qed.

Lemma removeLiteral_sublist (p : string) (skip : nat) (s : string) :
  sublist (chars (removeLiteral p skip s)) (chars s).
Proof.
  revert skip. induction s as [|c s IH]; intros skip; [done|].
  cbn [removeLiteral]. destruct skip; [|by apply sublist_cons].
  destruct (isPrefixOfCI p (String c s)); cbn [list_ascii_of_string];
    [by apply sublist_cons | by apply sublist_skip].
Qed.

Lemma trimStart_sublist (s : string) : sublist (chars (trimStart s)) (chars s).
Proof.
  induction s as [|c s IH]; [done|]. cbn [trimStart].
  destruct (isWhiteSpace c); [by apply sublist_cons | done].
Qed.

Lemma trimEnd_sublist (s : string) : sublist (chars (trimEnd s)) (chars s).
Proof.
  induction s as [|c s IH]; [done|]. cbn [trimEnd].
  destruct (String.eqb (trimEnd s) "" && isWhiteSpace c);
    cbn [list_ascii_of_string]; [apply sublist_nil_l | by apply sublist_skip].
Qed.

Lemma substring_0_sublist (m : nat) (s : string) :
  sublist (chars (String.substring 0 m s)) (chars s).
Proof.
  revert m. induction s as [|c s IH]; intros [|m]; cbn [String.substring];
    cbn [list_ascii_of_string]; try done.
  - apply sublist_nil_l.
  - by apply sublist_skip.
Qed.

Lemma allChars_sublist (p : ascii -> bool) (r s : string) :
  sublist (chars r) (chars s) -> allChars p s = true -> allChars p r = true.
Proof.
  revert r. induction s as [|c s IH]; intros r Hsub.
  - destruct r; [done|]. cbn in Hsub. by apply sublist_nil_r in Hsub.
  - cbn [allChars list_ascii_of_string] in *. intros [Hc Hs]%andb_true_iff.
    destruct r as [|c' r]; [done|]. cbn [list_ascii_of_string] in Hsub.
    apply sublist_cons_r in Hsub as [Hsub | (l' & Heq & Hsub)].
    + by apply IH.
    + injection Heq as -> <-. cbn [allChars]. rewrite Hc. by apply IH.
Qed.

Lemma contains_sublist (x : ascii) (r s : string) :
  sublist (chars r) (chars s) -> contains x s = false -> contains x r = false.
Proof.
  revert r. induction s as [|c s IH]; intros r Hsub.
  - destruct r; [done|]. cbn in Hsub. by apply sublist_nil_r in Hsub.
  - cbn [contains list_ascii_of_string] in *. intros [Hc Hs]%orb_false_iff.
    destruct r as [|c' r]; [done|]. cbn [list_ascii_of_string] in Hsub.
    apply sublist_cons_r in Hsub as [Hsub | (l' & Heq & Hsub)].
    + by apply IH.
    + injection Heq as -> <-. cbn [contains]. rewrite Hc. by apply IH.
Qed.

Lemma hasTag_sublist (r s : string) :
  sublist (chars r) (chars s) -> hasTag s = false -> hasTag r = false.
Proof.
  revert r. induction s as [|c s IH]; intros r Hsub.
  - destruct r; [done|]. cbn in Hsub. by apply sublist_nil_r in Hsub.
  - cbn [hasTag list_ascii_of_string] in *. intros [Hc Hs]%orb_false_iff.
    destruct r as [|c' r]; [done|]. cbn [list_ascii_of_string] in Hsub.
    apply sublist_cons_r in Hsub as [Hsub | (l' & Heq & Hsub)].
    + by apply IH.
    + injection Heq as -> Heq. cbn [hasTag].
      assert (Hr : sublist (chars r) (chars s)) by (by rewrite Heq).
      rewrite (IH r Hr Hs), orb_false_r.
      apply andb_false_iff in Hc as [Hc | Hc]; [by rewrite Hc|].
      by rewrite (contains_sublist ">" r s Hr Hc), andb_false_r.
Qed.

Lemma removeChars_clean (class : ascii -> bool) (s : string) :
  allChars (fun c => negb (class c)) (removeChars class s) = true.
Proof.
  induction s as [|c s IH]; [done|]. cbn [removeChars].
  destruct (class c) eqn:Hc; [done|]. cbn [allChars]. by rewrite Hc.
Qed.

Lemma removeTags_clean (inTag : bool) (s : string) :
  hasTag (removeTags inTag s) = false.
Proof.
  revert inTag. induction s as [|c s IH]; intros inTag; [done|].
  cbn [removeTags]. destruct inTag; [done|].
  destruct (Ascii.eqb c "<" && contains ">" s) eqn:Hopen; [done|].
  cbn [hasTag]. rewrite IH, orb_false_r.
  apply andb_false_iff in Hopen as [Hc | Hc]; [by rewrite Hc|].
  by rewrite (contains_sublist ">" _ s (removeTags_sublist false s) Hc),
    andb_false_r.
Qed.

(** X24: [sanitizeText] only deletes: its result is the input with some
    characters left out, at most [maxLength] of them remain, no control
    character is among them, and no [<] of the result has a [>] after it,
    so that no tag is left, also none put together by the later deletions.
    A value that is not a string gives the empty string. *)
Theorem sanitizeText_result (s : string) (maxLength : Z) :
  let result := sanitizeText (JStr s) maxLength in
  sublist (chars result) (chars s)
  /\ Z.of_nat (String.length result) <= Z.max 0 maxLength
  /\ allChars (fun c => negb (isControlChar c)) result = true
  /\ hasTag result = false
  /\ sanitizeText JUndefined maxLength = ""
  /\ sanitizeText JNull maxLength = ""
  /\ (forall n, sanitizeText (JNum n) maxLength = "").
Proof.
  cbn zeta. unfold sanitizeText, trim.
  set (s1 := removeChars isControlChar s).
  set (s2 := removeTags false s1).
  set (s3 := removeLiteral "javascript:" 0 s2).
  set (s4 := removeLiteral "data:" 0 s3).
  set (s5 := removeLiteral "vbscript:" 0 s4).
  set (s6 := trimStart s5). set (s7 := trimEnd s6).
  set (result := String.substring 0 (Z.to_nat maxLength) s7).
  assert (H1 : sublist (chars s1) (chars s)) by apply removeChars_sublist.
  assert (H2 : sublist (chars s2) (chars s1)) by apply removeTags_sublist.
  assert (Hlate : sublist (chars result) (chars s2)).
  { transitivity (chars s7); [apply substring_0_sublist|].
    transitivity (chars s6); [apply trimEnd_sublist|].
    transitivity (chars s5); [apply trimStart_sublist|].
    transitivity (chars s4); [apply removeLiteral_sublist|].
    transitivity (chars s3); apply removeLiteral_sublist. }
  split; [by transitivity (chars s2); [|transitivity (chars s1)]|].
  split; [subst result; rewrite length_substring_0; lia|].
  split.
  - apply (allChars_sublist _ result s1);
      [by transitivity (chars s2) | apply removeChars_clean].
  - split; [|done].
    apply (hasTag_sublist result s2 Hlate), removeTags_clean.
Qed.

(** ** integration/getContentMetadata *)

Lemma retryLoop_normal {A} (result : A) (remaining : nat) :
  retryLoop (Normal result) remaining = Normal result.
Proof. by destruct remaining. Qed.

Lemma append_nonempty_r (a b : string) : b <> "" -> a +:+ b <> "".
Proof.
  intros Hb. destruct a as [|c a]; [done|]. by rewrite append_cons.
Qed.

Lemma truthy_siteUrl (contentParams : ContentParams) (path : string) :
  truthy (JStr (siteUrl contentParams path)) = true.
Proof.
  rewrite truthy_JStr_eqb. apply negb_true_iff, String.eqb_neq.
  unfold siteUrl. apply append_nonempty_r. by rewrite !append_cons.
Qed.

(** Metadata with the field its type requires is turned into a response. *)
Lemma createTypeSpecificResponse_builds
    (h : Host) (metadata : Metadata) (maxwidth maxheight : Dimension) :
  (md_type metadata = JStr "photo" -> truthy (md_url metadata) = true) ->
  (md_type metadata = JStr "video" ->
   truthy (md_html metadata) = true \/ truthy (md_embedUrl metadata) = true) ->
  exists r, createTypeSpecificResponse h metadata maxwidth maxheight = Normal r.
Proof.
  intros Hphoto Hvideo.
  destruct (createTypeSpecificResponse h metadata maxwidth maxheight)
    as [r|message] eqn:Hr; [by exists r|].
  apply createTypeSpecificResponse_throw_cases in Hr
    as [[Htype Hurl] | (Htype & Hhtml & Hembed)].
  - rewrite (Hphoto Htype) in Hurl. done.
  - destruct (Hvideo Htype); congruence.
Qed.

Lemma capped_limit (limit : Dimension) (cap n : Z) :
  limit = DNum n -> n <> 0 -> capped limit cap = DNum (Z.min n cap).
Proof.
  intros -> Hn. unfold capped, dim_or. cbn.
  apply Z.eqb_neq in Hn. by rewrite Hn.
Qed.

Lemma fetchContentFromBackend_cases (contentParams : ContentParams) :
  exists metadata type cacheAge,
    fetchContentFromBackend contentParams = Normal metadata
    /\ md_type metadata = JStr type
    /\ type = (if includes ["video"; "photo"; "rich"]
                    (cp_contentType contentParams)
               then cp_contentType contentParams else "link")
    /\ DEFAULT_CACHE_AGES type = Some cacheAge
    /\ md_cache_age metadata = JNum cacheAge
    /\ (md_type metadata = JStr "photo" -> truthy (md_url metadata) = true)
    /\ (md_type metadata = JStr "video" ->
        truthy (md_embedUrl metadata) = true)
    /\ (type <> "link" ->
        forall limit,
          cp_maxwidth contentParams = DNum limit -> limit <> 0 ->
          exists w, md_width metadata = DNum w /\ w <= limit).
Proof.
  unfold fetchContentFromBackend. cbn zeta. cbn [includes existsb].
  destruct (String.eqb_spec (cp_contentType contentParams) "video") as [->|Hv].
  { eexists _, "video", 3600. repeat (split; [reflexivity|]).
    split; [done|]. split; [intros _; apply truthy_siteUrl|].
    intros _ limit Hlimit Hne. eexists.
    cbn [md_width fetchVideoMetadata].
    rewrite (capped_limit _ _ _ Hlimit Hne). split; [reflexivity | lia]. }
  destruct (String.eqb_spec (cp_contentType contentParams) "photo") as [->|Hp].
  { eexists _, "photo", 7200. repeat (split; [reflexivity|]).
    split; [intros _; apply truthy_siteUrl|]. split; [done|].
    intros _ limit Hlimit Hne. eexists.
    cbn [md_width fetchPhotoMetadata].
    rewrite (capped_limit _ _ _ Hlimit Hne). split; [reflexivity | lia]. }
  destruct (String.eqb_spec (cp_contentType contentParams) "rich") as [->|Hr].
  { eexists _, "rich", 1800. repeat (split; [reflexivity|]).
    split; [done|]. split; [done|].
    intros _ limit Hlimit Hne. eexists.
    cbn [md_width fetchRichContentMetadata].
    rewrite (capped_limit _ _ _ Hlimit Hne). split; [reflexivity | lia]. }
  eexists _, "link", 3600. repeat (split; [reflexivity|]).
  split; [done|]. split; [done|]. done.
Qed.

(** X25: the example backend answers every content type.  What
    [fetchContentFromBackend] returns has the type asked for, or link for
    any other, the cache age that [DEFAULT_CACHE_AGES] lists for that
    type, and the field the response builder requires of it, so that
    building the response never fails; the retry wrapper returns the same
    metadata; and for the types with dimensions a width limit of the
    request that is not zero bounds the width of the metadata. *)
Theorem fetchContentFromBackend_metadata (contentParams : ContentParams) :
  exists metadata type cacheAge,
    fetchContentFromBackend contentParams = Normal metadata
    /\ fetchContentFromBackendWithRetry contentParams = Normal metadata
    /\ md_type metadata = JStr type
    /\ type = (if includes ["video"; "photo"; "rich"]
                    (cp_contentType contentParams)
               then cp_contentType contentParams else "link")
    /\ DEFAULT_CACHE_AGES type = Some cacheAge
    /\ md_cache_age metadata = JNum cacheAge
    /\ (forall h maxwidth maxheight,
        exists r,
          createTypeSpecificResponse h metadata maxwidth maxheight = Normal r)
    /\ (type <> "link" ->
        forall limit,
          cp_maxwidth contentParams = DNum limit -> limit <> 0 ->
          exists w, md_width metadata = DNum w /\ w <= limit).
Proof.
  destruct (fetchContentFromBackend_cases contentParams)
    as (metadata & type & cacheAge & Hfetch & Htype & Hwhich & Hage & Hcache
        & Hphoto & Hvideo & Hwidth).
  exists metadata, type, cacheAge.
  split; [done|]. split.
  { unfold fetchContentFromBackendWithRetry, retryWithBackoff.
    by rewrite Hfetch, retryLoop_normal. }
  do 4 (split; [done|]). split; [|done].
  intros h maxwidth maxheight.
  apply createTypeSpecificResponse_builds; [done|]. intros Hv. right. auto.
Qed.

Lemma fetchContentFromBackend_metadata_witness :
  exists metadata w,
    fetchContentFromBackend
      {| cp_contentId := Some "123"; cp_contentType := "photo";
         cp_url := Some "https://mybusiness.com/photo/123";
         cp_hostname := "mybusiness.com"; cp_pathname := "/photo/123";
         cp_queryParams := ∅; cp_maxwidth := DNum 800;
         cp_maxheight := DUndefined; cp_pathSegments := ["photo"; "123"];
         cp_protocol := "https:" |}
    = Normal metadata
    /\ md_cache_age metadata = JNum 7200
    /\ md_width metadata = DNum w /\ w <= 800.
Proof.
  destruct (fetchContentFromBackend_metadata
              {| cp_contentId := Some "123"; cp_contentType := "photo";
                 cp_url := Some "https://mybusiness.com/photo/123";
                 cp_hostname := "mybusiness.com"; cp_pathname := "/photo/123";
                 cp_queryParams := ∅; cp_maxwidth := DNum 800;
                 cp_maxheight := DUndefined;
                 cp_pathSegments := ["photo"; "123"];
                 cp_protocol := "https:" |})
    as (metadata & type & cacheAge & Hfetch & _ & _ & Htype & Hage & Hcache
        & _ & Hwidth).
  cbn in Htype. subst type. injection Hage as <-.
  destruct (Hwidth ltac:(discriminate) 800 eq_refl ltac:(lia)) as (w & Hw & Hle).
  exists metadata, w. by repeat split.
Defined.

Lemma getContentMetadata_normal
    (h : Host) (searchParams : URL -> list (string * string)) (isTest : bool)
    (url : option string) (maxwidth maxheight : Dimension) :
  exists metadata,
    getContentMetadata h searchParams isTest url maxwidth maxheight
    = Normal metadata
    /\ (URL_parse h (ToString (opt_js url)) = None ->
        metadata = createEmptyMetadata)
    /\ (isTest = false ->
        forall h' maxwidth' maxheight',
          exists r,
            createTypeSpecificResponse h' metadata maxwidth' maxheight'
            = Normal r).
Proof.
  assert (Hempty : forall h' maxwidth' maxheight',
    exists r,
      createTypeSpecificResponse h' createEmptyMetadata maxwidth' maxheight'
      = Normal r).
  { intros. by apply createTypeSpecificResponse_builds. }
  unfold getContentMetadata, parseContentUrl, new_URL.
  destruct (URL_parse h (ToString (opt_js url))) as [urlObj|].
  - destruct isTest.
    + destruct url as [url|]; eexists; (split; [reflexivity|]); by split.
    + match goal with
      | |- context [fetchContentFromBackendWithRetry ?cp] =>
          destruct (fetchContentFromBackend_cases cp)
            as (metadata & type & cacheAge & Hfetch & _ & _ & _ & _
                & Hphoto & Hvideo & _)
      end.
      unfold fetchContentFromBackendWithRetry, retryWithBackoff.
      rewrite Hfetch, retryLoop_normal. exists metadata.
      split; [reflexivity|]. split; [done|]. intros _ h' maxwidth' maxheight'.
      apply createTypeSpecificResponse_builds; [done|]. intros Hv. right. auto.
  - eexists. split; [reflexivity|]. split; [done|]. intros _. apply Hempty.
Qed.

(** X26: [getContentMetadata] never throws.  When the URL does not parse it
    returns the metadata of a link titled Content Not Available with a
    cache age of 300 seconds; and outside the test environment whatever it
    returns is metadata that the response builder turns into a response. *)
Theorem getContentMetadata_never_throws
    (h : Host) (searchParams : URL -> list (string * string)) (isTest : bool)
    (url : option string) (maxwidth maxheight : Dimension) :
  exists metadata,
    getContentMetadata h searchParams isTest url maxwidth maxheight
    = Normal metadata
    /\ (URL_parse h (ToString (opt_js url)) = None ->
        metadata = createEmptyMetadata
        /\ md_type metadata = JStr "link"
        /\ md_title metadata = JStr "Content Not Available"
        /\ md_cache_age metadata = JNum 300)
    /\ (isTest = false ->
        forall h' maxwidth' maxheight',
          exists r,
            createTypeSpecificResponse h' metadata maxwidth' maxheight'
            = Normal r).
Proof.
  destruct (getContentMetadata_normal h searchParams isTest url maxwidth
              maxheight) as (metadata & Hget & Hfail & Hbuilds).
  exists metadata. split; [done|]. split; [|done].
  intros Hparse. by rewrite (Hfail Hparse).
Qed.

Lemma getContentMetadata_never_throws_witness :
  getContentMetadata example_host (fun _ => []) false (Some "not a url")
    DUndefined DUndefined
  = Normal createEmptyMetadata.
Proof.
  destruct (getContentMetadata_never_throws example_host (fun _ => []) false
              (Some "not a url") DUndefined DUndefined)
    as (metadata & Hget & Hfail & _).
  destruct (Hfail eq_refl) as [<- _]. exact Hget.
Defined.

(** X27: with [getContentMetadata] as its backend and outside the test
    environment, the handler answers every request that passes validation
    and authorization with status 200: the backend never fails and its
    metadata always builds. *)
Theorem handler_with_getContentMetadata
    (h : Host) (searchParams : URL -> list (string * string)) (event : Event) :
  let params : QueryParams := default ∅ (queryStringParameters event) in
  let sanitized := sanitizeParams h (Some params) in
  isValid (validateOembedParams (Some params)) = true ->
  (exists urlObj hostname pathname,
     validateAndAuthorizeUrl h (sanitized_url sanitized)
     = Normal (AuthValid urlObj hostname pathname)) ->
  exists data,
    handler h (getContentMetadata h searchParams false) event
    = formatResponse data (str_or (params !! "format") "json")
    /\ statusCode (handler h (getContentMetadata h searchParams false) event)
       = 200.
Proof.
  intros params sanitized Hvalid (urlObj & hostname & pathname & Hauth).
  destruct (getContentMetadata_normal h searchParams false
              (sanitized_url sanitized) (sanitized_maxwidth sanitized)
              (sanitized_maxheight sanitized))
    as (metadata & Hget & _ & Hbuilds).
  destruct (Hbuilds eq_refl h (sanitized_maxwidth sanitized)
              (sanitized_maxheight sanitized)) as [data Hdata].
  exists data.
  assert (Hresponse :
    handler h (getContentMetadata h searchParams false) event
    = formatResponse data (str_or (params !! "format") "json")).
  { unfold handler, handler_try. cbn zeta. fold params. fold sanitized.
    rewrite Hvalid. cbn [negb]. rewrite Hauth. cbn [mbind Completion_bind].
    rewrite Hget. cbn [mbind Completion_bind]. rewrite Hdata. reflexivity. }
  split; [exact Hresponse|]. rewrite Hresponse. apply formatResponse_statusCode.
Qed.

Lemma handler_with_getContentMetadata_witness :
  statusCode
    (handler example_host (getContentMetadata example_host (fun _ => []) false)
       (request [("url", "https://mybusiness.com/video/123");
                 ("maxwidth", "800")]))
  = 200.
Proof.
  destruct (handler_with_getContentMetadata example_host (fun _ => [])
              (request [("url", "https://mybusiness.com/video/123");
                        ("maxwidth", "800")]))
    as (data & _ & Hstatus).
  - vm_compute. reflexivity.
  - do 3 eexists. vm_compute. reflexivity.
  - exact Hstatus.
Defined.

(** X28: in the test environment the metadata is turned into a response
    exactly when the URL contains one of the two paths with fixed metadata
    or the inferred content type is neither photo nor video: the fallback
    metadata carries the type and no [url], [html] or [embedUrl]. *)
Theorem getTestMetadata_builds_iff
    (h : Host) (url : string) (contentParams : ContentParams)
    (maxwidth maxheight : Dimension) :
  (exists r,
     createTypeSpecificResponse h (getTestMetadata url contentParams)
       maxwidth maxheight = Normal r)
  <-> str_includes url "/video/123" = true
      \/ str_includes url "/content/123" = true
      \/ (cp_contentType contentParams <> "photo"
          /\ cp_contentType contentParams <> "video").
Proof.
  unfold getTestMetadata.
  destruct (str_includes url "/video/123");
    [split; [by auto|]; intros _;
     by apply createTypeSpecificResponse_builds; [|right]|].
  destruct (str_includes url "/content/123");
    [split; [by auto|]; intros _; by apply createTypeSpecificResponse_builds|].
  set (metadata := {| md_type := _ |}).
  assert (Htype : md_type metadata
                  = JStr (str_or (Some (cp_contentType contentParams)) "rich"))
    by reflexivity.
  cbn [str_or] in Htype.
  split.
  - intros [r Hr]. right; right. split; intros Heq.
    + rewrite Heq in Htype. cbn in Htype.
      by rewrite (createPhotoResponse_requires_url h metadata _ _ Htype eq_refl)
        in Hr.
    + rewrite Heq in Htype. cbn in Htype.
      by rewrite (createVideoResponse_requires_embed h metadata _ _ Htype
                    eq_refl eq_refl) in Hr.
  - intros [?|[?|[Hphoto Hvideo]]]; [done | done |].
    apply createTypeSpecificResponse_builds; rewrite Htype;
      destruct (String.eqb (cp_contentType contentParams) ""); congruence.
Qed.

(** ** config/environment *)

Lemma truthy_str_or (value : option string) (d : string) :
  d <> "" -> truthy (JStr (str_or value d)) = true.
Proof.
  intros Hd. rewrite truthy_JStr_eqb. apply negb_true_iff, String.eqb_neq.
  by apply str_or_default_nonempty.
Qed.

Lemma str_or_undefined (value : option string) (d : string) :
  d <> "" -> d <> "undefined" ->
  str_or value d = "undefined" <-> value = Some "undefined".
Proof.
  intros Hd Hu. destruct value as [v|]; cbn [str_or]; [|by split].
  destruct (String.eqb_spec v "") as [->|Hv]; split; congruence.
Qed.

(** The errors of [validateConfig]: the required variables, then the
    provider URL, then the warnings. *)
Lemma validateConfig_errors (h : Host) (processEnv : ProcessEnv) :
  let cfg := config processEnv in
  exists warnings,
    cv_errors (validateConfig h processEnv)
    = ((if String.eqb (cfg_providerName cfg) "undefined"
        then [requiredError "PROVIDER_NAME"] else [])
       ++ (if String.eqb (cfg_providerUrl cfg) "undefined"
           then [requiredError "PROVIDER_URL"] else [])
       ++ (if String.eqb (cfg_providerDomain cfg) "undefined"
           then [requiredError "PROVIDER_DOMAIN"] else []))
      ++ (if config_isValidUrl h (cfg_providerUrl cfg) then []
          else [{| ce_variable := "PROVIDER_URL";
                   ce_message := "PROVIDER_URL must be a valid URL";
                   ce_severity := "error" |}])
      ++ warnings
    /\ Forall (fun e => ce_severity e = "warning") warnings.
Proof.
  cbn zeta. unfold validateConfig. cbn zeta.
  cbn [cv_errors cfg_providerName cfg_providerUrl cfg_providerDomain
       cfg_logLevel cfg_environment config fold_left fst snd].
  rewrite !truthy_str_or by done. cbn [negb orb andb].
  destruct (String.eqb (str_or (processEnv !! "PROVIDER_NAME") _) "undefined");
    destruct (String.eqb (str_or (processEnv !! "PROVIDER_URL") _) "undefined");
    destruct (String.eqb (str_or (processEnv !! "PROVIDER_DOMAIN") _)
                "undefined");
    cbn [app];
    destruct (config_isValidUrl h _); cbn [negb app];
    (destruct (negb (isValidDomain _));
     destruct (negb (includes _ (str_or (processEnv !! "LOG_LEVEL") "INFO")));
     destruct (negb (includes _ (str_or (processEnv !! "ENVIRONMENT") "dev")));
     eexists; (split; [rewrite <- ?app_assoc; cbn [app]; reflexivity|]);
     by repeat constructor).
Qed.

Lemma filter_warnings (warnings : list ConfigError) :
  Forall (fun e => ce_severity e = "warning") warnings ->
  List.filter (fun e => String.eqb (ce_severity e) "error") warnings = [].
Proof.
  induction 1 as [|e warnings He _ IH]; [done|].
  cbn [List.filter]. by rewrite He, IH.
Qed.

(** X29: [validateConfig] finds the configuration valid exactly when none
    of the three provider variables holds the text undefined and the
    provider URL, as configured or by default, is one [new URL] accepts.
    Because [config] has replaced every missing or empty variable by its
    default before the check, a variable is reported as required only when
    it holds the text undefined, never when it is missing.  An invalid
    domain, log level or environment name is a warning, which does not
    make the configuration invalid. *)
Theorem validateConfig_isValid (h : Host) (processEnv : ProcessEnv) :
  let result := validateConfig h processEnv in
  (cv_isValid result = true
   <-> processEnv !! "PROVIDER_NAME" <> Some "undefined"
       /\ processEnv !! "PROVIDER_URL" <> Some "undefined"
       /\ processEnv !! "PROVIDER_DOMAIN" <> Some "undefined"
       /\ URL_parse h (cfg_providerUrl (config processEnv)) <> None)
  /\ (In (requiredError "PROVIDER_NAME") (cv_errors result)
      <-> processEnv !! "PROVIDER_NAME" = Some "undefined")
  /\ (In (requiredError "PROVIDER_URL") (cv_errors result)
      <-> processEnv !! "PROVIDER_URL" = Some "undefined")
  /\ (In (requiredError "PROVIDER_DOMAIN") (cv_errors result)
      <-> processEnv !! "PROVIDER_DOMAIN" = Some "undefined")
  /\ (forall e,
      In e (cv_errors result) ->
      ce_severity e = "error" \/ ce_severity e = "warning").
Proof.
  cbn zeta.
  destruct (validateConfig_errors h processEnv) as (warnings & Herrors & Hw).
  assert (Hvalid : cv_isValid (validateConfig h processEnv)
    = (List.length
         (List.filter (fun e => String.eqb (ce_severity e) "error")
            (cv_errors (validateConfig h processEnv))) =? 0)%nat)
    by reflexivity.
  rewrite Hvalid, Herrors. clear Hvalid Herrors.
  cbn [cfg_providerName cfg_providerUrl cfg_providerDomain config].
  rewrite <- (str_or_undefined (processEnv !! "PROVIDER_NAME")
                "oEmbed Provider") by done.
  rewrite <- (str_or_undefined (processEnv !! "PROVIDER_URL")
                "https://example.com") by done.
  rewrite <- (str_or_undefined (processEnv !! "PROVIDER_DOMAIN")
                "example.com") by done.
  unfold config_isValidUrl, new_URL.
  set (name := str_or (processEnv !! "PROVIDER_NAME") "oEmbed Provider").
  set (url := str_or (processEnv !! "PROVIDER_URL") "https://example.com").
  set (domain := str_or (processEnv !! "PROVIDER_DOMAIN") "example.com").
  assert (Hnotin : forall key, ~ In (requiredError key) warnings).
  { intros key Hin. rewrite List.Forall_forall in Hw.
    by specialize (Hw _ Hin). }
  rewrite !List.filter_app, (filter_warnings warnings Hw), !app_nil_r.
  destruct (String.eqb_spec name "undefined") as [Hname|Hname];
    destruct (String.eqb_spec url "undefined") as [Hurl|Hurl];
    destruct (String.eqb_spec domain "undefined") as [Hdomain|Hdomain];
    destruct (URL_parse h url) as [urlObj|];
    cbn [app List.filter ce_severity requiredError String.eqb Ascii.eqb
         Bool.eqb List.length Nat.eqb];
    (split; [split; [try discriminate; intros _; by repeat split
                    | intros (? & ? & ? & ?); done]|]);
    unfold requiredError in *; rewrite ?append_cons, ?append_nil;
    rewrite ?in_app_iff; cbn [In];
    (split; [split; [intros Hin; try done;
                     repeat destruct Hin as [Hin | Hin];
                     try discriminate Hin; try done;
                     by destruct (Hnotin "PROVIDER_NAME")
                    | intros Hin; try done; auto 10]|]);
    (split; [split; [intros Hin; try done;
                     repeat destruct Hin as [Hin | Hin];
                     try discriminate Hin; try done;
                     by destruct (Hnotin "PROVIDER_URL")
                    | intros Hin; try done; auto 10]|]);
    (split; [split; [intros Hin; try done;
                     repeat destruct Hin as [Hin | Hin];
                     try discriminate Hin; try done;
                     by destruct (Hnotin "PROVIDER_DOMAIN")
                    | intros Hin; try done; auto 10]|]);
    intros e Hin; repeat destruct Hin as [Hin | Hin]; subst; auto;
    rewrite List.Forall_forall in Hw; right; by apply Hw.
Qed.

Lemma validateConfig_isValid_witness :
  ~ In (requiredError "PROVIDER_URL") (cv_errors (validateConfig example_host ∅))
  /\ In (requiredError "PROVIDER_URL")
       (cv_errors (validateConfig example_host
                     (list_to_map [("PROVIDER_URL", "undefined")]))).
Proof.
  destruct (validateConfig_isValid example_host ∅) as (_ & _ & Hmissing & _).
  destruct (validateConfig_isValid example_host
              (list_to_map [("PROVIDER_URL", "undefined")]))
    as (_ & _ & Hundefined & _).
  split.
  - intros Hin. apply Hmissing in Hin. discriminate Hin.
  - apply Hundefined. reflexivity.
Defined.

Lemma labelTail_chars (s : string) :
  labelTail s = true -> allChars isDomainChar s = true.
Proof.
  induction s as [|c s IH]; [done|]. cbn [labelTail allChars].
  destruct s as [|c' s].
  - intros Hc. unfold isDomainChar. by rewrite Hc.
  - intros [Hc Hs]%andb_true_iff. rewrite (IH Hs), andb_true_r.
    unfold isDomainChar. apply orb_true_iff in Hc as [-> | ->]; [done|].
    by rewrite orb_true_r.
Qed.

Lemma isLabel_chars (part : string) :
  isLabel part = true -> allChars isDomainChar part = true.
Proof.
  destruct part as [|c rest]; [done|]. cbn [isLabel allChars].
  intros [Hc Hrest]%andb_true_iff. unfold isDomainChar at 1. rewrite Hc.
  cbn [orb andb]. apply orb_true_iff in Hrest as [->%String.eqb_eq | Hrest];
    [done | by apply labelTail_chars].
Qed.

Lemma allChars_str_split (p : ascii -> bool) (sep : ascii) (s : string) :
  p sep = true ->
  Forall (fun piece => allChars p piece = true) (str_split sep s) ->
  allChars p s = true.
Proof.
  intros Hsep. induction s as [|c s IH]; [done|]. cbn [str_split allChars].
  destruct (Ascii.eqb_spec c sep) as [->|Hc].
  - intros Hall. inversion Hall; subst. rewrite Hsep. by apply IH.
  - destruct (str_split sep s) as [|piece pieces].
    + intros Hall. inversion Hall as [|? ? Hpiece _]; subst.
      cbn [allChars] in Hpiece. apply andb_true_iff in Hpiece as [-> _].
      by apply IH.
    + intros Hall. inversion Hall as [|? ? Hpiece Hpieces]; subst.
      cbn [allChars] in Hpiece. apply andb_true_iff in Hpiece as [-> Hpiece].
      apply IH. by constructor.
Qed.

(** X30: [isValidDomain] accepts exactly the strings of at most 253
    characters that split at the dots into two or more labels, each of 1 to
    63 characters and of the form the label pattern asks for; the test of
    the whole string against the character class never decides, since the
    labels of such a string hold allowed characters only.  Joining the
    labels with dots gives the domain back. *)
Theorem isValidDomain_labels (domain : string) :
  let parts := str_split "." domain in
  (isValidDomain domain = true
   <-> (String.length domain <= 253)%nat
       /\ (2 <= List.length parts)%nat
       /\ Forall (fun part =>
                    (1 <= String.length part <= 63)%nat
                    /\ isLabel part = true) parts)
  /\ join "." parts = domain.
Proof.
  cbn zeta. split; [|apply (str_split_join "." domain)].
  unfold isValidDomain. rewrite truthy_JStr_eqb.
  assert (Hforall :
    forallb (fun part =>
               (0 <? String.length part)%nat && (String.length part <=? 63)%nat
               && isLabel part) (str_split "." domain) = true
    <-> Forall (fun part =>
                  (1 <= String.length part <= 63)%nat /\ isLabel part = true)
          (str_split "." domain)).
  { rewrite List.forallb_forall, List.Forall_forall.
    split; intros Hparts part Hin; specialize (Hparts part Hin).
    - apply andb_true_iff in Hparts as [[Hlo Hhi]%andb_true_iff Hlabel].
      apply Nat.ltb_lt in Hlo. apply Nat.leb_le in Hhi. by repeat split; try lia.
    - destruct Hparts as [[Hlo Hhi] ->]. rewrite andb_true_r.
      apply andb_true_iff. split; [apply Nat.ltb_lt | apply Nat.leb_le]; lia. }
  destruct (String.eqb_spec domain "") as [->|Hne]; cbn [negb].
  { split; [done|]. intros (_ & Hparts & _). cbn in Hparts. lia. }
  destruct (Nat.ltb_spec 253 (String.length domain)) as [Hlong|Hshort].
  { split; [done|]. intros (? & _). lia. }
  destruct (Nat.ltb_spec (List.length (str_split "." domain)) 2)
    as [Hfew|Hmany].
  { destruct (allChars isDomainChar domain); cbn [negb andb];
      (split; [done|]); intros (_ & ? & _); lia. }
  destruct (allChars isDomainChar domain) eqn:Hchars; cbn [negb andb].
  - rewrite Hforall. split; [by intros ? | by intros (_ & _ & ?)].
  - split; [done|]. intros (_ & _ & Hparts).
    rewrite (allChars_str_split isDomainChar "." domain) in Hchars; [done|done|].
    eapply List.Forall_impl; [|exact Hparts].
    intros part [_ Hlabel]. by apply isLabel_chars.
Qed.
